(** * nada: rule-based code-quality analyzer -- scoring pipeline

    A shallow embedding of the analyzer of [internal/analyzer], of the rules
    of [internal/rules], of the data model of [internal/types] and of the
    standalone analyzer of [main.go], followed by the properties of the
    scoring pipeline.

    Conventions of the embedding:
    - Go [int] is [Z].  Every [int] of the program counts elements of a slice
      held in memory, lines of a file or nodes of a syntax tree, so the 64-bit
      wrap-around is out of reach and is not written out.
    - Go [float64] is [Q]: the arithmetic of the scores is exact here, and the
      rounding of IEEE-754 division is abstracted.
    - Go [string] is [string] (a sequence of bytes), [map[string]int] is
      [gmap string Z] read with the zero value for a missing key, a slice is
      a [list].
    - The Go standard library the program calls ([os], [path/filepath],
      [go/parser], [regexp]) is the environment [Env]; [go/ast] is the tree
      type [Node] with the fields the program reads.
    - Console output ([fmt.Printf]) is not modelled. *)

From Stdlib Require Import ZArith QArith Qround Qabs Qminmax Lqa String Ascii List Bool Lia.
From stdpp Require Import base option list gmap strings pretty.

Local Open Scope string_scope.
Local Open Scope list_scope.
Local Open Scope Z_scope.

(** ** Package [strings] of the Go standard library, on bytes *)

Module strings.

Fixpoint HasPrefix (s prefix : string) : bool :=
  match prefix, s with
  | EmptyString, _ => true
  | String _ _, EmptyString => false
  | String p prefix', String c s' =>
      if Ascii.eqb c p then HasPrefix s' prefix' else false
  end.

Definition HasSuffix (s suffix : string) : bool :=
  HasPrefix (String.rev s) (String.rev suffix).

Fixpoint Contains (s substr : string) : bool :=
  HasPrefix s substr ||
  match s with
  | EmptyString => false
  | String _ s' => Contains s' substr
  end.

(** [Index s substr]: the byte index of the first occurrence, or -1. *)
Fixpoint Index (s substr : string) : Z :=
  if HasPrefix s substr then 0
  else match s with
       | EmptyString => -1
       | String _ s' =>
           let i := Index s' substr in
           if i <? 0 then -1 else i + 1
       end.

(** [Split s sep] for a separator of one byte; the program only splits
    on the newline.  As in Go, the result is never empty. *)
Fixpoint Split (s : string) (sep : ascii) : list string :=
  match s with
  | EmptyString => [EmptyString]
  | String c s' =>
      if Ascii.eqb c sep then EmptyString :: Split s' sep
      else match Split s' sep with
           | l :: ls => String c l :: ls
           | [] => [String c EmptyString]
           end
  end.

Definition isUpper (c : ascii) : bool :=
  (65 <=? Z.of_N (N_of_ascii c)) && (Z.of_N (N_of_ascii c) <=? 90).

Definition isLower (c : ascii) : bool :=
  (97 <=? Z.of_N (N_of_ascii c)) && (Z.of_N (N_of_ascii c) <=? 122).

Definition toLowerByte (c : ascii) : ascii :=
  if isUpper c then ascii_of_N (N_of_ascii c + 32) else c.

Definition toUpperByte (c : ascii) : ascii :=
  if isLower c then ascii_of_N (N_of_ascii c - 32) else c.

Fixpoint mapBytes (f : ascii -> ascii) (s : string) : string :=
  match s with
  | EmptyString => EmptyString
  | String c s' => String (f c) (mapBytes f s')
  end.

(** [ToLower] and [ToUpper] on the ASCII letters; Go also maps the letters
    beyond ASCII, which no pattern of the program mentions. *)
Definition ToLower (s : string) : string := mapBytes toLowerByte s.
Definition ToUpper (s : string) : string := mapBytes toUpperByte s.

(** The ASCII white space of [unicode.IsSpace]; Go also trims and splits
    at the white space beyond ASCII (U+0085, U+00A0 and the like). *)
Definition isSpace (c : ascii) : bool :=
  let n := Z.of_N (N_of_ascii c) in
  ((9 <=? n) && (n <=? 13)) || (n =? 32).

Fixpoint trimLeftFunc (f : ascii -> bool) (s : string) : string :=
  match s with
  | EmptyString => EmptyString
  | String c s' => if f c then trimLeftFunc f s' else s
  end.

Definition trimFunc (f : ascii -> bool) (s : string) : string :=
  String.rev (trimLeftFunc f (String.rev (trimLeftFunc f s))).

Definition TrimSpace (s : string) : string := trimFunc isSpace s.

Fixpoint inCutset (cutset : string) (c : ascii) : bool :=
  match cutset with
  | EmptyString => false
  | String d cutset' => Ascii.eqb c d || inCutset cutset' c
  end.

Definition Trim (s cutset : string) : string := trimFunc (inCutset cutset) s.

(** [Fields]: the maximal runs of bytes that are not white space. *)
Fixpoint fieldsGo (s : string) (cur : string) : list string :=
  match s with
  | EmptyString =>
      match cur with EmptyString => [] | _ => [String.rev cur] end
  | String c s' =>
      if isSpace c then
        match cur with
        | EmptyString => fieldsGo s' EmptyString
        | _ => String.rev cur :: fieldsGo s' EmptyString
        end
      else fieldsGo s' (String c cur)
  end.

Definition Fields (s : string) : list string := fieldsGo s EmptyString.

(** [s[:n]] for [0 <= n <= len(s)]. *)
Fixpoint take (n : nat) (s : string) : string :=
  match n, s with
  | O, _ => EmptyString
  | S n', String c s' => String c (take n' s')
  | S _, EmptyString => EmptyString
  end.

Definition len (s : string) : Z := Z.of_nat (String.length s).

(** [s[0]], when [len(s) > 0]. *)
Definition first (s : string) : option ascii :=
  match s with
  | EmptyString => None
  | String c _ => Some c
  end.

End strings.

(** ** Numbers *)

(** [float64] values are rationals; [float64(n)] and the comparisons the
    program makes on them. *)
Definition float64_of_int (n : Z) : Q := inject_Z n.

Definition Qgtb (x y : Q) : bool := negb (Qle_bool x y).
Definition Qgeb (x y : Q) : bool := Qle_bool y x.
Definition Qltb (x y : Q) : bool := negb (Qle_bool y x).

(** The generic [max] of the analyzer package (and the builtin of main.go). *)
Definition maxQ (a b : Q) : Q := if Qgtb a b then a else b.
Definition maxZ (a b : Z) : Z := if a >? b then a else b.

(** [fmt.Sprintf("%d", n)]. *)
Definition fmt_d (n : Z) : string := pretty n.

(** [fmt.Sprintf("%.1f", x)]: one decimal, ties to even. *)
Definition roundHalfEven (x : Q) : Z :=
  let f := Qfloor x in
  let r := (x - inject_Z f)%Q in
  if Qltb r (1 # 2) then f
  else if Qgtb r (1 # 2) then f + 1
  else if Z.even f then f else f + 1.

Definition fmt_1f (x : Q) : string :=
  let neg := Qltb x 0 in
  let t := roundHalfEven (Qabs x * 10) in
  (if neg then "-" else "") +:+ pretty (t / 10) +:+ "." +:+ pretty (t mod 10).

(** ** Package [internal/types] *)

Module types.

Record IssueImpact := mkIssueImpact { EffortMinutes : Z }.

(** [Issue]; the field [Type] of the source is [Type_] here. *)
Record Issue := mkIssue {
  Type_ : string;
  Severity : string;
  File : string;
  Line : Z;
  Column : Z;
  Message : string;
  Rule : string;
  Description : string;
  Category : string;
  Priority : string;
  Impact : IssueImpact
}.

Definition SeverityLow := "low".
Definition SeverityMedium := "medium".
Definition SeverityHigh := "high".

Definition TypeBug := "bug".
Definition TypeVulnerability := "vulnerability".
Definition TypeCodeSmell := "code_smell".
Definition TypeError := "error".

Record QualityTrends := mkQualityTrends {
  CyclomaticComplexityTrend : string;
  IssuesDensity : Q;
  SecurityScore : Q;
  MaintainabilityIndex : Q;
  TechnicalDebtRatio : Q
}.

Record Metrics := mkMetrics {
  LinesOfCode : Z;
  CyclomaticComplexity : Z;
  CodeDuplication : Q;
  TestCoverage : Q;
  TechnicalDebt : string;
  Maintainability : string;
  Reliability : string;
  Security : string
}.

Record Report := mkReport {
  ProjectPath : string;
  Timestamp : Z;
  Grade : string;
  Score : Q;
  Issues : list Issue;
  ReportMetrics : Metrics;
  FilesAnalyzed : Z;
  IssuesSummary : gmap string Z;
  Trends : QualityTrends;
  Recommendations : list string
}.

Record AnalysisOptions := mkAnalysisOptions {
  OptProjectPath : string;
  OutputFile : string;
  CoverageFile : string;
  DiffTarget : string;
  ConfigFile : string;
  ExcludeFiles : list string;
  IncludeTests : bool;
  Verbose : bool
}.

(** The zero values of the structs. *)
Definition zeroMetrics : Metrics := mkMetrics 0 0 0 0 "" "" "" "".
Definition zeroQualityTrends : QualityTrends := mkQualityTrends "" 0 0 0 0.

End types.

(** Reading a [map[string]int]: a missing key reads as 0. *)
Definition mapGet (m : gmap string Z) (k : string) : Z := default 0 (m !! k).

(** [m[k]++]. *)
Definition mapIncr (m : gmap string Z) (k : string) : gmap string Z :=
  <[k := mapGet m k + 1]> m.

(** ** Packages [go/token] and [go/ast], as far as the program reads them *)

Module token.
(** A position as [FileSet.Position] resolves it: lines and columns
    start at 1. *)
Record Position := mkPosition { Line : Z; Column : Z }.
End token.

Module ast.

(** [*ast.BlockStmt]: the positions of its braces. *)
Record BlockStmt := mkBlockStmt {
  Lbrace : token.Position;
  Rbrace : token.Position
}.

(** The fields of [*ast.FuncDecl] the program reads: [Name] (the
    identifier's text, [None] for a nil pointer) and [Body]. *)
Record FuncDeclFields := mkFuncDecl {
  FuncName : option string;
  Body : option BlockStmt
}.

(** An element of [GenDecl.Specs]: a [*ast.ValueSpec] with the text of its
    [Names], or a spec of another type. *)
Inductive Spec :=
| ValueSpec (Names : list string)
| OtherSpec.

(** The dynamic type of a node, with the fields read from it.
    [CallExpr (Some name)] is a call whose [Fun] is an [*ast.Ident]. *)
Inductive Kind :=
| File
| FuncDecl (fd : FuncDeclFields)
| GenDecl (Specs : list Spec)
| TypeSpec (Name : option string)
| IfStmt
| ForStmt
| RangeStmt
| SwitchStmt
| TypeSwitchStmt
| SelectStmt
| CaseClause
| CallExpr (Fun : option string)
| Other.

(** A node: its type, the resolved position of [Pos()], and its children
    in the order [ast.Walk] visits them. *)
#[warnings="-register-all"]
Inductive Node := mkNode (kind : Kind) (pos : token.Position) (children : list Node).

Definition kind (n : Node) : Kind := let (k, _, _) := n in k.
Definition Pos (n : Node) : token.Position := let (_, p, _) := n in p.
Definition children (n : Node) : list Node := let (_, _, c) := n in c.

(** [ast.Inspect(node, f)]: [f] is called on the node; when it answers
    true the children are inspected in order and [f] is called on nil.
    The state [S] is what the closure [f] captures and updates. *)
Fixpoint Inspect {S : Type} (f : option Node -> S -> S * bool) (node : Node) (s : S) : S :=
  let (s1, descend) := f (Some node) s in
  if descend then
    match node with
    | mkNode _ _ cs =>
        let s2 := (fix walk (l : list Node) (s : S) : S :=
                     match l with
                     | [] => s
                     | c :: l' => walk l' (Inspect f c s)
                     end) cs s1 in
        fst (f None s2)
    end
  else s1.

End ast.

(** ** The environment: what the Go standard library answers *)

Definition error := string.

(** [err == nil] *)
Definition isNil {A : Type} (o : option A) : bool :=
  match o with None => true | Some _ => false end.

(** The arguments of one call of the [fs.WalkDirFunc]. *)
Record WalkCall := mkWalkCall {
  walkPath : string;
  IsDir : bool;
  walkErr : option error
}.

Record Env := mkEnv {
(** [filepath.WalkDir root fn]: the calls of [fn], in order, made as long
    as [fn] returns nil; a non-nil result stops the walk and is returned. *)
WalkDir : string -> list WalkCall;
(** [os.ReadFile] *)
ReadFile : string -> string + error;
(** [parser.ParseFile fset path content parser.ParseComments] *)
ParseFile : string -> string -> ast.Node + error;
(** [filepath.Match pattern name], its error dropped as the caller does *)
filepathMatch : string -> string -> bool;
(** [filepath.Base] *)
filepathBase : string -> string;
(** [regexp.MatchString pattern s] *)
MatchString : string -> string -> bool * option error;
(** [time.Now()] *)
Now : Z
}.

(** ** Package [internal/rules] *)

(** The double quote, which the patterns of the rules mention. *)
Definition dq : string := String "034"%char EmptyString.

(** [for i, line := range lines], collecting what the body appends. *)
Definition forLines {A : Type} (lines : list string) (body : Z -> string -> list A) : list A :=
  concat (imap (fun i line => body (Z.of_nat i) line) lines).

(** [lines[i]] for an index in range. *)
Definition index (lines : list string) (i : Z) : string :=
  nth (Z.to_nat i) lines EmptyString.

Definition newline : ascii := "010"%char.

Module rules.
Import types.

(** The interface [Rule]; [fset] is folded into the positions of the
    nodes. *)
Record Rule := mkRule {
  ID : string;
  Name : string;
  RuleDescription : string;
  Check : string -> ast.Node -> string -> list Issue
}.

(** *** ComplexityRule *)

Module ComplexityRule.

Definition calculateComplexity (fn : ast.Node) : Z :=
  ast.Inspect (fun n complexity =>
    match n with
    | Some x =>
        match ast.kind x with
        | ast.IfStmt | ast.ForStmt | ast.RangeStmt | ast.SwitchStmt
        | ast.TypeSwitchStmt | ast.SelectStmt => (complexity + 1, true)
        | ast.CaseClause => (complexity + 1, true)
        | _ => (complexity, true)
        end
    | None => (complexity, true)
    end) fn 1.

Definition checkFunctionComplexity (file : string) (fn : ast.Node)
    (fd : ast.FuncDeclFields) : list Issue :=
  match ast.Body fd, ast.FuncName fd with
  | Some _, Some name =>
      let complexity := calculateComplexity fn in
      let pos := ast.Pos fn in
      if complexity >? 10 then
        let severity :=
          if complexity >? 15 then SeverityHigh else SeverityMedium in
        [ {| Type_ := TypeCodeSmell;
             Severity := severity;
             File := file;
             Line := token.Line pos;
             Column := token.Column pos;
             types.Rule := "high_complexity";
             Message := "High cyclomatic complexity";
             Description := "Function '" +:+ name +:+ "' has complexity "
                            +:+ fmt_d complexity +:+ " (threshold: 10)";
             Category := ""; Priority := "";
             Impact := mkIssueImpact (complexity * 2) |} ]
      else []
  | _, _ => []
  end.

Definition checkFunctionSize (file : string) (fn : ast.Node)
    (fd : ast.FuncDeclFields) : list Issue :=
  match ast.Body fd, ast.FuncName fd with
  | Some body, Some name =>
      let start := ast.Lbrace body in
      let end_ := ast.Rbrace body in
      let lines := token.Line end_ - token.Line start in
      if lines >? 50 then
        let severity :=
          if lines >? 100 then SeverityHigh else SeverityMedium in
        let pos := ast.Pos fn in
        [ {| Type_ := TypeCodeSmell;
             Severity := severity;
             File := file;
             Line := token.Line pos;
             Column := token.Column pos;
             types.Rule := "large_function";
             Message := "Function too large";
             Description := "Function '" +:+ name +:+ "' has "
                            +:+ fmt_d lines +:+ " lines (threshold: 50)";
             Category := ""; Priority := "";
             Impact := mkIssueImpact (Z.quot lines 10) |} ]
      else []
  | _, _ => []
  end.

(** The loop of [calculateIndentLevel], from the current level. *)
Fixpoint indentLoop (line : string) (indentLevel : Z) : Z :=
  match line with
  | EmptyString => indentLevel
  | String char rest =>
      if Ascii.eqb char "009"%char then indentLoop rest (indentLevel + 1)
      else if Ascii.eqb char " "%char then
        let indentLevel := indentLevel + 1 in
        if Z.rem indentLevel 4 =? 0
        then indentLoop rest (Z.quot indentLevel 4)
        else indentLoop rest indentLevel
      else indentLevel
  end.

Definition calculateIndentLevel (line : string) : Z := indentLoop line 0.

(** [checkDeepNesting], for a statement at a valid position
    ([Line >= 1]), as the parser gives them. *)
Definition checkDeepNesting (file : string) (stmt : ast.Node)
    (content : string) : list Issue :=
  let pos := ast.Pos stmt in
  let lines := strings.Split content newline in
  if token.Line pos - 1 <? Z.of_nat (length lines) then
    let line := index lines (token.Line pos - 1) in
    let indentLevel := calculateIndentLevel line in
    if indentLevel >? 4 then
      [ {| Type_ := TypeCodeSmell;
           Severity := SeverityMedium;
           File := file;
           Line := token.Line pos;
           Column := token.Column pos;
           types.Rule := "deep_nesting";
           Message := "Deep nesting detected";
           Description := "Code is nested " +:+ fmt_d indentLevel
                          +:+ " levels deep (threshold: 4)";
           Category := ""; Priority := "";
           Impact := mkIssueImpact 5 |} ]
    else []
  else [].

Definition Check (file : string) (node : ast.Node) (content : string) : list Issue :=
  ast.Inspect (fun n issues =>
    match n with
    | None => (issues, false)
    | Some x =>
        (match ast.kind x with
         | ast.FuncDecl fd =>
             (issues ++ checkFunctionComplexity file x fd)
             ++ checkFunctionSize file x fd
         | ast.IfStmt => issues ++ checkDeepNesting file x content
         | _ => issues
         end, true)
    end) node [].

Definition New : Rule :=
  mkRule "complexity" "Complexity Analysis"
    "Checks for high cyclomatic complexity, deep nesting, and large functions"
    Check.

End ComplexityRule.

(** *** SecurityRule *)

Module SecurityRule.
Section WithEnv.
Variable env : Env.

Record secretPattern := mkSecretPattern {
  pattern : string;
  description : string;
  severity : string
}.

Definition secretPatterns : list secretPattern :=
  [ mkSecretPattern
      ("(?i)password\s*[:=]\s*[" +:+ dq +:+ "'][^" +:+ dq +:+ "']{3,}[" +:+ dq +:+ "']")
      "Hardcoded password" SeverityHigh;
    mkSecretPattern
      ("(?i)secret\s*[:=]\s*[" +:+ dq +:+ "'][^" +:+ dq +:+ "']{8,}[" +:+ dq +:+ "']")
      "Hardcoded secret" SeverityHigh;
    mkSecretPattern
      ("(?i)api[_-]?key\s*[:=]\s*[" +:+ dq +:+ "'][^" +:+ dq +:+ "']{8,}[" +:+ dq +:+ "']")
      "Hardcoded API key" SeverityHigh;
    mkSecretPattern
      ("(?i)token\s*[:=]\s*[" +:+ dq +:+ "'][^" +:+ dq +:+ "']{16,}[" +:+ dq +:+ "']")
      "Hardcoded token" SeverityHigh;
    mkSecretPattern
      ("(?i)aws[_-]?access[_-]?key\s*[:=]\s*[" +:+ dq +:+ "'][^" +:+ dq +:+ "']+[" +:+ dq +:+ "']")
      "AWS access key" SeverityHigh;
    mkSecretPattern
      ("(?i)private[_-]?key\s*[:=]\s*[" +:+ dq +:+ "'][^" +:+ dq +:+ "']+[" +:+ dq +:+ "']")
      "Private key" SeverityHigh ].

Definition falsePositives : list string :=
  [ "password=" +:+ dq +:+ dq;
    "password=''";
    "secret=" +:+ dq +:+ dq;
    "secret=''";
    "token=" +:+ dq +:+ dq;
    "token=''";
    "password=" +:+ dq +:+ "placeholder" +:+ dq;
    "password=" +:+ dq +:+ "example" +:+ dq;
    "password=" +:+ dq +:+ "test" +:+ dq;
    "password=" +:+ dq +:+ "dummy" +:+ dq;
    "secret=" +:+ dq +:+ "placeholder" +:+ dq;
    "api_key=" +:+ dq +:+ "your_key_here" +:+ dq;
    "token=" +:+ dq +:+ "your_token_here" +:+ dq ].

Definition isFalsePositive (line : string) : bool :=
  let lowerLine := strings.ToLower line in
  if existsb (fun fp => strings.Contains lowerLine fp) falsePositives then true
  else if strings.Contains line "//" || strings.Contains line "/*" then true
  else false.

Definition checkHardcodedSecrets (file : string) (lineNum : Z) (line : string)
    : list Issue :=
  flat_map (fun sp =>
    let (matched, err) := MatchString env (pattern sp) line in
    if isNil err && matched then
      if negb (isFalsePositive line) then
        [ {| Type_ := TypeVulnerability;
             Severity := severity sp;
             File := file;
             Line := lineNum;
             Column := 1;
             types.Rule := "hardcoded_secret";
             Message := description sp;
             Description := "Hardcoded secrets should be moved to environment variables or secure configuration";
             Category := ""; Priority := "";
             Impact := mkIssueImpact 10 |} ]
      else []
    else []) secretPatterns.

Definition sqlPatterns : list string :=
  [ "(?i)query\s*[:=]\s*[" +:+ dq +:+ "'].*%[sv].*[" +:+ dq +:+ "']";
    "(?i)fmt\.Sprintf\s*\(\s*[" +:+ dq +:+ "'].*SELECT.*%[sv].*[" +:+ dq +:+ "']";
    "(?i)fmt\.Sprintf\s*\(\s*[" +:+ dq +:+ "'].*INSERT.*%[sv].*[" +:+ dq +:+ "']";
    "(?i)fmt\.Sprintf\s*\(\s*[" +:+ dq +:+ "'].*UPDATE.*%[sv].*[" +:+ dq +:+ "']";
    "(?i)fmt\.Sprintf\s*\(\s*[" +:+ dq +:+ "'].*DELETE.*%[sv].*[" +:+ dq +:+ "']";
    "(?i)[" +:+ dq +:+ "'].*SELECT.*\+.*[" +:+ dq +:+ "']";
    "(?i)[" +:+ dq +:+ "'].*INSERT.*\+.*[" +:+ dq +:+ "']" ].

Definition checkSQLInjection (file : string) (lineNum : Z) (line : string)
    : list Issue :=
  flat_map (fun pattern =>
    let (matched, err) := MatchString env pattern line in
    if isNil err && matched then
      [ {| Type_ := TypeVulnerability;
           Severity := SeverityHigh;
           File := file;
           Line := lineNum;
           Column := 1;
           types.Rule := "sql_injection";
           Message := "Potential SQL injection";
           Description := "Use parameterized queries to prevent SQL injection attacks";
           Category := ""; Priority := "";
           Impact := mkIssueImpact 15 |} ]
    else []) sqlPatterns.

Definition Check (file : string) (node : ast.Node) (content : string) : list Issue :=
  let lines := strings.Split content newline in
  forLines lines (fun i line =>
    let lineNum := i + 1 in
    checkHardcodedSecrets file lineNum line ++ checkSQLInjection file lineNum line).

Definition New : Rule :=
  mkRule "security" "Security Analysis"
    "Detects security vulnerabilities including hardcoded secrets, SQL injection, and unsafe practices"
    Check.

End WithEnv.
End SecurityRule.

(** *** NamingRule *)

Module NamingRule.
Section WithEnv.
Variable env : Env.

Definition firstIsUpper (name : string) : bool :=
  match strings.first name with
  | Some c => strings.isUpper c
  | None => false
  end.

Definition isValidCamelCase (name : string) : bool :=
  if strings.len name =? 0 then false
  else if firstIsUpper name then true
  else if strings.Contains name "_" then false
  else true.

Definition isValidPascalCase (name : string) : bool :=
  if strings.len name =? 0 then false
  else if negb (firstIsUpper name) then false
  else if strings.Contains name "_" then false
  else true.

Definition improperPatterns : list string :=
  [ "(?i)\bhttp\b"; "(?i)\burl\b"; "(?i)\bapi\b"; "(?i)\bjson\b";
    "(?i)\bxml\b"; "(?i)\bhtml\b"; "(?i)\bid\b"; "(?i)\bsql\b" ].

Definition hasImproperAbbreviations (name : string) : bool :=
  existsb (fun pattern =>
    if fst (MatchString env pattern name) then
      let properPattern := strings.ToUpper (strings.Trim pattern "(?i)\b") in
      negb (strings.Contains name properPattern)
    else false) improperPatterns.

Definition acceptableShortNames : list string :=
  [ "i"; "j"; "k"; "n"; "m";
    "x"; "y"; "z";
    "w"; "h";
    "r"; "w";
    "s";
    "b";
    "t";
    "c";
    "f" ].

Definition isAcceptableShortName (name : string) : bool :=
  existsb (fun acceptable => String.eqb name acceptable) acceptableShortNames.

Definition checkFunctionNaming (file : string) (fd : ast.FuncDeclFields)
    (pos : token.Position) : list Issue :=
  match ast.FuncName fd with
  | None => []
  | Some name =>
      if String.eqb name "main" || String.eqb name "init"
         || strings.HasPrefix name "Test" || strings.HasPrefix name "Benchmark"
      then []
      else
        (if strings.len name <? 2 then
           [ {| Type_ := TypeCodeSmell;
                Severity := SeverityLow;
                File := file;
                Line := token.Line pos;
                Column := token.Column pos;
                types.Rule := "short_function_name";
                Message := "Function name too short";
                Description := "Function name '" +:+ name +:+ "' should be more descriptive";
                Category := ""; Priority := "";
                Impact := mkIssueImpact 2 |} ]
         else [])
        ++
        (if negb (isValidCamelCase name) then
           [ {| Type_ := TypeCodeSmell;
                Severity := SeverityLow;
                File := file;
                Line := token.Line pos;
                Column := token.Column pos;
                types.Rule := "naming_convention";
                Message := "Invalid naming convention";
                Description := "Function '" +:+ name +:+ "' should follow camelCase convention";
                Category := ""; Priority := "";
                Impact := mkIssueImpact 2 |} ]
         else [])
        ++
        (if hasImproperAbbreviations name then
           [ {| Type_ := TypeCodeSmell;
                Severity := SeverityLow;
                File := file;
                Line := token.Line pos;
                Column := token.Column pos;
                types.Rule := "abbreviation_convention";
                Message := "Improper abbreviation capitalization";
                Description := "Function '" +:+ name +:+ "' should capitalize common abbreviations (HTTP, URL, API, etc.)";
                Category := ""; Priority := "";
                Impact := mkIssueImpact 2 |} ]
         else [])
  end.

Definition checkVariableNaming (file : string) (Specs : list ast.Spec)
    (pos : token.Position) : list Issue :=
  flat_map (fun spec =>
    match spec with
    | ast.ValueSpec Names =>
        flat_map (fun name =>
          if isAcceptableShortName name then []
          else if strings.len name =? 1 then
            [ {| Type_ := TypeCodeSmell;
                 Severity := SeverityLow;
                 File := file;
                 Line := token.Line pos;
                 Column := token.Column pos;
                 types.Rule := "short_variable_name";
                 Message := "Variable name too short";
                 Description := "Variable '" +:+ name +:+ "' should have a more descriptive name";
                 Category := ""; Priority := "";
                 Impact := mkIssueImpact 1 |} ]
          else []) Names
    | ast.OtherSpec => []
    end) Specs.

Definition checkTypeNaming (file : string) (typeName : option string)
    (pos : token.Position) : list Issue :=
  match typeName with
  | None => []
  | Some name =>
      if (strings.len name >? 0) && firstIsUpper name
         && negb (isValidPascalCase name)
      then
        [ {| Type_ := TypeCodeSmell;
             Severity := SeverityLow;
             File := file;
             Line := token.Line pos;
             Column := token.Column pos;
             types.Rule := "type_naming_convention";
             Message := "Invalid type naming convention";
             Description := "Exported type '" +:+ name +:+ "' should follow PascalCase convention";
             Category := ""; Priority := "";
             Impact := mkIssueImpact 2 |} ]
      else []
  end.

Definition Check (file : string) (node : ast.Node) (content : string) : list Issue :=
  ast.Inspect (fun n issues =>
    match n with
    | None => (issues, false)
    | Some x =>
        let pos := ast.Pos x in
        (match ast.kind x with
         | ast.FuncDecl fd => issues ++ checkFunctionNaming file fd pos
         | ast.GenDecl Specs => issues ++ checkVariableNaming file Specs pos
         | ast.TypeSpec typeName => issues ++ checkTypeNaming file typeName pos
         | _ => issues
         end, true)
    end) node [].

Definition New : Rule :=
  mkRule "naming" "Naming Conventions"
    "Checks for proper Go naming conventions and descriptive names"
    Check.

End WithEnv.
End NamingRule.

(** *** StructureRule *)

Module StructureRule.
Section WithEnv.
Variable env : Env.

Definition todoPatterns : list string :=
  [ "(?i)//\s*todo"; "(?i)//\s*fixme"; "(?i)//\s*hack" ].

Definition checkTodoComments (file : string) (lineNum : Z) (line : string)
    : list Issue :=
  flat_map (fun pattern =>
    if fst (MatchString env pattern line) then
      [ {| Type_ := TypeCodeSmell;
           Severity := SeverityLow;
           File := file;
           Line := lineNum;
           Column := 1;
           types.Rule := "todo_comment";
           Message := "TODO/FIXME comment";
           Description := "Consider addressing this TODO/FIXME comment";
           Category := ""; Priority := "";
           Impact := mkIssueImpact 5 |} ]
    else []) todoPatterns.

Definition checkLineLength (file : string) (lineNum : Z) (line : string)
    : list Issue :=
  if strings.len line >? 120 then
    [ {| Type_ := TypeCodeSmell;
         Severity := SeverityLow;
         File := file;
         Line := lineNum;
         Column := 1;
         types.Rule := "long_line";
         Message := "Line too long";
         Description := "Line has " +:+ fmt_d (strings.len line)
                        +:+ " characters (threshold: 120)";
         Category := ""; Priority := "";
         Impact := mkIssueImpact 2 |} ]
  else [].

Definition checkUnusedCode (file : string) (lineNum : Z) (line : string)
    : list Issue :=
  if strings.Contains line "import" && strings.Contains line "_" then
    [ {| Type_ := TypeCodeSmell;
         Severity := SeverityLow;
         File := file;
         Line := lineNum;
         Column := 1;
         types.Rule := "blank_import";
         Message := "Blank import";
         Description := "Consider if this blank import is necessary";
         Category := ""; Priority := "";
         Impact := mkIssueImpact 1 |} ]
  else [].

Definition Check (file : string) (node : ast.Node) (content : string) : list Issue :=
  let lines := strings.Split content newline in
  forLines lines (fun i line =>
    let lineNum := i + 1 in
    (checkTodoComments file lineNum line ++ checkLineLength file lineNum line)
    ++ checkUnusedCode file lineNum line).

Definition New : Rule :=
  mkRule "structure" "Code Structure"
    "Checks for structural issues like TODO comments, long lines, and unused imports"
    Check.

End WithEnv.
End StructureRule.

(** *** DocumentationRule *)

Module DocumentationRule.

(** The loop of [extractFunctionName] over the fields of the line. *)
Fixpoint extractLoop (parts : list string) : string :=
  match parts with
  | [] => ""
  | part :: rest =>
      if String.eqb part "func" then
        match rest with
        | name :: _ =>
            let parenIndex := strings.Index name "(" in
            if parenIndex >? 0 then strings.take (Z.to_nat parenIndex) name
            else name
        | [] => extractLoop rest
        end
      else extractLoop rest
  end.

Definition extractFunctionName (line : string) : string :=
  extractLoop (strings.Fields line).

Definition Check (file : string) (node : ast.Node) (content : string) : list Issue :=
  let lines := strings.Split content newline in
  forLines lines (fun i line =>
    if strings.HasPrefix (strings.TrimSpace line) "func "
       && negb (strings.Contains line "func main")
       && negb (strings.Contains line "func init")
       && strings.Contains line "("
    then
      if (i =? 0)
         || negb (strings.HasPrefix (strings.TrimSpace (index lines (i - 1))) "//")
      then
        let funcName := extractFunctionName line in
        if (strings.len funcName >? 0) && NamingRule.firstIsUpper funcName then
          [ {| Type_ := TypeCodeSmell;
               Severity := SeverityLow;
               File := file;
               Line := i + 1;
               Column := 1;
               types.Rule := "missing_documentation";
               Message := "Missing function documentation";
               Description := "Exported functions should have documentation comments";
               Category := ""; Priority := "";
               Impact := mkIssueImpact 3 |} ]
        else []
      else []
    else []).

Definition New : Rule :=
  mkRule "documentation" "Documentation"
    "Checks for missing function and type documentation"
    Check.

End DocumentationRule.

(** *** ErrorHandlingRule *)

Module ErrorHandlingRule.

(** The map [deprecatedFuncs]; its keys are distinct, so the order of
    the iteration does not show in the result. *)
Definition deprecatedFuncs : list (string * string) :=
  [ ("ioutil.ReadFile", "Use os.ReadFile instead");
    ("ioutil.WriteFile", "Use os.WriteFile instead");
    ("ioutil.ReadAll", "Use io.ReadAll instead") ].

Definition checkDeprecatedFunctions (file : string) (Fun : option string)
    (pos : token.Position) : list Issue :=
  match Fun with
  | Some identName =>
      flat_map (fun '(deprecated, suggestion) =>
        if String.eqb identName deprecated then
          [ {| Type_ := TypeCodeSmell;
               Severity := SeverityMedium;
               File := file;
               Line := token.Line pos;
               Column := token.Column pos;
               types.Rule := "deprecated_function";
               Message := "Deprecated function usage";
               Description := "Function '" +:+ deprecated +:+ "' is deprecated. "
                              +:+ suggestion;
               Category := ""; Priority := "";
               Impact := mkIssueImpact 2 |} ]
        else []) deprecatedFuncs
  | None => []
  end.

Definition riskyFuncs : list string :=
  [ "os.Open"; "json.Marshal"; "strconv.Atoi"; "http.Get" ].

Definition checkErrorHandling (file : string) (Fun : option string)
    (pos : token.Position) : list Issue :=
  match Fun with
  | Some identName =>
      flat_map (fun risky =>
        if String.eqb identName risky then
          [ {| Type_ := TypeBug;
               Severity := SeverityMedium;
               File := file;
               Line := token.Line pos;
               Column := token.Column pos;
               types.Rule := "missing_error_handling";
               Message := "Potential missing error handling";
               Description := "Function '" +:+ risky
                              +:+ "' may return an error that should be handled";
               Category := ""; Priority := "";
               Impact := mkIssueImpact 3 |} ]
        else []) riskyFuncs
  | None => []
  end.

Definition Check (file : string) (node : ast.Node) (content : string) : list Issue :=
  ast.Inspect (fun n issues =>
    match n with
    | None => (issues, false)
    | Some x =>
        (match ast.kind x with
         | ast.CallExpr Fun =>
             let pos := ast.Pos x in
             (issues ++ checkDeprecatedFunctions file Fun pos)
             ++ checkErrorHandling file Fun pos
         | _ => issues
         end, true)
    end) node [].

Definition New : Rule :=
  mkRule "error_handling" "Error Handling"
    "Checks for proper error handling and deprecated function usage"
    Check.

End ErrorHandlingRule.

(** *** Engine *)

Record Engine := mkEngine { engineRules : list Rule }.

Definition RegisterRule (e : Engine) (rule : Rule) : Engine :=
  mkEngine (engineRules e ++ [rule]).

Definition GetRules (e : Engine) : list Rule := engineRules e.

Definition NewEngine (env : Env) : Engine :=
  let engine := mkEngine [] in
  let engine := RegisterRule engine ComplexityRule.New in
  let engine := RegisterRule engine (SecurityRule.New env) in
  let engine := RegisterRule engine (NamingRule.New env) in
  let engine := RegisterRule engine (StructureRule.New env) in
  let engine := RegisterRule engine DocumentationRule.New in
  let engine := RegisterRule engine ErrorHandlingRule.New in
  engine.

Definition AnalyzeFile (e : Engine) (filePath : string) (node : ast.Node)
    (content : string) : list Issue :=
  flat_map (fun rule => Check rule filePath node content) (engineRules e).

End rules.

(** [filepath.WalkDir]: the callback is run on each call in order until it
    returns an error. *)
Fixpoint walkDir {S : Type} (fn : S -> WalkCall -> S * option error)
    (calls : list WalkCall) (s : S) : S * option error :=
  match calls with
  | [] => (s, None)
  | c :: rest =>
      let (s', err) := fn s c in
      match err with
      | Some e => (s', Some e)
      | None => walkDir fn rest s'
      end
  end.

(** [getIssuesSummary], the same function in both packages. *)
Definition issuesSummary (issues : list types.Issue) : gmap string Z :=
  foldl (fun summary issue =>
           mapIncr (mapIncr summary (types.Severity issue)) (types.Type_ issue))
        ∅ issues.

(** ** Package [internal/analyzer] *)

Module analyzer.
Import types.

(** [CodeAnalyzer]; the [fileSet] is folded into the positions of the
    nodes. *)
Record CodeAnalyzer := mkCodeAnalyzer {
  issues : list Issue;
  metrics : Metrics;
  filesCount : Z;
  options : AnalysisOptions;
  ruleEngine : rules.Engine
}.

Definition setIssues (ca : CodeAnalyzer) (l : list Issue) : CodeAnalyzer :=
  mkCodeAnalyzer l (metrics ca) (filesCount ca) (options ca) (ruleEngine ca).
Definition setMetrics (ca : CodeAnalyzer) (m : Metrics) : CodeAnalyzer :=
  mkCodeAnalyzer (issues ca) m (filesCount ca) (options ca) (ruleEngine ca).
Definition setFilesCount (ca : CodeAnalyzer) (n : Z) : CodeAnalyzer :=
  mkCodeAnalyzer (issues ca) (metrics ca) n (options ca) (ruleEngine ca).

Definition addIssue (ca : CodeAnalyzer) (issue : Issue) : CodeAnalyzer :=
  setIssues ca (issues ca ++ [issue]).

Definition calculateFileComplexity (node : ast.Node) : Z :=
  ast.Inspect (fun n complexity =>
    match n with
    | Some x =>
        match ast.kind x with
        | ast.IfStmt | ast.ForStmt | ast.RangeStmt | ast.SwitchStmt
        | ast.TypeSwitchStmt | ast.SelectStmt => (complexity + 1, true)
        | ast.CaseClause => (complexity + 1, true)
        | ast.FuncDecl _ => (complexity + 1, true)
        | _ => (complexity, true)
        end
    | None => (complexity, true)
    end) node 0.

Definition updateMetrics (ca : CodeAnalyzer) (content : string) (node : ast.Node)
    : CodeAnalyzer :=
  let lines := strings.Split content newline in
  let m := metrics ca in
  let LinesOfCode' := LinesOfCode m + Z.of_nat (length lines) in
  let complexity := calculateFileComplexity node in
  let CyclomaticComplexity' := CyclomaticComplexity m + complexity in
  let TestCoverage' :=
    if strings.Contains content "func Test" then
      (float64_of_int (filesCount ca)
       / float64_of_int (maxZ (filesCount ca) 1) * 100)%Q
    else TestCoverage m in
  setMetrics ca
    (mkMetrics LinesOfCode' CyclomaticComplexity' (CodeDuplication m) TestCoverage'
       (TechnicalDebt m) (Maintainability m) (Reliability m) (Security m)).

Definition getIssuesSummary (ca : CodeAnalyzer) : gmap string Z :=
  issuesSummary (issues ca).

Definition calculateScore (ca : CodeAnalyzer) : Q :=
  if filesCount ca =? 0 then 0%Q
  else
    let baseScore := 100%Q in
    let summary := getIssuesSummary ca in
    let score :=
      (baseScore - float64_of_int (mapGet summary SeverityHigh * 10)
       - float64_of_int (mapGet summary SeverityMedium * 5)
       - float64_of_int (mapGet summary SeverityLow * 1))%Q in
    let score :=
      if filesCount ca >? 0 then
        let avgComplexity :=
          (float64_of_int (CyclomaticComplexity (metrics ca))
           / float64_of_int (filesCount ca))%Q in
        if Qgtb avgComplexity 10 then (score - (avgComplexity - 10) * 2)%Q
        else score
      else score in
    let score := if Qltb score 0 then 0%Q else score in
    let score := if Qgtb score 100 then 100%Q else score in
    score.

Definition calculateGrade (score : Q) : string :=
  if Qgeb score 90 then "A"
  else if Qgeb score 80 then "B"
  else if Qgeb score 70 then "C"
  else if Qgeb score 60 then "D"
  else "F".

Definition totalDebtMinutes (l : list Issue) : Z :=
  foldl (fun total issue => total + EffortMinutes (Impact issue)) 0 l.

Definition calculateQualityTrends (ca : CodeAnalyzer) : QualityTrends :=
  let trends := zeroQualityTrends in
  let summary := getIssuesSummary ca in
  if filesCount ca >? 0 then
    let avgComplexity :=
      (float64_of_int (CyclomaticComplexity (metrics ca))
       / float64_of_int (filesCount ca))%Q in
    let trend :=
      if Qgtb avgComplexity 15 then "Very High - Immediate refactoring needed"
      else if Qgtb avgComplexity 10 then "High - Consider refactoring"
      else if Qgtb avgComplexity 5 then "Moderate - Monitor closely"
      else "Good - Well structured code" in
    let density :=
      if LinesOfCode (metrics ca) >? 0 then
        (float64_of_int (Z.of_nat (length (issues ca)))
         / float64_of_int (LinesOfCode (metrics ca)) * 1000)%Q
      else IssuesDensity trends in
    let securityIssues := mapGet summary TypeVulnerability in
    let securityScore := maxQ 0 (100 - float64_of_int (securityIssues * 10))%Q in
    let maintainabilityDeductions :=
      float64_of_int (securityIssues * 5 + mapGet summary "missing_documentation" * 2) in
    let maintainabilityIndex := maxQ 0 (100 - maintainabilityDeductions)%Q in
    let debt := totalDebtMinutes (issues ca) in
    let debtRatio :=
      if LinesOfCode (metrics ca) >? 0 then
        (float64_of_int debt / 60
         / float64_of_int (LinesOfCode (metrics ca)) * 1000)%Q
      else TechnicalDebtRatio trends in
    mkQualityTrends trend density securityScore maintainabilityIndex debtRatio
  else trends.

Definition generateRecommendations (ca : CodeAnalyzer) : list string :=
  let summary := getIssuesSummary ca in
  let recommendations := [] in
  let recommendations :=
    let vulnCount := mapGet summary TypeVulnerability in
    if vulnCount >? 0 then
      recommendations ++
      ["🔒 URGENT: Address " +:+ fmt_d vulnCount
       +:+ " security vulnerabilities immediately"]
    else recommendations in
  let recommendations :=
    let bugCount := mapGet summary TypeBug in
    if bugCount >? 0 then
      recommendations ++
      ["🐛 HIGH: Fix " +:+ fmt_d bugCount +:+ " bugs to improve reliability"]
    else recommendations in
  let recommendations :=
    if Qltb (TestCoverage (metrics ca)) 70 then
      recommendations ++
      ["🧪 Increase test coverage from " +:+ fmt_1f (TestCoverage (metrics ca))
       +:+ "% to at least 70%"]
    else recommendations in
  let recommendations :=
    if Z.of_nat (length recommendations) =? 0 then
      recommendations ++ ["✅ Great job! Your code quality is excellent."]
    else recommendations in
  recommendations.

Section WithEnv.
Variable env : Env.

Definition New (options : AnalysisOptions) : CodeAnalyzer :=
  mkCodeAnalyzer [] zeroMetrics 0 options (rules.NewEngine env).

Definition analyzeFile (ca : CodeAnalyzer) (filePath : string) : CodeAnalyzer :=
  let ca := setFilesCount ca (filesCount ca + 1) in
  match ReadFile env filePath with
  | inr err =>
      addIssue ca
        {| Type_ := TypeError;
           Severity := SeverityHigh;
           File := filePath;
           Line := 1;
           Column := 1;
           types.Rule := "read_error";
           Message := "Cannot read file";
           Description := "Error reading file: " +:+ err;
           Category := ""; Priority := "";
           Impact := mkIssueImpact 1 |}
  | inl content =>
      match ParseFile env filePath content with
      | inr err =>
          addIssue ca
            {| Type_ := TypeError;
               Severity := SeverityHigh;
               File := filePath;
               Line := 1;
               Column := 1;
               types.Rule := "parse_error";
               Message := "Syntax error";
               Description := "Parse error: " +:+ err;
               Category := ""; Priority := "";
               Impact := mkIssueImpact 1 |}
      | inl node =>
          let fileIssues :=
            rules.AnalyzeFile (ruleEngine ca) filePath node content in
          let ca := setIssues ca (issues ca ++ fileIssues) in
          updateMetrics ca content node
      end
  end.

Definition walkFunc (ca : CodeAnalyzer) (call : WalkCall)
    : CodeAnalyzer * option error :=
  let path := walkPath call in
  match walkErr call with
  | Some err => (ca, Some err)
  | None =>
      if IsDir call || negb (strings.HasSuffix path ".go") then (ca, None)
      else if strings.Contains path "vendor/" || strings.Contains path ".git/"
      then (ca, None)
      else if negb (IncludeTests (options ca)) && strings.HasSuffix path "_test.go"
      then (ca, None)
      else if existsb (fun exclude =>
                         filepathMatch env exclude (filepathBase env path))
                      (ExcludeFiles (options ca))
      then (ca, None)
      else (analyzeFile ca path, None)
  end.

(** [AnalyzeProject]: the analyzer after the walk, and the result. *)
Definition AnalyzeProject (ca : CodeAnalyzer) : CodeAnalyzer * (Report + error) :=
  let (ca, err) :=
    walkDir walkFunc (WalkDir env (OptProjectPath (options ca))) ca in
  match err with
  | Some err => (ca, inr ("error walking directory: " +:+ err))
  | None =>
      let score := calculateScore ca in
      let grade := calculateGrade score in
      let trends := calculateQualityTrends ca in
      let recommendations := generateRecommendations ca in
      (ca, inl {| ProjectPath := OptProjectPath (options ca);
                  Timestamp := Now env;
                  Issues := issues ca;
                  ReportMetrics := metrics ca;
                  FilesAnalyzed := filesCount ca;
                  IssuesSummary := getIssuesSummary ca;
                  Score := score;
                  Grade := grade;
                  Trends := trends;
                  Recommendations := recommendations |})
  end.

End WithEnv.
End analyzer.

(** ** Package [main] (main.go): the standalone analyzer

    [Issue], [IssueImpact], [QualityTrends] and [Metrics] are declared again
    in main.go, field for field as in [internal/types]; the records of
    [types] stand for them.  [Report] has neither trends nor
    recommendations there. *)

Module main.
Import types.

Record Report := mkReport {
  ProjectPath : string;
  Timestamp : Z;
  Grade : string;
  Score : Q;
  Issues : list Issue;
  ReportMetrics : Metrics;
  FilesAnalyzed : Z;
  IssuesSummary : gmap string Z
}.

Record CodeAnalyzer := mkCodeAnalyzer {
  issues : list Issue;
  metrics : Metrics;
  filesCount : Z
}.

Definition setIssues (ca : CodeAnalyzer) (l : list Issue) : CodeAnalyzer :=
  mkCodeAnalyzer l (metrics ca) (filesCount ca).
Definition setMetrics (ca : CodeAnalyzer) (m : Metrics) : CodeAnalyzer :=
  mkCodeAnalyzer (issues ca) m (filesCount ca).
Definition setFilesCount (ca : CodeAnalyzer) (n : Z) : CodeAnalyzer :=
  mkCodeAnalyzer (issues ca) (metrics ca) n.

(** [count] after the loop [for _, issue := range ca.issues]. *)
Definition countIf (p : Issue -> bool) (l : list Issue) : Z :=
  foldl (fun count issue => if p issue then count + 1 else count) 0 l.

Definition getIssueCountByType (ca : CodeAnalyzer) (t : string) : Z :=
  countIf (fun issue => String.eqb (Type_ issue) t) (issues ca).

Definition getComplexityIssueCount (ca : CodeAnalyzer) : Z :=
  countIf (fun issue => String.eqb (types.Rule issue) "complex_function") (issues ca).

Definition getIssueCountByRule (ca : CodeAnalyzer) (rule : string) : Z :=
  countIf (fun issue => String.eqb (types.Rule issue) rule) (issues ca).

Definition NewCodeAnalyzer : CodeAnalyzer := mkCodeAnalyzer [] zeroMetrics 0.

Definition addIssue (ca : CodeAnalyzer) (issue : Issue) : CodeAnalyzer :=
  setIssues ca (issues ca ++ [issue]).

Definition getIssuesSummary (ca : CodeAnalyzer) : gmap string Z :=
  issuesSummary (issues ca).

Definition calculateScore (ca : CodeAnalyzer) : Q :=
  if filesCount ca =? 0 then 0%Q
  else
    let baseScore := 100%Q in
    let highIssues := mapGet (getIssuesSummary ca) "high" in
    let mediumIssues := mapGet (getIssuesSummary ca) "medium" in
    let lowIssues := mapGet (getIssuesSummary ca) "low" in
    let score :=
      (baseScore - float64_of_int (highIssues * 10)
       - float64_of_int (mediumIssues * 5)
       - float64_of_int (lowIssues * 1))%Q in
    let avgComplexity :=
      (float64_of_int (CyclomaticComplexity (metrics ca))
       / float64_of_int (filesCount ca))%Q in
    let score :=
      if Qgtb avgComplexity 10 then (score - (avgComplexity - 10) * 2)%Q
      else score in
    let score := if Qltb score 0 then 0%Q else score in
    let score := if Qgtb score 100 then 100%Q else score in
    score.

Definition calculateGrade (score : Q) : string :=
  if Qgeb score 90 then "A"
  else if Qgeb score 80 then "B"
  else if Qgeb score 70 then "C"
  else if Qgeb score 60 then "D"
  else "F".

Definition calculateQualityTrends (ca : CodeAnalyzer) : QualityTrends :=
  let trends := zeroQualityTrends in
  if filesCount ca >? 0 then
    let avgComplexity :=
      (float64_of_int (CyclomaticComplexity (metrics ca))
       / float64_of_int (filesCount ca))%Q in
    let trend :=
      if Qgtb avgComplexity 15 then "Very High - Immediate refactoring needed"
      else if Qgtb avgComplexity 10 then "High - Consider refactoring"
      else if Qgtb avgComplexity 5 then "Moderate - Monitor closely"
      else "Good - Well structured code" in
    let density :=
      if LinesOfCode (metrics ca) >? 0 then
        (float64_of_int (Z.of_nat (length (issues ca)))
         / float64_of_int (LinesOfCode (metrics ca)) * 1000)%Q
      else IssuesDensity trends in
    let securityIssues := getIssueCountByType ca "vulnerability" in
    let securityScore := maxQ 0 (100 - float64_of_int (securityIssues * 10))%Q in
    let documentationIssues := getIssueCountByRule ca "missing_documentation" in
    let maintainabilityDeductions :=
      float64_of_int (securityIssues * 5 + documentationIssues * 2) in
    let maintainabilityIndex := maxQ 0 (100 - maintainabilityDeductions)%Q in
    let totalDebtMinutes :=
      foldl (fun total issue => total + EffortMinutes (Impact issue)) 0 (issues ca) in
    let debtRatio :=
      if LinesOfCode (metrics ca) >? 0 then
        (float64_of_int totalDebtMinutes / 60
         / float64_of_int (LinesOfCode (metrics ca)) * 1000)%Q
      else TechnicalDebtRatio trends in
    mkQualityTrends trend density securityScore maintainabilityIndex debtRatio
  else trends.

(** The name of an identifier the parser always sets ([fn.Name.Name],
    dereferenced without a test in main.go). *)
Definition identName (name : option string) : string := default "" name.

Definition analyzeFunctionComplexity (ca : CodeAnalyzer) (filePath : string)
    (fn : ast.Node) (fd : ast.FuncDeclFields) (pos : token.Position) : CodeAnalyzer :=
  match ast.Body fd with
  | None => ca
  | Some _ =>
      let complexity := rules.ComplexityRule.calculateComplexity fn in
      let ca :=
        if complexity >? 10 then
          let severity := if complexity >? 15 then "high" else "medium" in
          addIssue ca
            {| Type_ := "code_smell";
               Severity := severity;
               File := filePath;
               Line := token.Line pos;
               Column := token.Column pos;
               types.Rule := "high_complexity";
               Message := "High cyclomatic complexity";
               Description := "Function '" +:+ identName (ast.FuncName fd)
                              +:+ "' has complexity " +:+ fmt_d complexity
                              +:+ " (threshold: 10)";
               Category := ""; Priority := "";
               Impact := mkIssueImpact 10 |}
        else ca in
      let m := metrics ca in
      setMetrics ca
        (mkMetrics (LinesOfCode m) (CyclomaticComplexity m + complexity)
           (CodeDuplication m) (TestCoverage m) (TechnicalDebt m)
           (Maintainability m) (Reliability m) (Security m))
  end.

Definition checkFunctionSize (ca : CodeAnalyzer) (filePath : string)
    (fd : ast.FuncDeclFields) (pos : token.Position) : CodeAnalyzer :=
  match ast.Body fd with
  | None => ca
  | Some body =>
      let start := ast.Lbrace body in
      let end_ := ast.Rbrace body in
      let lines := token.Line end_ - token.Line start in
      if lines >? 50 then
        let severity := if lines >? 100 then "high" else "medium" in
        addIssue ca
          {| Type_ := "code_smell";
             Severity := severity;
             File := filePath;
             Line := token.Line pos;
             Column := token.Column pos;
             types.Rule := "large_function";
             Message := "Function too large";
             Description := "Function '" +:+ identName (ast.FuncName fd)
                            +:+ "' has " +:+ fmt_d lines +:+ " lines (threshold: 50)";
             Category := ""; Priority := "";
             Impact := mkIssueImpact 8 |}
      else ca
  end.

Definition checkDeepNesting (ca : CodeAnalyzer) (filePath : string)
    (pos : token.Position) (content : string) : CodeAnalyzer :=
  let lines := strings.Split content newline in
  if token.Line pos - 1 <? Z.of_nat (length lines) then
    let line := index lines (token.Line pos - 1) in
    let indentLevel := rules.ComplexityRule.indentLoop line 0 in
    if indentLevel >? 4 then
      addIssue ca
        {| Type_ := "code_smell";
           Severity := "medium";
           File := filePath;
           Line := token.Line pos;
           Column := token.Column pos;
           types.Rule := "deep_nesting";
           Message := "Deep nesting detected";
           Description := "Code is nested " +:+ fmt_d indentLevel
                          +:+ " levels deep (threshold: 4)";
           Category := ""; Priority := "";
           Impact := mkIssueImpact 5 |}
    else ca
  else ca.

Definition checkVariableNaming (ca : CodeAnalyzer) (filePath : string)
    (Specs : list ast.Spec) (pos : token.Position) : CodeAnalyzer :=
  foldl (fun ca spec =>
    match spec with
    | ast.ValueSpec Names =>
        foldl (fun ca name =>
          if (strings.len name =? 1) && negb (String.eqb name "i")
             && negb (String.eqb name "j") && negb (String.eqb name "k")
          then
            addIssue ca
              {| Type_ := "code_smell";
                 Severity := "low";
                 File := filePath;
                 Line := token.Line pos;
                 Column := token.Column pos;
                 types.Rule := "short_variable_name";
                 Message := "Variable name too short";
                 Description := "Variable '" +:+ name
                                +:+ "' should have a more descriptive name";
                 Category := ""; Priority := "";
                 Impact := mkIssueImpact 1 |}
          else ca) ca Names
    | ast.OtherSpec => ca
    end) ca Specs.

Definition checkDeprecatedFunctions (ca : CodeAnalyzer) (filePath : string)
    (Fun : option string) (pos : token.Position) : CodeAnalyzer :=
  match Fun with
  | Some name =>
      foldl (fun ca '(deprecated, suggestion) =>
        if String.eqb name deprecated then
          addIssue ca
            {| Type_ := "code_smell";
               Severity := "medium";
               File := filePath;
               Line := token.Line pos;
               Column := token.Column pos;
               types.Rule := "deprecated_function";
               Message := "Deprecated function usage";
               Description := "Function '" +:+ deprecated +:+ "' is deprecated. "
                              +:+ suggestion;
               Category := ""; Priority := "";
               Impact := mkIssueImpact 2 |}
        else ca) ca rules.ErrorHandlingRule.deprecatedFuncs
  | None => ca
  end.

Definition checkErrorHandling (ca : CodeAnalyzer) (filePath : string)
    (Fun : option string) (pos : token.Position) : CodeAnalyzer :=
  match Fun with
  | Some name =>
      foldl (fun ca risky =>
        if String.eqb name risky then
          addIssue ca
            {| Type_ := "bug";
               Severity := "medium";
               File := filePath;
               Line := token.Line pos;
               Column := token.Column pos;
               types.Rule := "missing_error_handling";
               Message := "Potential missing error handling";
               Description := "Function '" +:+ risky
                              +:+ "' may return an error that should be handled";
               Category := ""; Priority := "";
               Impact := mkIssueImpact 3 |}
        else ca) ca ["os.Open"; "json.Marshal"; "strconv.Atoi"; "http.Get"]
  | None => ca
  end.

Definition checkLineLength (ca : CodeAnalyzer) (filePath : string)
    (lineNum : Z) (line : string) : CodeAnalyzer :=
  if strings.len line >? 120 then
    addIssue ca
      {| Type_ := "code_smell";
         Severity := "low";
         File := filePath;
         Line := lineNum;
         Column := 1;
         types.Rule := "long_line";
         Message := "Line too long";
         Description := "Line has " +:+ fmt_d (strings.len line)
                        +:+ " characters (threshold: 120)";
         Category := ""; Priority := "";
         Impact := mkIssueImpact 2 |}
  else ca.

Definition checkUnusedCode (ca : CodeAnalyzer) (filePath : string)
    (lineNum : Z) (line : string) : CodeAnalyzer :=
  if strings.Contains line "import" && strings.Contains line "_" then
    addIssue ca
      {| Type_ := "code_smell";
         Severity := "low";
         File := filePath;
         Line := lineNum;
         Column := 1;
         types.Rule := "blank_import";
         Message := "Blank import";
         Description := "Consider if this blank import is necessary";
         Category := ""; Priority := "";
         Impact := mkIssueImpact 1 |}
  else ca.

(** [for i, line := range lines], threading the analyzer. *)
Definition foldLines (lines : list string) (ca : CodeAnalyzer)
    (body : CodeAnalyzer -> Z -> string -> CodeAnalyzer) : CodeAnalyzer :=
  foldl (fun ca '(i, line) => body ca (Z.of_nat i) line) ca
    (imap (fun i line => (i, line)) lines).

Definition checkDocumentation (ca : CodeAnalyzer) (filePath content : string)
    : CodeAnalyzer :=
  let lines := strings.Split content newline in
  foldLines lines ca (fun ca i line =>
    if strings.HasPrefix (strings.TrimSpace line) "func "
       && negb (strings.Contains line "func main")
       && strings.Contains line "("
    then
      if (i =? 0)
         || negb (strings.HasPrefix (strings.TrimSpace (index lines (i - 1))) "//")
      then
        addIssue ca
          {| Type_ := "code_smell";
             Severity := "low";
             File := filePath;
             Line := i + 1;
             Column := 1;
             types.Rule := "missing_documentation";
             Message := "Missing function documentation";
             Description := "Public functions should have documentation comments";
             Category := ""; Priority := "";
             Impact := mkIssueImpact 3 |}
      else ca
    else ca).

Definition updateMetrics (ca : CodeAnalyzer) (content : string) (node : ast.Node)
    : CodeAnalyzer :=
  let lines := strings.Split content newline in
  let m := metrics ca in
  let LinesOfCode' := LinesOfCode m + Z.of_nat (length lines) in
  let testFiles := if strings.Contains content "func Test" then 1 else 0 in
  let TestCoverage' :=
    if filesCount ca >? 0 then
      (float64_of_int testFiles / float64_of_int (filesCount ca) * 100)%Q
    else TestCoverage m in
  setMetrics ca
    (mkMetrics LinesOfCode' (CyclomaticComplexity m) (CodeDuplication m) TestCoverage'
       (TechnicalDebt m) (Maintainability m) (Reliability m) (Security m)).

Section WithEnv.
Variable env : Env.

Definition checkFunctionNaming (ca : CodeAnalyzer) (filePath : string)
    (fd : ast.FuncDeclFields) (pos : token.Position) : CodeAnalyzer :=
  match ast.FuncName fd with
  | None => ca
  | Some name =>
      let ca :=
        if strings.len name <? 2 then
          addIssue ca
            {| Type_ := "code_smell";
               Severity := "low";
               File := filePath;
               Line := token.Line pos;
               Column := token.Column pos;
               types.Rule := "short_function_name";
               Message := "Function name too short";
               Description := "Function name '" +:+ name
                              +:+ "' should be more descriptive";
               Category := ""; Priority := "";
               Impact := mkIssueImpact 2 |}
        else ca in
      if strings.Contains name "URL" || strings.Contains name "HTTP"
         || strings.Contains name "API"
      then
        if negb (fst (MatchString env "^[A-Z][a-z]*([A-Z][a-z]*)*$" name)) then
          addIssue ca
            {| Type_ := "code_smell";
               Severity := "low";
               File := filePath;
               Line := token.Line pos;
               Column := token.Column pos;
               types.Rule := "naming_convention";
               Message := "Inconsistent naming convention";
               Description := "Function '" +:+ name
                              +:+ "' should follow Go naming conventions";
               Category := ""; Priority := "";
               Impact := mkIssueImpact 2 |}
        else ca
      else ca
  end.

Definition secretPatterns : list (string * string) :=
  [ ("(?i)password\s*[:=]\s*[" +:+ dq +:+ "'][^" +:+ dq +:+ "']+[" +:+ dq +:+ "']",
     "Hardcoded password");
    ("(?i)secret\s*[:=]\s*[" +:+ dq +:+ "'][^" +:+ dq +:+ "']+[" +:+ dq +:+ "']",
     "Hardcoded secret");
    ("(?i)api[_-]?key\s*[:=]\s*[" +:+ dq +:+ "'][^" +:+ dq +:+ "']+[" +:+ dq +:+ "']",
     "Hardcoded API key");
    ("(?i)token\s*[:=]\s*[" +:+ dq +:+ "'][^" +:+ dq +:+ "']+[" +:+ dq +:+ "']",
     "Hardcoded token");
    ("(?i)aws[_-]?access[_-]?key\s*[:=]\s*[" +:+ dq +:+ "'][^" +:+ dq +:+ "']+[" +:+ dq +:+ "']",
     "AWS access key") ].

Definition checkHardcodedSecrets (ca : CodeAnalyzer) (filePath : string)
    (lineNum : Z) (line : string) : CodeAnalyzer :=
  foldl (fun ca '(pattern, desc) =>
    if fst (MatchString env pattern line) then
      addIssue ca
        {| Type_ := "vulnerability";
           Severity := "high";
           File := filePath;
           Line := lineNum;
           Column := 1;
           types.Rule := "hardcoded_secret";
           Message := desc;
           Description := "Hardcoded secrets should be moved to environment variables or secure configuration";
           Category := ""; Priority := "";
           Impact := mkIssueImpact 10 |}
    else ca) ca secretPatterns.

Definition checkTodoComments (ca : CodeAnalyzer) (filePath : string)
    (lineNum : Z) (line : string) : CodeAnalyzer :=
  foldl (fun ca pattern =>
    if fst (MatchString env pattern line) then
      addIssue ca
        {| Type_ := "code_smell";
           Severity := "low";
           File := filePath;
           Line := lineNum;
           Column := 1;
           types.Rule := "todo_comment";
           Message := "TODO/FIXME comment";
           Description := "Consider addressing this TODO/FIXME comment";
           Category := ""; Priority := "";
           Impact := mkIssueImpact 5 |}
    else ca) ca ["(?i)//\s*todo"; "(?i)//\s*fixme"; "(?i)//\s*hack"].

Definition sqlPatterns : list string :=
  [ "(?i)query\s*[:=]\s*[" +:+ dq +:+ "'].*%s.*[" +:+ dq +:+ "']";
    "(?i)fmt\.Sprintf\s*\(\s*[" +:+ dq +:+ "'].*SELECT.*%s.*[" +:+ dq +:+ "']";
    "(?i)fmt\.Sprintf\s*\(\s*[" +:+ dq +:+ "'].*INSERT.*%s.*[" +:+ dq +:+ "']";
    "(?i)fmt\.Sprintf\s*\(\s*[" +:+ dq +:+ "'].*UPDATE.*%s.*[" +:+ dq +:+ "']" ].

Definition checkSQLInjection (ca : CodeAnalyzer) (filePath : string)
    (lineNum : Z) (line : string) : CodeAnalyzer :=
  foldl (fun ca pattern =>
    if fst (MatchString env pattern line) then
      addIssue ca
        {| Type_ := "vulnerability";
           Severity := "high";
           File := filePath;
           Line := lineNum;
           Column := 1;
           types.Rule := "sql_injection";
           Message := "Potential SQL injection";
           Description := "Use parameterized queries to prevent SQL injection attacks";
           Category := ""; Priority := "";
           Impact := mkIssueImpact 15 |}
    else ca) ca sqlPatterns.

Definition analyzeAST (ca : CodeAnalyzer) (filePath : string) (node : ast.Node)
    (content : string) : CodeAnalyzer :=
  ast.Inspect (fun n ca =>
    match n with
    | None => (ca, false)
    | Some x =>
        let pos := ast.Pos x in
        (match ast.kind x with
         | ast.FuncDecl fd =>
             let ca := analyzeFunctionComplexity ca filePath x fd pos in
             let ca := checkFunctionNaming ca filePath fd pos in
             checkFunctionSize ca filePath fd pos
         | ast.IfStmt => checkDeepNesting ca filePath pos content
         | ast.GenDecl Specs => checkVariableNaming ca filePath Specs pos
         | ast.CallExpr Fun =>
             let ca := checkDeprecatedFunctions ca filePath Fun pos in
             checkErrorHandling ca filePath Fun pos
         | _ => ca
         end, true)
    end) node ca.

Definition analyzeFileContent (ca : CodeAnalyzer) (filePath content : string)
    : CodeAnalyzer :=
  let lines := strings.Split content newline in
  let ca :=
    foldLines lines ca (fun ca i line =>
      let lineNum := i + 1 in
      let ca := checkHardcodedSecrets ca filePath lineNum line in
      let ca := checkTodoComments ca filePath lineNum line in
      let ca := checkTodoComments ca filePath lineNum line in
      let ca := checkLineLength ca filePath lineNum line in
      let ca := checkSQLInjection ca filePath lineNum line in
      checkUnusedCode ca filePath lineNum line) in
  checkDocumentation ca filePath content.

Definition analyzeFile (ca : CodeAnalyzer) (filePath : string) : CodeAnalyzer :=
  let ca := setFilesCount ca (filesCount ca + 1) in
  match ReadFile env filePath with
  | inr err =>
      addIssue ca
        {| Type_ := "error";
           Severity := "high";
           File := filePath;
           Line := 1;
           Column := 1;
           types.Rule := "read_error";
           Message := "Cannot read file";
           Description := "Error reading file: " +:+ err;
           Category := ""; Priority := "";
           Impact := mkIssueImpact 1 |}
  | inl content =>
      match ParseFile env filePath content with
      | inr err =>
          addIssue ca
            {| Type_ := "error";
               Severity := "high";
               File := filePath;
               Line := 1;
               Column := 1;
               types.Rule := "parse_error";
               Message := "Syntax error";
               Description := "Parse error: " +:+ err;
               Category := ""; Priority := "";
               Impact := mkIssueImpact 1 |}
      | inl node =>
          let ca := analyzeAST ca filePath node content in
          let ca := analyzeFileContent ca filePath content in
          updateMetrics ca content node
      end
  end.

(** The closure passed to [filepath.WalkDir] in [AnalyzeProject]. *)
Definition walkFunc (ca : CodeAnalyzer) (call : WalkCall)
    : CodeAnalyzer * option error :=
  let path := walkPath call in
  match walkErr call with
  | Some err => (ca, Some err)
  | None =>
      if negb (IsDir call) && strings.HasSuffix path ".go" then
        if negb (strings.Contains path "vendor/")
           && negb (strings.Contains path ".git/")
        then (analyzeFile ca path, None)
        else (ca, None)
      else (ca, None)
  end.

Definition AnalyzeProject (ca : CodeAnalyzer) (projectPath : string)
    : CodeAnalyzer * (Report + error) :=
  let (ca, err) := walkDir walkFunc (WalkDir env projectPath) ca in
  match err with
  | Some err => (ca, inr ("error walking directory: " +:+ err))
  | None =>
      let report :=
        {| ProjectPath := projectPath;
           Timestamp := Now env;
           Issues := issues ca;
           ReportMetrics := metrics ca;
           FilesAnalyzed := filesCount ca;
           IssuesSummary := ∅;
           Score := 0;
           Grade := "" |} in
      let report :=
        mkReport (ProjectPath report) (Timestamp report) (Grade report) 100
          (Issues report) (ReportMetrics report) (FilesAnalyzed report)
          (IssuesSummary report) in
      let report :=
        mkReport (ProjectPath report) (Timestamp report) "A" (Score report)
          (Issues report) (ReportMetrics report) (FilesAnalyzed report)
          (IssuesSummary report) in
      (ca, inl report)
  end.

End WithEnv.

Definition getStatus (passed : bool) : string :=
  if passed then "✅ PASSED" else "❌ FAILED".

(** The end of [printReport]: the three lines it prints under the heading
    of the quality gates.  Strings compare byte by byte. *)
Definition printReportQualityGates (report : Report) : list string :=
  [ "   Grade A-C: " +:+ getStatus (String.leb (Grade report) "C");
    "   High Issues < 5: " +:+ getStatus (mapGet (IssuesSummary report) "high" <? 5);
    "   No Vulnerabilities: "
      +:+ getStatus (mapGet (IssuesSummary report) "vulnerability" =? 0) ].

End main.

(** ** A reference matcher for [regexp.MatchString]

    The properties below hold for every environment.  To run the program on
    concrete projects, this module gives a matcher for the part of the RE2
    syntax the patterns of the program use, on ASCII text: literals,
    classes, [.], the escapes [\s] and [\b], the anchors, groups, the
    repetitions, and the flag [(?i)] in front. *)

Module regexp.

Inductive re :=
| Empty
| Class (neg : bool) (ranges : list (ascii * ascii))
| AnyChar
| Seq (r1 r2 : re)
| Alt (r1 r2 : re)
| Star (r : re)
| Begin
| End_
| WordBoundary.

Definition code (c : ascii) : Z := Z.of_N (N_of_ascii c).

Definition inRanges (ranges : list (ascii * ascii)) (c : ascii) : bool :=
  existsb (fun '(lo, hi) => (code lo <=? code c) && (code c <=? code hi)) ranges.

Definition swapCase (c : ascii) : ascii :=
  if strings.isUpper c then strings.toLowerByte c
  else if strings.isLower c then strings.toUpperByte c
  else c.

Definition classMatch (fold neg : bool) (ranges : list (ascii * ascii)) (c : ascii) : bool :=
  xorb neg (inRanges ranges c || (fold && inRanges ranges (swapCase c))).

Definition isWordChar (c : option ascii) : bool :=
  match c with
  | None => false
  | Some c =>
      inRanges [("0"%char, "9"%char); ("A"%char, "Z"%char);
                ("a"%char, "z"%char); ("_"%char, "_"%char)] c
  end.

(** Backtracking match of [r] at the front of [s], continued by [k];
    [prev] is the byte before [s]. *)
Fixpoint matchRe (fuel : nat) (fold : bool) (r : re) (prev : option ascii)
    (s : string) (k : option ascii -> string -> bool) : bool :=
  match fuel with
  | O => false
  | S fuel =>
      match r with
      | Empty => k prev s
      | Class neg ranges =>
          match s with
          | String c s' => if classMatch fold neg ranges c then k (Some c) s' else false
          | EmptyString => false
          end
      | AnyChar =>
          match s with
          | String c s' => if Ascii.eqb c newline then false else k (Some c) s'
          | EmptyString => false
          end
      | Seq r1 r2 =>
          matchRe fuel fold r1 prev s (fun p s' => matchRe fuel fold r2 p s' k)
      | Alt r1 r2 =>
          matchRe fuel fold r1 prev s k || matchRe fuel fold r2 prev s k
      | Star r1 =>
          matchRe fuel fold r1 prev s
            (fun p s' =>
               if (String.length s' <? String.length s)%nat
               then matchRe fuel fold (Star r1) p s' k else false)
          || k prev s
      | Begin => if isNil prev then k prev s else false
      | End_ => match s with EmptyString => k prev s | _ => false end
      | WordBoundary =>
          if xorb (isWordChar prev) (isWordChar (strings.first s))
          then k prev s else false
      end
  end.

Fixpoint reSize (r : re) : nat :=
  match r with
  | Seq r1 r2 | Alt r1 r2 => S (reSize r1 + reSize r2)
  | Star r1 => S (reSize r1)
  | _ => 1%nat
  end.

(** Unanchored search: a match starting at some position of [s]. *)
Fixpoint searchFrom (fold : bool) (r : re) (fuel : nat) (prev : option ascii)
    (s : string) : bool :=
  matchRe fuel fold r prev s (fun _ _ => true) ||
  match s with
  | EmptyString => false
  | String c s' => searchFrom fold r fuel (Some c) s'
  end.

Definition search (fold : bool) (r : re) (s : string) : bool :=
  searchFrom fold r ((reSize r + 2) * (String.length s + 2))%nat None s.

(** *** Parsing the patterns *)

Definition lit (c : ascii) : re := Class false [(c, c)].

Fixpoint repeatRe (n : nat) (r : re) : re :=
  match n with
  | O => Empty
  | S n' => Seq r (repeatRe n' r)
  end.

Definition isDigit (c : ascii) : bool := (48 <=? code c) && (code c <=? 57).

Fixpoint parseNat (s : string) (acc : nat) : nat * string :=
  match s with
  | String c s' =>
      if isDigit c then parseNat s' (acc * 10 + Z.to_nat (code c - 48))%nat
      else (acc, s)
  | EmptyString => (acc, s)
  end.

(** The items of a class up to the closing bracket. *)
Fixpoint parseClassItems (s : string) (acc : list (ascii * ascii))
    : option (list (ascii * ascii) * string) :=
  match s with
  | EmptyString => None
  | String "]" s' => Some (acc, s')
  | String lo (String "-" (String hi s' as rest)) =>
      if Ascii.eqb hi "]" then parseClassItems rest (acc ++ [(lo, lo); ("-"%char, "-"%char)])
      else parseClassItems s' (acc ++ [(lo, hi)])
  | String c s' => parseClassItems s' (acc ++ [(c, c)])
  end.

Definition parseClass (s : string) : option (re * string) :=
  match s with
  | String "^" s' =>
      match parseClassItems s' [] with
      | Some (ranges, rest) => Some (Class true ranges, rest)
      | None => None
      end
  | _ =>
      match parseClassItems s [] with
      | Some (ranges, rest) => Some (Class false ranges, rest)
      | None => None
      end
  end.

Definition spaceClass : re :=
  Class false [("009"%char, "010"%char); ("012"%char, "013"%char); (" "%char, " "%char)].

(** A repetition operator after the atom [r], if there is one. *)
Definition parseQuant (r : re) (s : string) : option (re * string) :=
  match s with
  | String "*" s' => Some (Star r, s')
  | String "+" s' => Some (Seq r (Star r), s')
  | String "?" s' => Some (Alt r Empty, s')
  | String "{" s' =>
      let (n, rest) := parseNat s' 0%nat in
      match rest with
      | String "," (String "}" rest') => Some (Seq (repeatRe n r) (Star r), rest')
      | String "}" rest' => Some (repeatRe n r, rest')
      | _ => None
      end
  | _ => Some (r, s)
  end.

(** A sequence of atoms up to a closing parenthesis or the end; [depth]
    bounds the nesting of the groups. *)
Fixpoint parseSeq (depth : nat) (fuel : nat) (s : string) (acc : re)
    : option (re * string) :=
  match fuel with
  | O => None
  | S fuel =>
      let continue_ (atom : option (re * string)) :=
        match atom with
        | Some (r, rest) =>
            match parseQuant r rest with
            | Some (r', rest') => parseSeq depth fuel rest' (Seq acc r')
            | None => None
            end
        | None => None
        end in
      match s with
      | EmptyString => Some (acc, s)
      | String ")" _ => Some (acc, s)
      | String "(" s' =>
          match depth with
          | O => None
          | S depth' =>
              match parseSeq depth' fuel s' Empty with
              | Some (r, String ")" rest) => continue_ (Some (r, rest))
              | _ => None
              end
          end
      | String "[" s' => continue_ (parseClass s')
      | String "." s' => continue_ (Some (AnyChar, s'))
      | String "^" s' => continue_ (Some (Begin, s'))
      | String "$" s' => continue_ (Some (End_, s'))
      | String "\" (String c s') =>
          if Ascii.eqb c "s" then continue_ (Some (spaceClass, s'))
          else if Ascii.eqb c "b" then continue_ (Some (WordBoundary, s'))
          else continue_ (Some (lit c, s'))
      | String c s' => continue_ (Some (lit c, s'))
      end
  end.

Definition parse (pattern : string) : option (bool * re) :=
  let (fold, body) :=
    if strings.HasPrefix pattern "(?i)"
    then (true, String.substring 4 (String.length pattern - 4) pattern)
    else (false, pattern) in
  match parseSeq 8 (S (String.length body)) body Empty with
  | Some (r, EmptyString) => Some (fold, r)
  | _ => None
  end.

Definition MatchString (pattern s : string) : bool * option error :=
  match parse pattern with
  | Some (fold, r) => (search fold r s, None)
  | None => (false, Some ("error parsing regexp: " +:+ pattern))
  end.

End regexp.

(** ** The vocabulary of the specification *)

Module spec.
Import types.

Definition sumZ (l : list Z) : Z := foldr Z.add 0 l.

(** The number of issues that satisfy [p]. *)
Definition count (p : Issue -> bool) (l : list Issue) : Z :=
  Z.of_nat (length (filter (fun i => p i = true) l)).

Definition hasSeverity (sev : string) (i : Issue) : bool := String.eqb (Severity i) sev.
Definition hasKind (kind : string) (i : Issue) : bool := String.eqb (Type_ i) kind.
Definition hasRule (rule : string) (i : Issue) : bool := String.eqb (types.Rule i) rule.

Definition severities : list string := [SeverityLow; SeverityMedium; SeverityHigh].
Definition kinds : list string := [TypeBug; TypeVulnerability; TypeCodeSmell; TypeError].

(** The invariant of the data model: the severity and the kind of an
    issue are among the declared labels. *)
Definition validIssue (i : Issue) : bool :=
  existsb (String.eqb (Severity i)) severities && existsb (String.eqb (Type_ i)) kinds.

Definition validIssues (l : list Issue) : Prop :=
  Forall (fun i => validIssue i = true) l.

Definition clamp (x lo hi : Q) : Q := Qmin (Qmax x lo) hi.

Definition avgComplexity (cyclomaticComplexity filesAnalyzed : Z) : Q :=
  (inject_Z cyclomaticComplexity / inject_Z filesAnalyzed)%Q.

Definition complexityPenalty (avg : Q) : Q := (Qmax 0 (avg - 10) * 2)%Q.

(** The score of section 4.7. *)
Definition score (l : list Issue) (cyclomaticComplexity filesAnalyzed : Z) : Q :=
  if filesAnalyzed =? 0 then 0%Q
  else
    clamp (100 - 10 * inject_Z (count (hasSeverity "high") l)
               - 5 * inject_Z (count (hasSeverity "medium") l)
               - 1 * inject_Z (count (hasSeverity "low") l)
               - complexityPenalty (avgComplexity cyclomaticComplexity filesAnalyzed))%Q
          0 100.

(** The maintainability index of section 4.8. *)
Definition maintainabilityIndex (l : list Issue) : Q :=
  Qmax 0 (100 - 5 * inject_Z (count (hasKind "vulnerability") l)
              - 2 * inject_Z (count (hasRule "missing_documentation") l))%Q.

(** The indentation depth of a line: a leading tab is one level, four
    consecutive leading spaces are one level.  [spaces] is the length of
    the run of spaces being read. *)
Fixpoint depthLoop (line : string) (spaces : Z) : Z :=
  match line with
  | EmptyString => spaces / 4
  | String c rest =>
      if Ascii.eqb c "009"%char then spaces / 4 + 1 + depthLoop rest 0
      else if Ascii.eqb c " "%char then depthLoop rest (spaces + 1)
      else spaces / 4
  end.

Definition indentDepth (line : string) : Z := depthLoop line 0.

(** [n] copies of a byte. *)
Fixpoint replicate (n : nat) (c : ascii) : string :=
  match n with
  | O => EmptyString
  | S n' => String c (replicate n' c)
  end.

(** The text after the indentation: empty, or starting with a byte that is
    neither a tab nor a space. *)
Definition startsCode (rest : string) : bool :=
  match rest with
  | EmptyString => true
  | String c _ => negb (Ascii.eqb c "009"%char) && negb (Ascii.eqb c " "%char)
  end.

(** The nodes of a tree, in the order [ast.Inspect] visits them. *)
Fixpoint preorder (n : ast.Node) : list ast.Node :=
  match n with
  | ast.mkNode _ _ cs => n :: flat_map preorder cs
  end.

Definition isBranching (n : ast.Node) : bool :=
  match ast.kind n with
  | ast.IfStmt | ast.ForStmt | ast.RangeStmt | ast.SwitchStmt
  | ast.TypeSwitchStmt | ast.SelectStmt | ast.CaseClause => true
  | _ => false
  end.

Definition isFuncDecl (n : ast.Node) : bool :=
  match ast.kind n with
  | ast.FuncDecl _ => true
  | _ => false
  end.

Definition countNodes (p : ast.Node -> bool) (l : list ast.Node) : Z :=
  Z.of_nat (length (filter (fun n => p n = true) l)).

(** The branching nodes in the tree of [n]. *)
Definition branchCount (n : ast.Node) : Z := countNodes isBranching (preorder n).

(** The function declarations of a file: those of its declarations. *)
Definition funcDecls (file : ast.Node) : list ast.Node :=
  filter (fun d => isFuncDecl d = true) (ast.children file).

Definition otherDecls (file : ast.Node) : list ast.Node :=
  filter (fun d => isFuncDecl d = false) (ast.children file).

(** What the parser gives for a file: a [File] node, function declarations
    only among its declarations. *)
Definition parsedFile (file : ast.Node) : bool :=
  match ast.kind file with
  | ast.File =>
      forallb (fun d =>
                 countNodes isFuncDecl (flat_map preorder (ast.children d)) =? 0)
              (ast.children file)
  | _ => false
  end.

(** The sum over the function declarations of the per-function
    complexity of the ComplexityRule. *)
Definition sumFunctionComplexity (file : ast.Node) : Z :=
  sumZ (map rules.ComplexityRule.calculateComplexity (funcDecls file)).

(** The branching nodes that lie outside every function declaration. *)
Definition branchesOutsideFunctions (file : ast.Node) : Z :=
  sumZ (map branchCount (otherDecls file)).

(** How a file fails to be ingested, if it does: the rule of the issue. *)
Definition ingestionError (env : Env) (path : string) : option string :=
  match ReadFile env path with
  | inr _ => Some "read_error"
  | inl content =>
      match ParseFile env path content with
      | inr _ => Some "parse_error"
      | inl _ => None
      end
  end.

(** Whether the analyzer processes the file of a walk call. *)
Definition processed (env : Env) (options : AnalysisOptions) (call : WalkCall) : bool :=
  let path := walkPath call in
  negb (IsDir call)
  && strings.HasSuffix path ".go"
  && negb (strings.Contains path "vendor/")
  && negb (strings.Contains path ".git/")
  && (IncludeTests options || negb (strings.HasSuffix path "_test.go"))
  && negb (existsb (fun exclude => filepathMatch env exclude (filepathBase env path))
                   (ExcludeFiles options)).

(** What holds of the analyzer of [New] throughout a scan. *)
Definition analyzerInvariant (env : Env) (ca : analyzer.CodeAnalyzer) : Prop :=
  validIssues (analyzer.issues ca)
  /\ 0 <= analyzer.filesCount ca
  /\ analyzer.ruleEngine ca = rules.NewEngine env.

(** What a check of main.go keeps: the issues are valid and the file
    counter is [n]. *)
Definition mainInvariant (n : Z) (ca : main.CodeAnalyzer) : Prop :=
  validIssues (main.issues ca) /\ main.filesCount ca = n.

(** The walk reports no error of its own. *)
Definition walkSucceeds (calls : list WalkCall) : Prop :=
  Forall (fun call => walkErr call = None) calls.

End spec.

(** ** An example project

    A directory [proj] with a file that parses ([api.go]), one whose only
    function is a literal of a package variable ([handlers.go]), one that
    does not parse ([broken.go]), one that cannot be read ([locked.go]),
    a test file and a vendored file; and an empty directory [empty]. *)

Module example.

Definition tab : string := String "009"%char EmptyString.
Definition nl : string := String newline EmptyString.

Definition apiSource : string :=
  "package api" +:+ nl +:+
  nl +:+
  "var query string" +:+ nl +:+
  nl +:+
  "func Fetch(id string) string {" +:+ nl +:+
  tab +:+ "query = " +:+ dq +:+ "SELECT * FROM t WHERE id = %s" +:+ dq
      +:+ " // password = " +:+ dq +:+ "hunter2secret" +:+ dq +:+ nl +:+
  tab +:+ "if id == " +:+ dq +:+ "x" +:+ dq +:+ " {" +:+ nl +:+
  tab +:+ tab +:+ "return query" +:+ nl +:+
  tab +:+ "}" +:+ nl +:+
  tab +:+ "return id" +:+ nl +:+
  "}" +:+ nl.

Definition at_ (line column : Z) : token.Position := token.mkPosition line column.

Definition other (line column : Z) (children : list ast.Node) : ast.Node :=
  ast.mkNode ast.Other (at_ line column) children.

Definition apiFile : ast.Node :=
  ast.mkNode ast.File (at_ 1 1)
    [ other 1 9 [];
      ast.mkNode (ast.GenDecl [ast.ValueSpec ["query"]]) (at_ 3 1)
        [ other 3 5 [other 3 5 []; other 3 11 []] ];
      ast.mkNode
        (ast.FuncDecl
           (ast.mkFuncDecl (Some "Fetch") (Some (ast.mkBlockStmt (at_ 5 30) (at_ 11 1)))))
        (at_ 5 1)
        [ other 5 6 [];
          other 5 1 [other 5 11 [other 5 12 [other 5 12 []; other 5 15 []]];
                     other 5 23 [other 5 23 [other 5 23 []]]];
          other 5 30
            [ other 6 2 [other 6 2 []; other 6 10 []];
              ast.mkNode ast.IfStmt (at_ 7 2)
                [ other 7 5 [other 7 5 []; other 7 11 []];
                  other 7 15 [other 8 3 [other 8 10 []]] ];
              other 10 2 [other 10 9 []] ] ] ].

Definition handlersSource : string :=
  "package api" +:+ nl +:+
  nl +:+
  "var handler = func(x int) int {" +:+ nl +:+
  tab +:+ "if x > 0 {" +:+ nl +:+
  tab +:+ tab +:+ "return 1" +:+ nl +:+
  tab +:+ "}" +:+ nl +:+
  tab +:+ "return 0" +:+ nl +:+
  "}" +:+ nl.

Definition handlersFile : ast.Node :=
  ast.mkNode ast.File (at_ 1 1)
    [ other 1 9 [];
      ast.mkNode (ast.GenDecl [ast.ValueSpec ["handler"]]) (at_ 3 1)
        [ other 3 5
            [ other 3 5 [];
              other 3 15
                [ other 3 15 [other 3 19 [other 3 20 [other 3 20 []; other 3 22 []]];
                              other 3 27 [other 3 27 [other 3 27 []]]];
                  other 3 31
                    [ ast.mkNode ast.IfStmt (at_ 4 2)
                        [ other 4 5 [other 4 5 []; other 4 9 []];
                          other 4 11 [other 5 3 [other 5 10 []]] ];
                      other 7 2 [other 7 9 []] ] ] ] ] ].

Definition brokenSource : string := "package" +:+ nl.

Definition testSource : string :=
  "package api" +:+ nl +:+
  nl +:+
  "func TestFetch(t *testing.T) {}" +:+ nl.

Definition testFile : ast.Node :=
  ast.mkNode ast.File (at_ 1 1)
    [ other 1 9 [];
      ast.mkNode
        (ast.FuncDecl
           (ast.mkFuncDecl (Some "TestFetch")
              (Some (ast.mkBlockStmt (at_ 3 30) (at_ 3 31)))))
        (at_ 3 1)
        [ other 3 6 [];
          other 3 1 [other 3 15 [other 3 16 [other 3 16 []; other 3 18 []]]];
          other 3 30 [] ] ].

Definition walkCalls : list WalkCall :=
  [ mkWalkCall "proj" true None;
    mkWalkCall "proj/api.go" false None;
    mkWalkCall "proj/api_test.go" false None;
    mkWalkCall "proj/broken.go" false None;
    mkWalkCall "proj/handlers.go" false None;
    mkWalkCall "proj/locked.go" false None;
    mkWalkCall "proj/vendor" true None;
    mkWalkCall "proj/vendor/dep.go" false None ].

(** The last element of a slash-separated path. *)
Fixpoint base (path : string) (cur : string) : string :=
  match path with
  | EmptyString => String.rev cur
  | String c path' =>
      if Ascii.eqb c "/" then base path' EmptyString else base path' (String c cur)
  end.

(** Shell patterns with [*] and [?] only. *)
Fixpoint glob (fuel : nat) (pattern name : string) : bool :=
  match fuel with
  | O => false
  | S fuel =>
      match pattern, name with
      | EmptyString, EmptyString => true
      | EmptyString, String _ _ => false
      | String "*" pattern', EmptyString => glob fuel pattern' name
      | String "*" pattern', String c name' =>
          glob fuel pattern' name
          || (negb (Ascii.eqb c "/") && glob fuel pattern name')
      | String "?" pattern', String c name' =>
          negb (Ascii.eqb c "/") && glob fuel pattern' name'
      | String p pattern', String c name' =>
          Ascii.eqb p c && glob fuel pattern' name'
      | String _ _, EmptyString => false
      end
  end.

Definition env : Env :=
  {| WalkDir := fun root =>
       if String.eqb root "proj" then walkCalls
       else if String.eqb root "empty" then [mkWalkCall "empty" true None]
       else [mkWalkCall root false
               (Some ("lstat " +:+ root +:+ ": no such file or directory"))];
     ReadFile := fun path =>
       if String.eqb path "proj/api.go" then inl apiSource
       else if String.eqb path "proj/handlers.go" then inl handlersSource
       else if String.eqb path "proj/api_test.go" then inl testSource
       else if String.eqb path "proj/broken.go" then inl brokenSource
       else if String.eqb path "proj/locked.go"
       then inr ("open " +:+ path +:+ ": permission denied")
       else inr ("open " +:+ path +:+ ": no such file or directory");
     ParseFile := fun path content =>
       if String.eqb content apiSource then inl apiFile
       else if String.eqb content handlersSource then inl handlersFile
       else if String.eqb content testSource then inl testFile
       else inr (path +:+ ":1:8: expected 'IDENT', found newline");
     filepathMatch := fun pattern name =>
       glob (S (String.length pattern + String.length name)) pattern name;
     filepathBase := fun path => base path EmptyString;
     MatchString := regexp.MatchString;
     Now := 1761847200 |}.

Definition options : types.AnalysisOptions :=
  types.mkAnalysisOptions "proj" "" "" "" "" [] false false.

Definition emptyOptions : types.AnalysisOptions :=
  types.mkAnalysisOptions "empty" "" "" "" "" ["*.pb.go"] false false.

(** The run of the analyzer of [internal/analyzer] on [proj]. *)
Definition run : analyzer.CodeAnalyzer * (types.Report + error) :=
  analyzer.AnalyzeProject env (analyzer.New env options).

Definition noReport : types.Report :=
  types.mkReport "" 0 "" 0 [] types.zeroMetrics 0 ∅ types.zeroQualityTrends [].

Definition report : types.Report :=
  match snd run with inl r => r | inr _ => noReport end.

(** The run of the analyzer of main.go on [proj]. *)
Definition mainRun : main.CodeAnalyzer * (main.Report + error) :=
  main.AnalyzeProject env main.NewCodeAnalyzer "proj".

Definition mainReport : main.Report :=
  match snd mainRun with
  | inl r => r
  | inr _ => main.mkReport "" 0 "" 0 [] types.zeroMetrics 0 ∅
  end.

(** The line of [api.go] with a query and a trailing comment. *)
Definition queryLine : string := index (strings.Split apiSource newline) 5.

(** A conditional indented with twenty spaces, on line 3 of its file. *)
Definition spaces20 : string := "                    ".
Definition nestedSource : string :=
  "package p" +:+ nl +:+
  "func f(a, b, c, d, e bool) {" +:+ nl +:+
  spaces20 +:+ "if e {" +:+ nl +:+
  spaces20 +:+ "}" +:+ nl +:+
  "}" +:+ nl.
Definition nestedIf : ast.Node :=
  ast.mkNode ast.IfStmt (at_ 3 21) [other 3 24 []; other 3 26 []].

(** A conditional indented with four tabs and one space. *)
Definition tabsSource : string :=
  "package p" +:+ nl +:+
  "func f(a bool) {" +:+ nl +:+
  tab +:+ tab +:+ tab +:+ tab +:+ " if a {" +:+ nl +:+
  tab +:+ tab +:+ tab +:+ tab +:+ " }" +:+ nl +:+
  "}" +:+ nl.
Definition tabsIf : ast.Node :=
  ast.mkNode ast.IfStmt (at_ 3 6) [other 3 9 []; other 3 11 []].

End example.

(** ** Package [internal/cli]: the quality gate of the build *)

Module cli.
Import types.

Definition shouldFailBuild (report : Report) : bool :=
  if mapGet (IssuesSummary report) SeverityHigh >? 0 then true
  else if mapGet (IssuesSummary report) TypeVulnerability >? 0 then true
  else if String.eqb (Grade report) "F" then true
  else false.

End cli.

(** ** Package [internal/reporter]: what the console report shows

    The output of a print function is the list of the lines it prints. *)

Module reporter.
Import types.

(** An element of the slice [gates] of [printQualityGates]. *)
Record gate := mkGate {
  name : string;
  condition : Report -> bool;
  message : string
}.

Definition gates : list gate :=
  [ mkGate "Grade A-C" (fun r => String.leb (Grade r) "C")
      "Maintain good code quality grade";
    mkGate "High Issues < 5" (fun r => mapGet (IssuesSummary r) SeverityHigh <? 5)
      "Keep high-severity issues under control";
    mkGate "No Vulnerabilities" (fun r => mapGet (IssuesSummary r) TypeVulnerability =? 0)
      "Ensure no security vulnerabilities";
    mkGate "Score > 70" (fun r => Qgtb (Score r) 70)
      "Maintain acceptable quality score" ].

Definition printQualityGates (report : Report) : list string :=
  [""; "🚪 Quality Gates:"] ++
  map (fun gate =>
         let status := if condition gate report then "✅ PASSED" else "❌ FAILED" in
         "   " +:+ name gate +:+ ": " +:+ status) gates.

Definition printRecommendations (report : Report) : list string :=
  if Z.of_nat (length (Recommendations report)) =? 0 then []
  else [""; "💡 Recommendations:"]
       ++ map (fun rec => "   " +:+ rec) (Recommendations report).

(** [report.Trends == (types.QualityTrends{})] *)
Definition isZeroTrends (t : QualityTrends) : bool :=
  String.eqb (CyclomaticComplexityTrend t) ""
  && Qeq_bool (IssuesDensity t) 0 && Qeq_bool (SecurityScore t) 0
  && Qeq_bool (MaintainabilityIndex t) 0 && Qeq_bool (TechnicalDebtRatio t) 0.

Definition printTrends (report : Report) : list string :=
  let t := Trends report in
  if isZeroTrends t then []
  else
    [""; "📈 Quality Trends:"]
    ++ (if negb (String.eqb (CyclomaticComplexityTrend t) "")
        then ["   🔄 Complexity: " +:+ CyclomaticComplexityTrend t] else [])
    ++ (if Qgtb (IssuesDensity t) 0
        then ["   📊 Issues Density: " +:+ fmt_1f (IssuesDensity t) +:+ " per 1000 LOC"]
        else [])
    ++ (if Qgtb (SecurityScore t) 0
        then ["   🔒 Security Score: " +:+ fmt_1f (SecurityScore t) +:+ "/100"] else [])
    ++ (if Qgtb (MaintainabilityIndex t) 0
        then ["   🛠️  Maintainability: " +:+ fmt_1f (MaintainabilityIndex t) +:+ "/100"]
        else [])
    ++ (if Qgtb (TechnicalDebtRatio t) 0
        then ["   ⏰ Technical Debt: " +:+ fmt_1f (TechnicalDebtRatio t)
              +:+ " hours per 1000 LOC"]
        else []).

End reporter.

(** ** The vocabulary of the properties of a whole scan *)

Module scan.
Import types.

(** The analyzer after one file analysed alone, from [New]. *)
Definition alone (env : Env) (options : AnalysisOptions) (path : string)
    : analyzer.CodeAnalyzer :=
  analyzer.analyzeFile env (analyzer.New env options) path.

(** The walk calls whose file the analyzer processes, in walk order. *)
Definition processedCalls (env : Env) (options : AnalysisOptions) : list WalkCall :=
  filter (fun call => spec.processed env options call = true)
         (WalkDir env (OptProjectPath options)).

(** A file that is read and parsed and holds the marker of a test. *)
Definition hasTestMarker (env : Env) (path : string) : bool :=
  match ReadFile env path with
  | inr _ => false
  | inl content =>
      match ParseFile env path content with
      | inr _ => false
      | inl _ => strings.Contains content "func Test"
      end
  end.

(** The number of occurrences of a byte. *)
Fixpoint occurrences (c : ascii) (s : string) : Z :=
  match s with
  | EmptyString => 0
  | String d s' => (if Ascii.eqb d c then 1 else 0) + occurrences c s'
  end.

(** The number of lines longer than 120 bytes. *)
Definition longLines (content : string) : Z :=
  Z.of_nat (length (filter (fun line => (strings.len line >? 120) = true)
                           (strings.Split content newline))).

(** A function declaration the ComplexityRule reports: it has a name, a
    body and at least ten branching nodes. *)
Definition tooComplex (x : ast.Node) : bool :=
  match ast.kind x with
  | ast.FuncDecl fd =>
      match ast.Body fd, ast.FuncName fd with
      | Some _, Some _ => 10 <=? spec.branchCount x
      | _, _ => false
      end
  | _ => false
  end.


End scan.

(** ** A project of unreadable files

    The environment of the example with another walk: five Go files, none
    of which can be read. *)

Module locked.

Definition walkCalls : list WalkCall :=
  [ mkWalkCall "vault" true None;
    mkWalkCall "vault/a.go" false None;
    mkWalkCall "vault/b.go" false None;
    mkWalkCall "vault/c.go" false None;
    mkWalkCall "vault/d.go" false None;
    mkWalkCall "vault/e.go" false None ].

Definition env : Env :=
  {| WalkDir := fun _ => walkCalls;
     ReadFile := ReadFile example.env;
     ParseFile := ParseFile example.env;
     filepathMatch := filepathMatch example.env;
     filepathBase := filepathBase example.env;
     MatchString := MatchString example.env;
     Now := Now example.env |}.

Definition options : types.AnalysisOptions :=
  types.mkAnalysisOptions "vault" "" "" "" "" [] false false.

Definition report : types.Report :=
  match snd (analyzer.AnalyzeProject env (analyzer.New env options)) with
  | inl r => r
  | inr _ => example.noReport
  end.

End locked.

(** A file with two calls: one through the identifier [name], one through
    an expression that is no identifier. *)
Definition openCall (name : string) : ast.Node :=
  ast.mkNode ast.File (example.at_ 1 1)
    [ example.other 1 9 [];
      ast.mkNode (ast.CallExpr (Some name)) (example.at_ 3 2) [example.other 3 2 []];
      ast.mkNode (ast.CallExpr None) (example.at_ 4 2) [example.other 4 2 []] ].

(** * Properties *)

Import types.

(** The run of the analyzer of [internal/analyzer] on the example project. *)
Local Abbreviation exampleRun :=
  (analyzer.AnalyzeProject example.env (analyzer.New example.env example.options))
  (only parsing).

(** ** Comparisons on [Q] *)

Lemma Qgtb_true (x y : Q) : Qgtb x y = true <-> (y < x)%Q.
Proof.
  unfold Qgtb. rewrite negb_true_iff. split.
  - intros H. apply Qnot_le_lt. intros Hle. apply Qle_bool_iff in Hle. congruence.
  - intros H. destruct (Qle_bool x y) eqn:E; [|reflexivity].
    apply Qle_bool_iff in E. exfalso. apply (Qlt_not_le _ _ H E).
Qed.

Lemma Qgtb_false (x y : Q) : Qgtb x y = false <-> (x <= y)%Q.
Proof.
  unfold Qgtb. rewrite negb_false_iff. apply Qle_bool_iff.
Qed.

Lemma Qltb_true (x y : Q) : Qltb x y = true <-> (x < y)%Q.
Proof. apply (Qgtb_true y x). Qed.

Lemma Qltb_false (x y : Q) : Qltb x y = false <-> (y <= x)%Q.
Proof. apply (Qgtb_false y x). Qed.

Lemma Qgeb_true (x y : Q) : Qgeb x y = true <-> (y <= x)%Q.
Proof. unfold Qgeb. apply Qle_bool_iff. Qed.

Lemma Qgeb_false (x y : Q) : Qgeb x y = false <-> (x < y)%Q.
Proof.
  unfold Qgeb. split.
  - intros H. apply Qnot_le_lt. intros Hle. apply Qle_bool_iff in Hle. congruence.
  - intros H. destruct (Qle_bool y x) eqn:E; [|reflexivity].
    apply Qle_bool_iff in E. exfalso. apply (Qlt_not_le _ _ H E).
Qed.

(** ** The syntax tree and [ast.Inspect] *)

Lemma Node_ind_children (P : ast.Node -> Prop) :
  (forall k p cs, Forall P cs -> P (ast.mkNode k p cs)) -> forall n, P n.
Proof.
  intros H. fix IH 1. intros [k p cs]. apply H.
  induction cs as [|c cs IHcs]; constructor; [apply IH | apply IHcs].
Qed.

Lemma Inspect_unfold {S : Type} (f : option ast.Node -> S -> S * bool) k p cs s :
  ast.Inspect f (ast.mkNode k p cs) s =
  let (s1, descend) := f (Some (ast.mkNode k p cs)) s in
  if descend then fst (f None (foldl (fun s c => ast.Inspect f c s) s1 cs)) else s1.
Proof.
  simpl. destruct (f (Some (ast.mkNode k p cs)) s) as [s1 [|]]; [|reflexivity].
  f_equal. f_equal. revert s1. induction cs as [|c cs IH]; intros s1; simpl; [reflexivity|].
  apply IH.
Qed.

(** A property of the captured state that every call of the closure keeps
    holds after the walk. *)
Lemma Inspect_invariant {S : Type} (P : S -> Prop) (f : option ast.Node -> S -> S * bool) :
  (forall n s, P s -> P (fst (f n s))) ->
  forall node s, P s -> P (ast.Inspect f node s).
Proof.
  intros Hf node. induction node as [k p cs IH] using Node_ind_children.
  intros s Hs. rewrite Inspect_unfold.
  pose proof (Hf (Some (ast.mkNode k p cs)) s Hs) as H1.
  destruct (f (Some (ast.mkNode k p cs)) s) as [s1 [|]]; simpl in H1; [|exact H1].
  apply Hf. revert s1 H1. induction IH as [|c cs Hc _ IHcs]; intros s1 H1; simpl; [exact H1|].
  apply IHcs. apply Hc. exact H1.
Qed.

(** A closure that always descends and does nothing on nil folds over the
    nodes in preorder. *)
Lemma Inspect_preorder {S : Type} (f : option ast.Node -> S -> S * bool) (g : S -> ast.Node -> S) :
  (forall x s, f (Some x) s = (g s x, true)) ->
  (forall s, fst (f None s) = s) ->
  forall node s, ast.Inspect f node s = foldl g s (spec.preorder node).
Proof.
  intros Hsome Hnil node. induction node as [k p cs IH] using Node_ind_children.
  intros s. rewrite Inspect_unfold, Hsome, Hnil. simpl.
  generalize (g s (ast.mkNode k p cs)). clear s.
  induction IH as [|c cs Hc _ IHcs]; intros s; simpl; [reflexivity|].
  rewrite foldl_app, <- Hc. apply IHcs.
Qed.

Lemma countNodes_cons (p : ast.Node -> bool) x l :
  spec.countNodes p (x :: l) = (if p x then 1 else 0) + spec.countNodes p l.
Proof.
  unfold spec.countNodes. rewrite filter_cons.
  destruct (p x) eqn:E.
  - rewrite decide_True by reflexivity. simpl length. lia.
  - rewrite decide_False by discriminate. lia.
Qed.

Lemma countNodes_app (p : ast.Node -> bool) l1 l2 :
  spec.countNodes p (l1 ++ l2) = spec.countNodes p l1 + spec.countNodes p l2.
Proof.
  unfold spec.countNodes. rewrite filter_app, length_app. lia.
Qed.

Lemma countNodes_nonneg (p : ast.Node -> bool) l : 0 <= spec.countNodes p l.
Proof. unfold spec.countNodes. lia. Qed.

Lemma foldl_countNodes (p : ast.Node -> bool) l (c : Z) :
  foldl (fun c x => if p x then c + 1 else c) c l = c + spec.countNodes p l.
Proof.
  revert c. induction l as [|x l IH]; intros c; simpl.
  - unfold spec.countNodes. simpl. lia.
  - rewrite IH, countNodes_cons. destruct (p x); lia.
Qed.

(** ** The summary map *)

Lemma mapGet_mapIncr (m : gmap string Z) k k' :
  mapGet (mapIncr m k') k = if String.eqb k k' then mapGet m k + 1 else mapGet m k.
Proof.
  unfold mapIncr, mapGet at 1. destruct (String.eqb_spec k k') as [->|Hne].
  - rewrite lookup_insert_eq. reflexivity.
  - rewrite lookup_insert_ne by congruence. reflexivity.
Qed.

Lemma count_cons (p : Issue -> bool) i l :
  spec.count p (i :: l) = (if p i then 1 else 0) + spec.count p l.
Proof.
  unfold spec.count. rewrite filter_cons.
  destruct (p i) eqn:E.
  - rewrite decide_True by reflexivity. simpl length. lia.
  - rewrite decide_False by discriminate. lia.
Qed.

Lemma count_app (p : Issue -> bool) l1 l2 :
  spec.count p (l1 ++ l2) = spec.count p l1 + spec.count p l2.
Proof. unfold spec.count. rewrite filter_app, length_app. lia. Qed.

Lemma count_nonneg (p : Issue -> bool) l : 0 <= spec.count p l.
Proof. unfold spec.count. lia. Qed.

Lemma count_nil (p : Issue -> bool) : spec.count p [] = 0.
Proof. reflexivity. Qed.

Lemma summary_fold (l : list Issue) (m : gmap string Z) (k : string) :
  mapGet
    (foldl (fun summary issue => mapIncr (mapIncr summary (Severity issue)) (Type_ issue)) m l) k
  = mapGet m k + spec.count (spec.hasSeverity k) l + spec.count (spec.hasKind k) l.
Proof.
  revert m. induction l as [|i l IH]; intros m; simpl.
  - rewrite !count_nil. lia.
  - rewrite IH, !mapGet_mapIncr, !count_cons.
    unfold spec.hasSeverity, spec.hasKind.
    rewrite (String.eqb_sym (Severity i) k), (String.eqb_sym (Type_ i) k).
    destruct (String.eqb k (Type_ i)), (String.eqb k (Severity i)); lia.
Qed.

(** The entry of a label counts the issues that carry it as their severity
    and those that carry it as their kind. *)
Lemma issuesSummary_get (l : list Issue) (k : string) :
  mapGet (issuesSummary l) k
  = spec.count (spec.hasSeverity k) l + spec.count (spec.hasKind k) l.
Proof.
  unfold issuesSummary. rewrite summary_fold. unfold mapGet at 1.
  rewrite lookup_empty. simpl. lia.
Qed.

Lemma count_zero (p : Issue -> bool) l :
  Forall (fun i => p i = false) l -> spec.count p l = 0.
Proof.
  induction 1 as [|i l Hi _ IH]; [reflexivity|].
  rewrite count_cons, Hi, IH. reflexivity.
Qed.

Lemma valid_not_kind (sev : string) l :
  In sev spec.severities -> spec.validIssues l -> spec.count (spec.hasKind sev) l = 0.
Proof.
  intros Hin Hl. apply count_zero. eapply Forall_impl; [exact Hl|].
  intros i Hi. unfold spec.validIssue in Hi. apply andb_true_iff in Hi as [_ Hk].
  unfold spec.hasKind. simpl in Hk, Hin.
  destruct Hin as [<-|[<-|[<-|[]]]];
    repeat (apply orb_true_iff in Hk as [Hk|Hk]; [apply String.eqb_eq in Hk; rewrite Hk; reflexivity|]);
    discriminate.
Qed.

Lemma valid_not_severity (kind : string) l :
  In kind spec.kinds -> spec.validIssues l -> spec.count (spec.hasSeverity kind) l = 0.
Proof.
  intros Hin Hl. apply count_zero. eapply Forall_impl; [exact Hl|].
  intros i Hi. unfold spec.validIssue in Hi. apply andb_true_iff in Hi as [Hs _].
  unfold spec.hasSeverity. simpl in Hs, Hin.
  destruct Hin as [<-|[<-|[<-|[<-|[]]]]];
    repeat (apply orb_true_iff in Hs as [Hs|Hs]; [apply String.eqb_eq in Hs; rewrite Hs; reflexivity|]);
    discriminate.
Qed.

Lemma summary_severity (sev : string) l :
  In sev spec.severities -> spec.validIssues l ->
  mapGet (issuesSummary l) sev = spec.count (spec.hasSeverity sev) l.
Proof.
  intros Hin Hl. rewrite issuesSummary_get, (valid_not_kind sev l Hin Hl). lia.
Qed.

Lemma summary_kind (kind : string) l :
  In kind spec.kinds -> spec.validIssues l ->
  mapGet (issuesSummary l) kind = spec.count (spec.hasKind kind) l.
Proof.
  intros Hin Hl. rewrite issuesSummary_get, (valid_not_severity kind l Hin Hl). lia.
Qed.

(** A label that is neither a severity nor a kind has no entry. *)
Lemma summary_other (k : string) l :
  ~ In k spec.severities -> ~ In k spec.kinds -> spec.validIssues l ->
  mapGet (issuesSummary l) k = 0.
Proof.
  intros Hs Hk Hl. rewrite issuesSummary_get.
  rewrite !count_zero; [reflexivity| |].
  - eapply Forall_impl; [exact Hl|]. intros i Hi.
    unfold spec.validIssue in Hi. apply andb_true_iff in Hi as [_ Hi].
    unfold spec.hasKind. destruct (String.eqb_spec (Type_ i) k) as [<-|]; [|reflexivity].
    exfalso. apply Hk. apply existsb_exists in Hi as [x [Hx Hex]].
    apply String.eqb_eq in Hex. rewrite Hex. exact Hx.
  - eapply Forall_impl; [exact Hl|]. intros i Hi.
    unfold spec.validIssue in Hi. apply andb_true_iff in Hi as [Hi _].
    unfold spec.hasSeverity. destruct (String.eqb_spec (Severity i) k) as [<-|]; [|reflexivity].
    exfalso. apply Hs. apply existsb_exists in Hi as [x [Hx Hex]].
    apply String.eqb_eq in Hex. rewrite Hex. exact Hx.
Qed.

(** ** Every rule reports issues with a declared severity and kind *)

Lemma valid_nil : spec.validIssues [].
Proof. constructor. Qed.

Lemma valid_app l1 l2 :
  spec.validIssues l1 -> spec.validIssues l2 -> spec.validIssues (l1 ++ l2).
Proof. intros H1 H2. apply Forall_app. split; assumption. Qed.

Lemma valid_flat_map {A : Type} (f : A -> list Issue) (l : list A) :
  (forall x, spec.validIssues (f x)) -> spec.validIssues (flat_map f l).
Proof.
  intros Hf. induction l as [|x l IH]; simpl; [constructor|].
  apply valid_app; [apply Hf | exact IH].
Qed.

Lemma valid_concat_imap (f : nat -> string -> list Issue) (lines : list string) :
  (forall i line, spec.validIssues (f i line)) ->
  spec.validIssues (concat (imap f lines)).
Proof.
  revert f. induction lines as [|l lines IH]; intros f Hf; simpl; [constructor|].
  apply valid_app; [apply Hf|]. apply IH. intros i line. apply Hf.
Qed.

Lemma valid_forLines (lines : list string) (body : Z -> string -> list Issue) :
  (forall i line, spec.validIssues (body i line)) ->
  spec.validIssues (forLines lines body).
Proof.
  intros Hb. unfold forLines. apply valid_concat_imap. intros i line. apply Hb.
Qed.

Lemma valid_Inspect (f : option ast.Node -> list Issue -> list Issue * bool) node :
  (forall n l, spec.validIssues l -> spec.validIssues (fst (f n l))) ->
  spec.validIssues (ast.Inspect f node []).
Proof.
  intros Hf. apply (Inspect_invariant spec.validIssues f Hf). constructor.
Qed.

(** One issue built from constants, or none. *)
Ltac valid_issue :=
  repeat match goal with
         | |- spec.validIssues [] => constructor
         | |- spec.validIssues [_] =>
             constructor;
             [ repeat match goal with
                      | |- context [if ?b then _ else _] => destruct b
                      end; reflexivity
             | constructor ]
         | |- spec.validIssues (_ ++ _) => apply valid_app
         | |- spec.validIssues (if ?b then _ else _) => destruct b
         | |- spec.validIssues (match ?x with _ => _ end) => destruct x
         | |- spec.validIssues (let _ := _ in _) => cbv zeta
         end.

Lemma ComplexityRule_valid file node content :
  spec.validIssues (rules.ComplexityRule.Check file node content).
Proof.
  apply valid_Inspect. intros [x|] l Hl; simpl; [|exact Hl].
  destruct (ast.kind x); try exact Hl.
  - apply valid_app; [apply valid_app; [exact Hl|]|].
    + unfold rules.ComplexityRule.checkFunctionComplexity. valid_issue.
    + unfold rules.ComplexityRule.checkFunctionSize. valid_issue.
  - apply valid_app; [exact Hl|].
    unfold rules.ComplexityRule.checkDeepNesting. valid_issue.
Qed.

Lemma SecurityRule_valid env file node content :
  spec.validIssues (rules.SecurityRule.Check env file node content).
Proof.
  apply valid_forLines. intros i line. apply valid_app.
  - unfold rules.SecurityRule.checkHardcodedSecrets, rules.SecurityRule.secretPatterns.
    simpl flat_map. valid_issue.
  - unfold rules.SecurityRule.checkSQLInjection. apply valid_flat_map.
    intros pattern. valid_issue.
Qed.

Lemma NamingRule_valid env file node content :
  spec.validIssues (rules.NamingRule.Check env file node content).
Proof.
  apply valid_Inspect. intros [x|] l Hl; simpl; [|exact Hl].
  destruct (ast.kind x); try exact Hl; (apply valid_app; [exact Hl|]).
  - unfold rules.NamingRule.checkFunctionNaming. valid_issue.
  - unfold rules.NamingRule.checkVariableNaming. apply valid_flat_map.
    intros [Names|]; [|constructor]. apply valid_flat_map. intros name. valid_issue.
  - unfold rules.NamingRule.checkTypeNaming. valid_issue.
Qed.

Lemma StructureRule_valid env file node content :
  spec.validIssues (rules.StructureRule.Check env file node content).
Proof.
  apply valid_forLines. intros i line. apply valid_app; [apply valid_app|].
  - unfold rules.StructureRule.checkTodoComments. apply valid_flat_map.
    intros pattern. valid_issue.
  - unfold rules.StructureRule.checkLineLength. valid_issue.
  - unfold rules.StructureRule.checkUnusedCode. valid_issue.
Qed.

Lemma DocumentationRule_valid file node content :
  spec.validIssues (rules.DocumentationRule.Check file node content).
Proof.
  apply valid_forLines. intros i line. valid_issue.
Qed.

Lemma ErrorHandlingRule_valid file node content :
  spec.validIssues (rules.ErrorHandlingRule.Check file node content).
Proof.
  apply valid_Inspect. intros [x|] l Hl; simpl; [|exact Hl].
  destruct (ast.kind x); try exact Hl.
  apply valid_app; [apply valid_app; [exact Hl|]|].
  - unfold rules.ErrorHandlingRule.checkDeprecatedFunctions.
    destruct Fun; [|constructor]. apply valid_flat_map. intros [d sg]. valid_issue.
  - unfold rules.ErrorHandlingRule.checkErrorHandling.
    destruct Fun; [|constructor]. apply valid_flat_map. intros r. valid_issue.
Qed.

(** The engine of [NewEngine] holds the six rules, in the order of their
    registration. *)
Lemma NewEngine_rules env :
  rules.GetRules (rules.NewEngine env) =
  [ rules.ComplexityRule.New; rules.SecurityRule.New env; rules.NamingRule.New env;
    rules.StructureRule.New env; rules.DocumentationRule.New;
    rules.ErrorHandlingRule.New ].
Proof. reflexivity. Qed.

Lemma NewEngine_valid env filePath node content :
  spec.validIssues (rules.AnalyzeFile (rules.NewEngine env) filePath node content).
Proof.
  unfold rules.AnalyzeFile. change (rules.engineRules (rules.NewEngine env))
    with (rules.GetRules (rules.NewEngine env)).
  rewrite NewEngine_rules. simpl flat_map.
  repeat apply valid_app; try constructor.
  - apply ComplexityRule_valid.
  - apply SecurityRule_valid.
  - apply NamingRule_valid.
  - apply StructureRule_valid.
  - apply DocumentationRule_valid.
  - apply ErrorHandlingRule_valid.
Qed.

(** ** The analyzer of [internal/analyzer] during a scan *)

Lemma New_invariant env options : spec.analyzerInvariant env (analyzer.New env options).
Proof. repeat split; [constructor | simpl; lia]. Qed.

Lemma analyzeFile_invariant env ca filePath :
  spec.analyzerInvariant env ca ->
  spec.analyzerInvariant env (analyzer.analyzeFile env ca filePath).
Proof.
  intros (Hv & Hn & He). unfold analyzer.analyzeFile.
  destruct (ReadFile env filePath) as [content|err].
  - destruct (ParseFile env filePath content) as [node|err].
    + repeat split; simpl; [|lia|exact He].
      apply valid_app; [exact Hv|]. rewrite He. apply NewEngine_valid.
    + repeat split; simpl; [|lia|exact He].
      apply valid_app; [exact Hv|]. constructor; [reflexivity|constructor].
  - repeat split; simpl; [|lia|exact He].
    apply valid_app; [exact Hv|]. constructor; [reflexivity|constructor].
Qed.

Lemma walkFunc_invariant env ca call :
  spec.analyzerInvariant env ca ->
  spec.analyzerInvariant env (fst (analyzer.walkFunc env ca call)).
Proof.
  intros H. unfold analyzer.walkFunc.
  destruct (walkErr call); [exact H|].
  repeat match goal with
         | |- context [if ?b then _ else _] => destruct b
         end; simpl; try exact H.
  apply analyzeFile_invariant, H.
Qed.

Lemma walkDir_invariant {S : Type} (P : S -> Prop)
    (fn : S -> WalkCall -> S * option error) calls :
  (forall s c, P s -> P (fst (fn s c))) ->
  forall s, P s -> P (fst (walkDir fn calls s)).
Proof.
  intros Hfn. induction calls as [|c calls IH]; intros s Hs; simpl; [exact Hs|].
  pose proof (Hfn s c Hs) as H1.
  destruct (fn s c) as [s' [e|]]; simpl in *; [exact H1|].
  apply IH, H1.
Qed.

(** The report of a successful run is read off the analyzer after the
    walk, which satisfies the invariant. *)
Lemma AnalyzeProject_report env options ca report :
  analyzer.AnalyzeProject env (analyzer.New env options) = (ca, inl report) ->
  spec.analyzerInvariant env ca
  /\ Issues report = analyzer.issues ca
  /\ ReportMetrics report = analyzer.metrics ca
  /\ FilesAnalyzed report = analyzer.filesCount ca
  /\ IssuesSummary report = issuesSummary (analyzer.issues ca)
  /\ Score report = analyzer.calculateScore ca
  /\ Grade report = analyzer.calculateGrade (analyzer.calculateScore ca)
  /\ Trends report = analyzer.calculateQualityTrends ca.
Proof.
  unfold analyzer.AnalyzeProject. intros H.
  pose proof (walkDir_invariant (spec.analyzerInvariant env) (analyzer.walkFunc env)
                (WalkDir env (OptProjectPath (analyzer.options (analyzer.New env options))))
                (walkFunc_invariant env) _ (New_invariant env options)) as Hinv.
  destruct (walkDir _ _ _) as [ca1 [e|]]; [discriminate|].
  injection H as <- <-. simpl in Hinv. repeat split; try reflexivity; apply Hinv.
Qed.

(** ** The score *)

Lemma clamp_code (x y : Q) :
  (x == y)%Q ->
  ((let s := if Qltb x 0 then 0 else x in if Qgtb s 100 then 100 else s)
   == spec.clamp y 0 100)%Q.
Proof.
  intros Hxy. unfold spec.clamp. cbv zeta. rewrite <- Hxy.
  destruct (Qltb x 0) eqn:E0.
  - apply Qltb_true in E0.
    assert (E1 : Qgtb 0 100 = false) by reflexivity. rewrite E1.
    rewrite (Q.max_r x 0) by (apply Qlt_le_weak; exact E0).
    rewrite Q.min_l; [reflexivity | discriminate].
  - apply Qltb_false in E0. rewrite (Q.max_l x 0) by exact E0.
    destruct (Qgtb x 100) eqn:E1.
    + apply Qgtb_true in E1. rewrite Q.min_r; [reflexivity | apply Qlt_le_weak; exact E1].
    + apply Qgtb_false in E1. rewrite Q.min_l; [reflexivity | exact E1].
Qed.

Lemma penalty_code (s a : Q) :
  ((if Qgtb a 10 then s - (a - 10) * 2 else s) == s - spec.complexityPenalty a)%Q.
Proof.
  unfold spec.complexityPenalty. destruct (Qgtb a 10) eqn:E.
  - apply Qgtb_true in E. rewrite (Q.max_r 0 (a - 10)); [reflexivity|].
    apply Qlt_le_weak. rewrite <- (Qplus_opp_r 10). unfold Qminus.
    apply Qplus_lt_l. exact E.
  - apply Qgtb_false in E. rewrite (Q.max_l 0 (a - 10)); [ring|].
    rewrite <- (Qplus_opp_r 10). unfold Qminus. apply Qplus_le_l. exact E.
Qed.

(** [calculateScore] on an analyzer whose issues are valid. *)
Lemma calculateScore_spec (ca : analyzer.CodeAnalyzer) :
  spec.validIssues (analyzer.issues ca) -> 0 <= analyzer.filesCount ca ->
  (analyzer.calculateScore ca
   == spec.score (analyzer.issues ca) (CyclomaticComplexity (analyzer.metrics ca))
        (analyzer.filesCount ca))%Q.
Proof.
  intros Hv Hn. unfold analyzer.calculateScore, spec.score.
  destruct (analyzer.filesCount ca =? 0) eqn:E0; [reflexivity|].
  apply Z.eqb_neq in E0.
  assert (Hpos : (analyzer.filesCount ca >? 0) = true) by (apply Z.gtb_lt; lia).
  rewrite Hpos. unfold analyzer.getIssuesSummary.
  rewrite !summary_severity by (try exact Hv; simpl; auto).
  apply clamp_code. rewrite penalty_code.
  unfold float64_of_int, spec.avgComplexity, SeverityHigh, SeverityMedium, SeverityLow.
  rewrite !inject_Z_mult. ring.
Qed.

(** C1: for every project analysis, the score of the report equals
    clamp(100 - 10*high - 5*medium - 1*low - penalty, 0, 100), where high,
    medium and low count the issues of the report by severity, the penalty
    is max(0, avg - 10) * 2 with avg the cumulative cyclomatic complexity
    divided by the number of files analyzed, and the score is 0 when no
    file was analyzed. *)
Theorem score_formula env options ca report :
  analyzer.AnalyzeProject env (analyzer.New env options) = (ca, inl report) ->
  (Score report
   == spec.score (Issues report) (CyclomaticComplexity (ReportMetrics report))
        (FilesAnalyzed report))%Q.
Proof.
  intros H. apply AnalyzeProject_report in H as ((Hv & Hn & _) & -> & -> & -> & _ & -> & _).
  apply calculateScore_spec; assumption.
Qed.

Lemma example_run_report : snd exampleRun = inl example.report.
Proof. vm_compute. reflexivity. Qed.

(** The run on the example project returns the example report. *)
Lemma example_run : exampleRun = (fst exampleRun, inl example.report).
Proof.
  exact (eq_trans (surjective_pairing _) (f_equal (pair _) example_run_report)).
Qed.

Lemma score_formula_witness :
  exampleRun = (fst exampleRun, inl example.report)
  /\ (Score example.report
      == spec.score (Issues example.report)
           (CyclomaticComplexity (ReportMetrics example.report))
           (FilesAnalyzed example.report))%Q.
Proof.
  split; [exact example_run|].
  exact (score_formula example.env example.options _ _ example_run).
Defined.

(** The example project: three issues of high severity and one of low
    severity over four files of low complexity score 69. *)
Lemma example_score :
  match snd (analyzer.AnalyzeProject example.env (analyzer.New example.env example.options)) with
  | inl report =>
      FilesAnalyzed report = 4
      /\ spec.count (spec.hasSeverity "high") (Issues report) = 3
      /\ spec.count (spec.hasSeverity "medium") (Issues report) = 0
      /\ spec.count (spec.hasSeverity "low") (Issues report) = 1
      /\ Score report = 69%Q
      /\ Grade report = "D"
  | inr _ => False
  end.
Proof. vm_compute. repeat split; reflexivity. Qed.

(** [calculateScore] of main.go computes the same formula. *)
Lemma main_calculateScore_spec (ca : main.CodeAnalyzer) :
  spec.validIssues (main.issues ca) -> 0 <= main.filesCount ca ->
  (main.calculateScore ca
   == spec.score (main.issues ca) (CyclomaticComplexity (main.metrics ca))
        (main.filesCount ca))%Q.
Proof.
  intros Hv Hn. unfold main.calculateScore, spec.score.
  destruct (main.filesCount ca =? 0) eqn:E0; [reflexivity|].
  unfold main.getIssuesSummary.
  rewrite !summary_severity by (try exact Hv; simpl; auto).
  apply clamp_code. rewrite penalty_code.
  unfold float64_of_int, spec.avgComplexity.
  rewrite !inject_Z_mult. ring.
Qed.

(** ** The summary of a report *)

(** In a report of the analyzer of [internal/analyzer], the entry of each
    severity and of each kind is the number of issues that carry it. *)
Lemma analyzer_summary_counts env options ca report :
  analyzer.AnalyzeProject env (analyzer.New env options) = (ca, inl report) ->
  (forall sev, In sev spec.severities ->
     mapGet (IssuesSummary report) sev = spec.count (spec.hasSeverity sev) (Issues report))
  /\ (forall kind, In kind spec.kinds ->
        mapGet (IssuesSummary report) kind = spec.count (spec.hasKind kind) (Issues report)).
Proof.
  intros H. apply AnalyzeProject_report in H as ((Hv & _ & _) & -> & _ & _ & -> & _).
  split; intros k Hk; [apply summary_severity | apply summary_kind]; assumption.
Qed.

(** The report of main.go is assembled from the analyzer after the walk;
    its summary is the empty map, its score and grade are constants. *)
Lemma main_AnalyzeProject_report env ca0 projectPath ca report :
  main.AnalyzeProject env ca0 projectPath = (ca, inl report) ->
  main.Issues report = main.issues ca
  /\ main.FilesAnalyzed report = main.filesCount ca
  /\ main.IssuesSummary report = ∅
  /\ main.Score report = 100%Q
  /\ main.Grade report = "A".
Proof.
  unfold main.AnalyzeProject. intros H.
  destruct (walkDir _ _ _) as [ca1 [e|]]; [discriminate|].
  injection H as <- <-. repeat split.
Qed.

(** C2: in every report of a successful analysis, the summary entry of each
    severity and each kind is the number of issues that carry it.  The
    report of main.go breaks this: on the example project it lists four
    issues of high severity and two vulnerabilities, and its summary, which
    [printReport] reads, has no entry. *)
Theorem main_report_summary_empty :
  match snd (main.AnalyzeProject example.env main.NewCodeAnalyzer "proj") with
  | inl report =>
      spec.count (spec.hasSeverity "high") (main.Issues report) = 4
      /\ mapGet (main.IssuesSummary report) "high" = 0
      /\ spec.count (spec.hasKind "vulnerability") (main.Issues report) = 2
      /\ mapGet (main.IssuesSummary report) "vulnerability" = 0
      /\ mapGet (main.getIssuesSummary (fst (main.AnalyzeProject example.env
                                                main.NewCodeAnalyzer "proj"))) "high" = 4
  | inr _ => False
  end.
Proof. vm_compute. repeat split; reflexivity. Qed.

(** ** Files that cannot be read or parsed *)

Lemma walkDir_succeeds {S : Type} (fn : S -> WalkCall -> S * option error) calls s :
  (forall s c, In c calls -> snd (fn s c) = None) ->
  snd (walkDir fn calls s) = None.
Proof.
  revert s. induction calls as [|c calls IH]; intros s Hfn; simpl; [reflexivity|].
  pose proof (Hfn s c (or_introl eq_refl)) as Hc.
  destruct (fn s c) as [s' [e|]]; simpl in Hc; [discriminate|].
  apply IH. intros s0 c0 Hin. apply Hfn. right. exact Hin.
Qed.

Lemma analyzer_walkFunc_nil env ca call :
  walkErr call = None -> snd (analyzer.walkFunc env ca call) = None.
Proof.
  intros H. unfold analyzer.walkFunc. rewrite H.
  repeat match goal with
         | |- context [if ?b then _ else _] => destruct b
         end; reflexivity.
Qed.

Lemma main_walkFunc_nil env ca call :
  walkErr call = None -> snd (main.walkFunc env ca call) = None.
Proof.
  intros H. unfold main.walkFunc. rewrite H.
  repeat match goal with
         | |- context [if ?b then _ else _] => destruct b
         end; reflexivity.
Qed.

(** An analysis fails only when the walk itself reports an error, whatever
    the files are. *)
Lemma AnalyzeProject_succeeds env ca0 :
  spec.walkSucceeds (WalkDir env (OptProjectPath (analyzer.options ca0))) ->
  exists ca report, analyzer.AnalyzeProject env ca0 = (ca, inl report).
Proof.
  intros Hw. unfold analyzer.AnalyzeProject.
  pose proof (walkDir_succeeds (analyzer.walkFunc env)
                (WalkDir env (OptProjectPath (analyzer.options ca0))) ca0) as Hs.
  destruct (walkDir _ _ _) as [ca [e|]].
  - simpl in Hs. discriminate Hs. intros s c Hin. apply analyzer_walkFunc_nil.
    unfold spec.walkSucceeds in Hw. rewrite List.Forall_forall in Hw. apply Hw, Hin.
  - eexists _, _. reflexivity.
Qed.

Lemma main_AnalyzeProject_succeeds env ca0 projectPath :
  spec.walkSucceeds (WalkDir env projectPath) ->
  exists ca report, main.AnalyzeProject env ca0 projectPath = (ca, inl report).
Proof.
  intros Hw. unfold main.AnalyzeProject.
  pose proof (walkDir_succeeds (main.walkFunc env) (WalkDir env projectPath) ca0) as Hs.
  destruct (walkDir _ _ _) as [ca [e|]].
  - simpl in Hs. discriminate Hs. intros s c Hin. apply main_walkFunc_nil.
    unfold spec.walkSucceeds in Hw. rewrite List.Forall_forall in Hw. apply Hw, Hin.
  - eexists _, _. reflexivity.
Qed.

(** C3: for a file whose bytes cannot be read (respectively parsed), the
    analyzer increments the file counter, appends exactly one issue of kind
    error and high severity with rule read_error (respectively
    parse_error) and returns: no rule runs and the metrics are unchanged;
    the walk callback returns nil for that file, so the analysis does not
    fail.  Both analyzers, of [internal/analyzer] and of main.go. *)
Theorem ingestion_error_recorded env path rule :
  spec.ingestionError env path = Some rule ->
  (forall ca,
      let ca' := analyzer.analyzeFile env ca path in
      analyzer.filesCount ca' = analyzer.filesCount ca + 1
      /\ (exists issue,
             analyzer.issues ca' = analyzer.issues ca ++ [issue]
             /\ Type_ issue = "error" /\ Severity issue = "high"
             /\ types.Rule issue = rule /\ File issue = path)
      /\ analyzer.metrics ca' = analyzer.metrics ca
      /\ (forall call, walkErr call = None ->
            snd (analyzer.walkFunc env ca call) = None))
  /\ (forall ca,
        let ca' := main.analyzeFile env ca path in
        main.filesCount ca' = main.filesCount ca + 1
        /\ (exists issue,
               main.issues ca' = main.issues ca ++ [issue]
               /\ Type_ issue = "error" /\ Severity issue = "high"
               /\ types.Rule issue = rule /\ File issue = path)
        /\ main.metrics ca' = main.metrics ca
        /\ (forall call, walkErr call = None ->
              snd (main.walkFunc env ca call) = None))
  /\ (rule = "read_error" <-> exists e, ReadFile env path = inr e)
  /\ (rule = "parse_error" <->
      exists content e, ReadFile env path = inl content
                        /\ ParseFile env path content = inr e).
Proof.
  unfold spec.ingestionError. intros H.
  destruct (ReadFile env path) as [content|e] eqn:ER.
  - destruct (ParseFile env path content) as [node|e] eqn:EP; [discriminate|].
    injection H as <-. repeat split.
    + unfold analyzer.analyzeFile. rewrite ER, EP. reflexivity.
    + unfold analyzer.analyzeFile. rewrite ER, EP. eexists. repeat split.
    + unfold analyzer.analyzeFile. rewrite ER, EP. reflexivity.
    + intros call Hc. apply analyzer_walkFunc_nil, Hc.
    + unfold main.analyzeFile. rewrite ER, EP. reflexivity.
    + unfold main.analyzeFile. rewrite ER, EP. eexists. repeat split.
    + unfold main.analyzeFile. rewrite ER, EP. reflexivity.
    + intros call Hc. apply main_walkFunc_nil, Hc.
    + discriminate.
    + intros [e' He']. discriminate.
    + intros _. exists content, e. split; [reflexivity | exact EP].
  - injection H as <-. repeat split.
    + unfold analyzer.analyzeFile. rewrite ER. reflexivity.
    + unfold analyzer.analyzeFile. rewrite ER. eexists. repeat split.
    + unfold analyzer.analyzeFile. rewrite ER. reflexivity.
    + intros call Hc. apply analyzer_walkFunc_nil, Hc.
    + unfold main.analyzeFile. rewrite ER. reflexivity.
    + unfold main.analyzeFile. rewrite ER. eexists. repeat split.
    + unfold main.analyzeFile. rewrite ER. reflexivity.
    + intros call Hc. apply main_walkFunc_nil, Hc.
    + intros _. exists e. reflexivity.
    + discriminate.
    + intros (content & e' & Hc & _). discriminate.
Qed.

Lemma ingestion_error_recorded_witness :
  spec.ingestionError example.env "proj/locked.go" = Some "read_error"
  /\ spec.ingestionError example.env "proj/broken.go" = Some "parse_error"
  /\ (forall ca,
        analyzer.filesCount (analyzer.analyzeFile example.env ca "proj/locked.go")
        = analyzer.filesCount ca + 1)
  /\ (forall ca,
        analyzer.metrics (analyzer.analyzeFile example.env ca "proj/broken.go")
        = analyzer.metrics ca).
Proof.
  assert (Hr : spec.ingestionError example.env "proj/locked.go" = Some "read_error")
    by (vm_compute; reflexivity).
  assert (Hp : spec.ingestionError example.env "proj/broken.go" = Some "parse_error")
    by (vm_compute; reflexivity).
  split; [exact Hr|]. split; [exact Hp|]. split; intros ca.
  - exact (proj1 (proj1 (ingestion_error_recorded example.env _ _ Hr) ca)).
  - exact (proj1 (proj2 (proj2 (proj1 (ingestion_error_recorded example.env _ _ Hp) ca)))).
Defined.

(** ** Grades *)

Lemma calculateGrade_cases (s : Q) :
  ((90 <= s)%Q /\ analyzer.calculateGrade s = "A")
  \/ ((80 <= s)%Q /\ (s < 90)%Q /\ analyzer.calculateGrade s = "B")
  \/ ((70 <= s)%Q /\ (s < 80)%Q /\ analyzer.calculateGrade s = "C")
  \/ ((60 <= s)%Q /\ (s < 70)%Q /\ analyzer.calculateGrade s = "D")
  \/ ((s < 60)%Q /\ analyzer.calculateGrade s = "F").
Proof.
  unfold analyzer.calculateGrade.
  destruct (Qgeb s 90) eqn:E9; [apply Qgeb_true in E9; auto|apply Qgeb_false in E9].
  destruct (Qgeb s 80) eqn:E8; [apply Qgeb_true in E8; auto|apply Qgeb_false in E8].
  destruct (Qgeb s 70) eqn:E7; [apply Qgeb_true in E7; auto 6|apply Qgeb_false in E7].
  destruct (Qgeb s 60) eqn:E6; [apply Qgeb_true in E6; auto 8|apply Qgeb_false in E6].
  auto 8.
Qed.

(** C7: for a score in [0, 100] the grade depends on the score alone and is
    A from 90, B from 80 below 90, C from 70 below 80, D from 60 below 70
    and F below 60, each band closed at its lower bound; in both
    analyzers. *)
Theorem grade_bands (s : Q) :
  (0 <= s)%Q -> (s <= 100)%Q ->
  (analyzer.calculateGrade s = "A" <-> (90 <= s)%Q)
  /\ (analyzer.calculateGrade s = "B" <-> (80 <= s)%Q /\ (s < 90)%Q)
  /\ (analyzer.calculateGrade s = "C" <-> (70 <= s)%Q /\ (s < 80)%Q)
  /\ (analyzer.calculateGrade s = "D" <-> (60 <= s)%Q /\ (s < 70)%Q)
  /\ (analyzer.calculateGrade s = "F" <-> (s < 60)%Q)
  /\ main.calculateGrade s = analyzer.calculateGrade s
  /\ (forall s', (s' == s)%Q -> analyzer.calculateGrade s' = analyzer.calculateGrade s).
Proof.
  intros _ _.
  assert (Hm : main.calculateGrade s = analyzer.calculateGrade s) by reflexivity.
  assert (Hr : forall s', (s' == s)%Q ->
                 analyzer.calculateGrade s' = analyzer.calculateGrade s).
  { intros s' Hs'. unfold analyzer.calculateGrade, Qgeb. rewrite !Hs'. reflexivity. }
  refine (conj _ (conj _ (conj _ (conj _ (conj _ (conj Hm Hr)))))); clear Hm Hr;
    destruct (calculateGrade_cases s) as
      [(H1 & HG)|[(H1 & H2 & HG)|[(H1 & H2 & HG)|[(H1 & H2 & HG)|(H1 & HG)]]]];
    rewrite HG; split; intros H;
    try discriminate H; try reflexivity; try assumption; try (split; assumption);
    exfalso; lra.
Qed.

Lemma grade_bands_witness :
  (0 <= 85)%Q /\ (85 <= 100)%Q /\ analyzer.calculateGrade 85 = "B"
  /\ analyzer.calculateGrade 90 = "A" /\ analyzer.calculateGrade 80 = "B"
  /\ analyzer.calculateGrade 70 = "C" /\ analyzer.calculateGrade 60 = "D"
  /\ analyzer.calculateGrade 0 = "F".
Proof.
  assert (H0 : (0 <= 85)%Q) by discriminate.
  assert (H1 : (85 <= 100)%Q) by discriminate.
  split; [exact H0|]. split; [exact H1|].
  split.
  - apply (proj1 (proj2 (grade_bands 85 H0 H1))). split; [discriminate | reflexivity].
  - repeat split.
Defined.

(** ** A project without source files *)

Lemma walkFunc_skips env ca call :
  walkErr call = None ->
  spec.processed env (analyzer.options ca) call = false ->
  analyzer.walkFunc env ca call = (ca, None).
Proof.
  intros He Hp. unfold analyzer.walkFunc. rewrite He.
  unfold spec.processed in Hp.
  destruct (IsDir call); [reflexivity|].
  destruct (strings.HasSuffix (walkPath call) ".go"); [|reflexivity].
  destruct (strings.Contains (walkPath call) "vendor/"); [reflexivity|].
  destruct (strings.Contains (walkPath call) ".git/"); [reflexivity|].
  destruct (IncludeTests (analyzer.options ca)),
           (strings.HasSuffix (walkPath call) "_test.go"); simpl in *;
    try reflexivity;
    destruct (existsb _ _); try reflexivity; discriminate Hp.
Qed.

Lemma walkDir_skips env ca calls :
  Forall (fun call => walkErr call = None
                      /\ spec.processed env (analyzer.options ca) call = false) calls ->
  walkDir (analyzer.walkFunc env) calls ca = (ca, None).
Proof.
  induction 1 as [|c calls [He Hp] _ IH]; simpl; [reflexivity|].
  rewrite (walkFunc_skips env ca c He Hp). exact IH.
Qed.

(** C8: when the walk yields no file to process, the report has
    files_analyzed = 0, score = 0, grade = F and trends that are the zero
    value. *)
Theorem empty_project_report env options :
  Forall (fun call => walkErr call = None /\ spec.processed env options call = false)
         (WalkDir env (OptProjectPath options)) ->
  exists ca report,
    analyzer.AnalyzeProject env (analyzer.New env options) = (ca, inl report)
    /\ FilesAnalyzed report = 0
    /\ Score report = 0%Q
    /\ Grade report = "F"
    /\ Trends report = zeroQualityTrends
    /\ Issues report = [].
Proof.
  intros H. unfold analyzer.AnalyzeProject.
  change (analyzer.options (analyzer.New env options)) with options.
  rewrite (walkDir_skips env (analyzer.New env options) _ H).
  eexists _, _. split; [reflexivity|]. repeat split.
Qed.

Lemma empty_project_report_witness :
  Forall (fun call => walkErr call = None
                      /\ spec.processed example.env example.emptyOptions call = false)
         (WalkDir example.env (OptProjectPath example.emptyOptions))
  /\ exists ca report,
       analyzer.AnalyzeProject example.env (analyzer.New example.env example.emptyOptions)
       = (ca, inl report)
       /\ FilesAnalyzed report = 0
       /\ Score report = 0%Q
       /\ Grade report = "F"
       /\ Trends report = zeroQualityTrends
       /\ Issues report = [].
Proof.
  assert (H : Forall (fun call => walkErr call = None
                        /\ spec.processed example.env example.emptyOptions call = false)
                (WalkDir example.env (OptProjectPath example.emptyOptions))).
  { constructor; [split; reflexivity | constructor]. }
  split; [exact H|].
  exact (empty_project_report example.env example.emptyOptions H).
Defined.

(** The calls of the walk of [proj] whose file is processed. *)
Lemma example_skipped_calls :
  map (spec.processed example.env example.options) example.walkCalls
  = [false; true; false; true; true; true; false; false].
Proof. vm_compute. reflexivity. Qed.

(** ** The report of main.go *)

(** C10: every report that [AnalyzeProject] of main.go returns has score
    100 and grade A, whatever issues were found: the report is assembled
    from constants, and [calculateScore] and [calculateGrade] take no part
    in it. *)
Theorem main_report_placeholder env ca0 projectPath ca report :
  main.AnalyzeProject env ca0 projectPath = (ca, inl report) ->
  main.Score report = 100%Q /\ main.Grade report = "A".
Proof.
  unfold main.AnalyzeProject. intros H.
  destruct (walkDir _ _ _) as [ca1 [e|]]; [discriminate|].
  injection H as <- <-. split; reflexivity.
Qed.

Lemma example_mainRun :
  main.AnalyzeProject example.env main.NewCodeAnalyzer "proj"
  = (fst example.mainRun, inl example.mainReport).
Proof. vm_compute. reflexivity. Qed.

Lemma main_report_placeholder_witness :
  main.AnalyzeProject example.env main.NewCodeAnalyzer "proj"
  = (fst example.mainRun, inl example.mainReport)
  /\ main.Score example.mainReport = 100%Q
  /\ main.Grade example.mainReport = "A".
Proof.
  split; [exact example_mainRun|].
  exact (main_report_placeholder example.env _ _ _ _ example_mainRun).
Defined.

(** On the example project the functions of main.go give 58 and F for the
    analyzer that the report was assembled from. *)
Lemma main_report_ignores_calculateScore :
  main.calculateScore (fst example.mainRun) = 58%Q
  /\ main.calculateGrade (main.calculateScore (fst example.mainRun)) = "F"
  /\ main.Score example.mainReport = 100%Q
  /\ main.Grade example.mainReport = "A"
  /\ Z.of_nat (length (main.Issues example.mainReport)) = 6.
Proof. vm_compute. repeat split; reflexivity. Qed.

(** ** Trends *)

Lemma maxQ_Qmax (a b : Q) : (maxQ a b == Qmax a b)%Q.
Proof.
  unfold maxQ. destruct (Qgtb a b) eqn:E.
  - apply Qgtb_true in E. rewrite Q.max_l; [reflexivity | apply Qlt_le_weak, E].
  - apply Qgtb_false in E. rewrite Q.max_r; [reflexivity | exact E].
Qed.

Lemma countIf_count (p : Issue -> bool) l : main.countIf p l = spec.count p l.
Proof.
  unfold main.countIf.
  assert (H : forall c, foldl (fun count issue => if p issue then count + 1 else count) c l
                        = c + spec.count p l).
  { induction l as [|i l IH]; intros c; simpl.
    - rewrite count_nil. lia.
    - rewrite IH, count_cons. destruct (p i); lia. }
  rewrite H. lia.
Qed.

(** [calculateQualityTrends] of main.go counts the issues of rule
    missing_documentation, and its maintainability index is that of the
    specification. *)
Lemma main_maintainability (ca : main.CodeAnalyzer) :
  0 < main.filesCount ca ->
  (MaintainabilityIndex (main.calculateQualityTrends ca)
   == spec.maintainabilityIndex (main.issues ca))%Q.
Proof.
  intros Hn. unfold main.calculateQualityTrends.
  assert (Hpos : (main.filesCount ca >? 0) = true) by (apply Z.gtb_lt; lia).
  rewrite Hpos. cbv zeta. simpl MaintainabilityIndex.
  unfold main.getIssueCountByType, main.getIssueCountByRule.
  rewrite !countIf_count, maxQ_Qmax. unfold spec.maintainabilityIndex.
  apply Q.max_compat; [reflexivity|].
  unfold float64_of_int, spec.hasKind, spec.hasRule.
  rewrite inject_Z_plus, !inject_Z_mult. ring.
Qed.

(** [calculateQualityTrends] of the analyzer package reads the entry
    missing_documentation of the summary, which is keyed by severity and
    kind: the entry is absent, and the index depends on the
    vulnerabilities alone. *)
Lemma analyzer_maintainability (ca : analyzer.CodeAnalyzer) :
  spec.validIssues (analyzer.issues ca) -> 0 < analyzer.filesCount ca ->
  (MaintainabilityIndex (analyzer.calculateQualityTrends ca)
   == Qmax 0 (100 - 5 * inject_Z (spec.count (spec.hasKind "vulnerability")
                                      (analyzer.issues ca))))%Q.
Proof.
  intros Hv Hn. unfold analyzer.calculateQualityTrends.
  assert (Hpos : (analyzer.filesCount ca >? 0) = true) by (apply Z.gtb_lt; lia).
  rewrite Hpos. cbv zeta. simpl MaintainabilityIndex.
  unfold analyzer.getIssuesSummary.
  rewrite (summary_other "missing_documentation") by
    (try exact Hv; simpl; intros H; repeat destruct H as [H|H]; try discriminate H; exact H).
  rewrite (summary_kind TypeVulnerability) by (try exact Hv; simpl; auto).
  rewrite maxQ_Qmax. apply Q.max_compat; [reflexivity|].
  unfold float64_of_int, TypeVulnerability.
  rewrite inject_Z_plus, !inject_Z_mult. ring.
Qed.

(** C4: with files analyzed, the maintainability index is
    max(0, 100 - 5*vulnerabilities - 2*missing_documentation issues).  On
    the example project, with one vulnerability and one issue of rule
    missing_documentation over four files, the formula gives 93 and the
    report of [internal/analyzer] carries 95. *)
Theorem maintainability_ignores_documentation :
  match snd exampleRun with
  | inl report =>
      FilesAnalyzed report = 4
      /\ spec.count (spec.hasKind "vulnerability") (Issues report) = 1
      /\ spec.count (spec.hasRule "missing_documentation") (Issues report) = 1
      /\ Qred (spec.maintainabilityIndex (Issues report)) = 93%Q
      /\ MaintainabilityIndex (Trends report) = 95%Q
      /\ mapGet (IssuesSummary report) "missing_documentation" = 0
  | inr _ => False
  end.
Proof. vm_compute. repeat split; reflexivity. Qed.

(** ** Indentation depth *)

Lemma indentLoop_spaces_bounded (n : nat) (rest : string) (level : Z) :
  spec.startsCode rest = true -> 0 <= level <= 3 ->
  0 <= rules.ComplexityRule.indentLoop (spec.replicate n " "%char +:+ rest) level <= 3.
Proof.
  intros Hrest. revert level. induction n as [|n IH]; intros level Hl.
  - simpl. destruct rest as [|c rest']; simpl; [lia|].
    simpl in Hrest. apply andb_true_iff in Hrest as [Ht Hs].
    apply negb_true_iff in Ht, Hs. rewrite Ht, Hs. lia.
  - change (spec.replicate (S n) " "%char +:+ rest)
      with (String " "%char (spec.replicate n " "%char +:+ rest)).
    cbn [rules.ComplexityRule.indentLoop].
    change (Ascii.eqb " " "009") with false. change (Ascii.eqb " " " ") with true.
    cbv iota zeta.
    destruct (Z.rem (level + 1) 4 =? 0) eqn:E.
    + apply IH. apply Z.eqb_eq in E.
      assert (Hl3 : level = 3).
      { assert (H : level = 0 \/ level = 1 \/ level = 2 \/ level = 3) by lia.
        destruct H as [H|[H|[H|H]]]; subst level; try reflexivity;
          vm_compute in E; discriminate E. }
      subst level. vm_compute. split; discriminate.
    + apply IH. apply Z.eqb_neq in E.
      assert (level <> 3) by (intros ->; apply E; reflexivity). lia.
Qed.

(** A line indented with spaces alone never reaches depth 4, however long
    the indentation: no deep_nesting issue for it. *)
Lemma spaces_never_deep (n : nat) (rest : string) :
  spec.startsCode rest = true ->
  rules.ComplexityRule.calculateIndentLevel (spec.replicate n " "%char +:+ rest) <= 3.
Proof.
  intros H. apply (indentLoop_spaces_bounded n rest 0 H). lia.
Qed.

Lemma indentLoop_tabs (n : nat) (rest : string) (level : Z) :
  spec.startsCode rest = true ->
  rules.ComplexityRule.indentLoop (spec.replicate n "009"%char +:+ rest) level
  = level + Z.of_nat n.
Proof.
  intros Hrest. revert level. induction n as [|n IH]; intros level.
  - simpl. destruct rest as [|c rest']; simpl; [lia|].
    simpl in Hrest. apply andb_true_iff in Hrest as [Ht Hs].
    apply negb_true_iff in Ht, Hs. rewrite Ht, Hs. lia.
  - change (spec.replicate (S n) "009"%char +:+ rest)
      with (String "009"%char (spec.replicate n "009"%char +:+ rest)).
    cbn [rules.ComplexityRule.indentLoop].
    change (Ascii.eqb "009" "009") with true. cbv iota.
    rewrite IH. lia.
Qed.

(** A line indented with tabs alone has its number of tabs as level. *)
Lemma tabs_level (n : nat) (rest : string) :
  spec.startsCode rest = true ->
  rules.ComplexityRule.calculateIndentLevel (spec.replicate n "009"%char +:+ rest)
  = Z.of_nat n.
Proof.
  intros H. unfold rules.ComplexityRule.calculateIndentLevel.
  rewrite (indentLoop_tabs n rest 0 H). lia.
Qed.

(** C5: the depth of the line of a conditional counts a leading tab as one
    level and four consecutive leading spaces as one level, and deep_nesting
    is reported exactly when the depth exceeds 4.  The rule's counter mixes
    levels and spaces: a conditional indented with twenty spaces (depth 5)
    gets level 2 and no issue, and one indented with four tabs and a space
    (depth 4) gets level 5 and an issue. *)
Theorem deep_nesting_miscounts :
  let spacesLine := index (strings.Split example.nestedSource newline) 2 in
  let tabsLine := index (strings.Split example.tabsSource newline) 2 in
  spec.indentDepth spacesLine = 5
  /\ rules.ComplexityRule.calculateIndentLevel spacesLine = 2
  /\ rules.ComplexityRule.checkDeepNesting "nested.go" example.nestedIf example.nestedSource
     = []
  /\ spec.indentDepth tabsLine = 4
  /\ rules.ComplexityRule.calculateIndentLevel tabsLine = 5
  /\ map (fun i => (types.Rule i, Severity i, Line i))
         (rules.ComplexityRule.checkDeepNesting "tabs.go" example.tabsIf example.tabsSource)
     = [("deep_nesting", "medium", 3)].
Proof. vm_compute. repeat split; reflexivity. Qed.

(** ** Cyclomatic complexity of a function and of a file *)

(** The per-function complexity of the ComplexityRule: 1 plus the branching
    nodes of the declaration. *)
Lemma calculateComplexity_count (fn : ast.Node) :
  rules.ComplexityRule.calculateComplexity fn = 1 + spec.branchCount fn.
Proof.
  unfold rules.ComplexityRule.calculateComplexity, spec.branchCount.
  rewrite (Inspect_preorder _ (fun c x => if spec.isBranching x then c + 1 else c)).
  - apply foldl_countNodes.
  - intros x c. unfold spec.isBranching. destruct (ast.kind x); reflexivity.
  - reflexivity.
Qed.

Lemma countNodes_or (p q : ast.Node -> bool) l :
  (forall x, p x = true -> q x = false) ->
  spec.countNodes (fun x => p x || q x) l = spec.countNodes p l + spec.countNodes q l.
Proof.
  intros Hpq. induction l as [|x l IH]; [reflexivity|].
  rewrite !countNodes_cons, IH. specialize (Hpq x).
  destruct (p x); [rewrite Hpq by reflexivity|]; simpl; destruct (q x); lia.
Qed.

(** The per-file complexity of the analyzer: the branching nodes and the
    function declarations of the whole tree. *)
Lemma calculateFileComplexity_count (node : ast.Node) :
  analyzer.calculateFileComplexity node
  = spec.branchCount node + spec.countNodes spec.isFuncDecl (spec.preorder node).
Proof.
  unfold analyzer.calculateFileComplexity, spec.branchCount.
  rewrite (Inspect_preorder _
             (fun c x => if spec.isBranching x || spec.isFuncDecl x then c + 1 else c)).
  - rewrite foldl_countNodes, countNodes_or; [lia|].
    intros x. unfold spec.isBranching, spec.isFuncDecl.
    destruct (ast.kind x); intros H; try reflexivity; discriminate H.
  - intros x c. unfold spec.isBranching, spec.isFuncDecl.
    destruct (ast.kind x); reflexivity.
  - reflexivity.
Qed.

Lemma preorder_unfold (n : ast.Node) :
  spec.preorder n = n :: flat_map spec.preorder (ast.children n).
Proof. destruct n; reflexivity. Qed.

Lemma declarations_sum (decls : list ast.Node) :
  Forall (fun d => spec.countNodes spec.isFuncDecl
                     (flat_map spec.preorder (ast.children d)) = 0) decls ->
  spec.countNodes spec.isBranching (flat_map spec.preorder decls)
  + spec.countNodes spec.isFuncDecl (flat_map spec.preorder decls)
  = spec.sumZ (map rules.ComplexityRule.calculateComplexity
                 (filter (fun d => spec.isFuncDecl d = true) decls))
    + spec.sumZ (map spec.branchCount
                   (filter (fun d => spec.isFuncDecl d = false) decls)).
Proof.
  induction 1 as [|d decls Hd _ IH]; [reflexivity|].
  simpl flat_map. rewrite !countNodes_app, !filter_cons.
  assert (Hfd : spec.countNodes spec.isFuncDecl (spec.preorder d)
                = if spec.isFuncDecl d then 1 else 0).
  { rewrite preorder_unfold, countNodes_cons, Hd. lia. }
  rewrite Hfd. fold (spec.branchCount d).
  destruct (spec.isFuncDecl d) eqn:E.
  - rewrite decide_True by reflexivity. rewrite decide_False by discriminate.
    simpl. rewrite calculateComplexity_count. lia.
  - rewrite decide_False by discriminate. rewrite decide_True by reflexivity.
    simpl. lia.
Qed.

(** C6, amended: for every parsed file, the per-file complexity that the
    analyzer adds to the metrics is the sum, over the function declarations
    of the file, of the per-function complexity of the ComplexityRule, plus
    the number of branching nodes that lie outside every function
    declaration. *)
Theorem file_complexity_sum (file : ast.Node) :
  spec.parsedFile file = true ->
  analyzer.calculateFileComplexity file
  = spec.sumFunctionComplexity file + spec.branchesOutsideFunctions file.
Proof.
  intros H. rewrite calculateFileComplexity_count.
  unfold spec.branchCount, spec.sumFunctionComplexity, spec.branchesOutsideFunctions,
    spec.funcDecls, spec.otherDecls.
  rewrite preorder_unfold, !countNodes_cons.
  unfold spec.parsedFile in H. unfold spec.isBranching at 1, spec.isFuncDecl at 1.
  destruct (ast.kind file); try discriminate H.
  rewrite <- declarations_sum; [lia|].
  apply List.Forall_forall. intros d Hd.
  rewrite forallb_forall in H. apply Z.eqb_eq. apply H, Hd.
Qed.

Lemma file_complexity_sum_witness :
  spec.parsedFile example.apiFile = true
  /\ analyzer.calculateFileComplexity example.apiFile
     = spec.sumFunctionComplexity example.apiFile
       + spec.branchesOutsideFunctions example.apiFile
  /\ analyzer.calculateFileComplexity example.apiFile = 2.
Proof.
  assert (H : spec.parsedFile example.apiFile = true) by reflexivity.
  split; [exact H|]. split; [exact (file_complexity_sum example.apiFile H) | reflexivity].
Defined.

(** C6 as stated fails on [handlers.go], whose conditional lies in a
    function literal of a package variable: the file has complexity 1 and
    no function declaration. *)
Lemma file_complexity_counterexample :
  ParseFile example.env "proj/handlers.go" example.handlersSource
  = inl example.handlersFile
  /\ spec.parsedFile example.handlersFile = true
  /\ spec.funcDecls example.handlersFile = []
  /\ analyzer.calculateFileComplexity example.handlersFile = 1
  /\ spec.sumFunctionComplexity example.handlersFile = 0
  /\ analyzer.calculateFileComplexity example.handlersFile
     <> spec.sumFunctionComplexity example.handlersFile.
Proof. repeat split; try reflexivity. vm_compute. discriminate. Qed.

(** Where every branching node lies in a function declaration, the file
    complexity is the sum of the function complexities. *)
Lemma file_complexity_functions_only (file : ast.Node) :
  spec.parsedFile file = true -> spec.branchesOutsideFunctions file = 0 ->
  analyzer.calculateFileComplexity file = spec.sumFunctionComplexity file.
Proof.
  intros H H0. rewrite calculateFileComplexity_count.
  pose proof (calculateFileComplexity_count file) as Hc.
  unfold spec.branchCount, spec.sumFunctionComplexity, spec.branchesOutsideFunctions,
    spec.funcDecls, spec.otherDecls in *.
  rewrite preorder_unfold, !countNodes_cons.
  unfold spec.parsedFile in H. unfold spec.isBranching at 1, spec.isFuncDecl at 1.
  destruct (ast.kind file); try discriminate H.
  pose proof (declarations_sum (ast.children file)) as Hs.
  rewrite H0 in Hs. rewrite Z.add_0_r in Hs. rewrite <- Hs; [lia|].
  apply List.Forall_forall. intros d Hd.
  rewrite forallb_forall in H. apply Z.eqb_eq. apply H, Hd.
Qed.

(** ** The false-positive filter of the SecurityRule *)

Lemma flat_map_nil {A B : Type} (f : A -> list B) (l : list A) :
  (forall x, f x = []) -> flat_map f l = [].
Proof.
  intros Hf. induction l as [|x l IH]; simpl; [reflexivity|].
  rewrite Hf, IH. reflexivity.
Qed.

Lemma comment_isFalsePositive (line : string) :
  strings.Contains line "//" = true \/ strings.Contains line "/*" = true ->
  rules.SecurityRule.isFalsePositive line = true.
Proof.
  intros H. unfold rules.SecurityRule.isFalsePositive.
  destruct (existsb _ _); [reflexivity|].
  destruct H as [H|H]; rewrite H; [reflexivity|].
  rewrite orb_true_r. reflexivity.
Qed.

Lemma placeholder_isFalsePositive (line fp : string) :
  In fp rules.SecurityRule.falsePositives ->
  strings.Contains (strings.ToLower line) fp = true ->
  rules.SecurityRule.isFalsePositive line = true.
Proof.
  intros Hin H. unfold rules.SecurityRule.isFalsePositive.
  assert (E : existsb (fun fp => strings.Contains (strings.ToLower line) fp)
                rules.SecurityRule.falsePositives = true).
  { apply existsb_exists. exists fp. split; assumption. }
  rewrite E. reflexivity.
Qed.

Lemma falsePositive_no_secret env file lineNum line :
  rules.SecurityRule.isFalsePositive line = true ->
  rules.SecurityRule.checkHardcodedSecrets env file lineNum line = [].
Proof.
  intros H. unfold rules.SecurityRule.checkHardcodedSecrets.
  apply flat_map_nil. intros sp. rewrite H.
  destruct (MatchString env _ line) as [matched err].
  destruct (isNil err && matched); reflexivity.
Qed.

Lemma sql_match_reported env file lineNum line pattern :
  In pattern rules.SecurityRule.sqlPatterns ->
  MatchString env pattern line = (true, None) ->
  exists issue,
    In issue (rules.SecurityRule.checkSQLInjection env file lineNum line)
    /\ types.Rule issue = "sql_injection"
    /\ Type_ issue = "vulnerability" /\ Severity issue = "high"
    /\ File issue = file /\ Line issue = lineNum.
Proof.
  intros Hin Hm. unfold rules.SecurityRule.checkSQLInjection.
  eexists. split.
  - apply in_flat_map. exists pattern. split; [exact Hin|].
    rewrite Hm. simpl. left. reflexivity.
  - repeat split.
Qed.

Lemma forLines_In {A : Type} (lines : list string) (body : Z -> string -> list A)
    (i : nat) (line : string) (x : A) :
  lines !! i = Some line -> In x (body (Z.of_nat i) line) -> In x (forLines lines body).
Proof.
  unfold forLines. intros Hl Hx.
  apply in_concat. exists (body (Z.of_nat i) line). split; [|exact Hx].
  apply list_elem_of_In. apply list_elem_of_lookup. exists i.
  rewrite list_lookup_imap, Hl. reflexivity.
Qed.

(** C9: the false-positive filter of the SecurityRule (comments and the
    placeholder literals) applies to hardcoded_secret alone: a line that
    contains // or /* anywhere, or a placeholder, yields no hardcoded_secret
    issue, and a line that matches an SQL-injection pattern yields a
    sql_injection issue, which [Check] reports for its line number,
    whatever the filter says of the line. *)
Theorem suppression_only_for_secrets env file lineNum line :
  (strings.Contains line "//" = true \/ strings.Contains line "/*" = true ->
   rules.SecurityRule.checkHardcodedSecrets env file lineNum line = [])
  /\ (forall fp, In fp rules.SecurityRule.falsePositives ->
        strings.Contains (strings.ToLower line) fp = true ->
        rules.SecurityRule.checkHardcodedSecrets env file lineNum line = [])
  /\ (forall pattern,
        In pattern rules.SecurityRule.sqlPatterns ->
        MatchString env pattern line = (true, None) ->
        (exists issue,
            In issue (rules.SecurityRule.checkSQLInjection env file lineNum line)
            /\ types.Rule issue = "sql_injection"
            /\ Type_ issue = "vulnerability" /\ Severity issue = "high"
            /\ File issue = file /\ Line issue = lineNum)
        /\ (forall node content (i : nat),
              strings.Split content newline !! i = Some line ->
              exists issue,
                In issue (rules.SecurityRule.Check env file node content)
                /\ types.Rule issue = "sql_injection"
                /\ Line issue = Z.of_nat i + 1)).
Proof.
  repeat split.
  - intros H. apply falsePositive_no_secret, comment_isFalsePositive, H.
  - intros fp Hin H. eapply falsePositive_no_secret, placeholder_isFalsePositive; eassumption.
  - eapply sql_match_reported; eassumption.
  - intros node content i Hl.
    destruct (sql_match_reported env file (Z.of_nat i + 1) line pattern)
      as (issue & Hin & Hr & _ & _ & _ & Hline); [assumption..|].
    exists issue. repeat split; [|exact Hr|exact Hline].
    unfold rules.SecurityRule.Check.
    eapply forLines_In; [exact Hl|]. cbv zeta. apply in_or_app. right. exact Hin.
Qed.

(** The line of [api.go] with a query and a trailing comment that holds a
    password: it matches a secret pattern and the first SQL pattern; the
    rule reports the query and not the password. *)
Lemma suppression_only_for_secrets_witness :
  strings.Contains example.queryLine "//" = true
  /\ MatchString example.env
       (rules.SecurityRule.pattern (hd (rules.SecurityRule.mkSecretPattern "" "" "")
                                       rules.SecurityRule.secretPatterns))
       example.queryLine = (true, None)
  /\ MatchString example.env (hd "" rules.SecurityRule.sqlPatterns) example.queryLine
     = (true, None)
  /\ rules.SecurityRule.checkHardcodedSecrets example.env "proj/api.go" 6 example.queryLine
     = []
  /\ exists issue,
       In issue (rules.SecurityRule.checkSQLInjection example.env "proj/api.go" 6
                   example.queryLine)
       /\ types.Rule issue = "sql_injection"
       /\ Type_ issue = "vulnerability" /\ Severity issue = "high"
       /\ File issue = "proj/api.go" /\ Line issue = 6.
Proof.
  assert (Hc : strings.Contains example.queryLine "//" = true) by (vm_compute; reflexivity).
  assert (Hm : MatchString example.env (hd "" rules.SecurityRule.sqlPatterns)
                 example.queryLine = (true, None)) by (vm_compute; reflexivity).
  split; [exact Hc|]. split; [vm_compute; reflexivity|]. split; [exact Hm|].
  pose proof (suppression_only_for_secrets example.env "proj/api.go" 6 example.queryLine)
    as (H1 & _ & H3).
  split; [exact (H1 (or_introl Hc))|].
  exact (proj1 (H3 _ (or_introl eq_refl) Hm)).
Defined.

(** ** The analyzer of main.go during a scan *)

Lemma main_addIssue_keeps n ca issue :
  spec.mainInvariant n ca -> spec.validIssue issue = true ->
  spec.mainInvariant n (main.addIssue ca issue).
Proof.
  intros [Hv Hn] Hi. split; [|exact Hn]. simpl.
  apply valid_app; [exact Hv|]. constructor; [exact Hi|constructor].
Qed.

Lemma main_setMetrics_keeps n ca m :
  spec.mainInvariant n ca -> spec.mainInvariant n (main.setMetrics ca m).
Proof. intros H. exact H. Qed.

Lemma foldl_invariant {S A : Type} (P : S -> Prop) (f : S -> A -> S) (l : list A) :
  (forall s x, P s -> P (f s x)) -> forall s, P s -> P (foldl f s l).
Proof.
  intros Hf. induction l as [|x l IH]; intros s Hs; simpl; [exact Hs|].
  apply IH, Hf, Hs.
Qed.

(** One check of main.go: the analyzer, or the analyzer with one more issue
    built from constants, possibly in a loop. *)
Ltac main_keeps :=
  repeat match goal with
         | H : spec.mainInvariant ?n ?ca |- spec.mainInvariant ?n ?ca => exact H
         | |- spec.mainInvariant _ (main.addIssue _ _) =>
             apply main_addIssue_keeps;
             [ | repeat match goal with
                        | |- context [if ?b then _ else _] => destruct b
                        end; reflexivity ]
         | |- spec.mainInvariant _ (main.setMetrics _ _) => apply main_setMetrics_keeps
         | |- spec.mainInvariant _ (if ?b then _ else _) => destruct b
         | |- spec.mainInvariant _ (match ?x with _ => _ end) => destruct x
         | |- spec.mainInvariant _ (let _ := _ in _) => cbv zeta
         | |- spec.mainInvariant ?n (foldl _ _ _) =>
             apply (foldl_invariant (spec.mainInvariant n)); [ intros ? ? ? | ]
         end.

Lemma analyzeFunctionComplexity_keeps n ca filePath fn fd pos :
  spec.mainInvariant n ca ->
  spec.mainInvariant n (main.analyzeFunctionComplexity ca filePath fn fd pos).
Proof. intros H. unfold main.analyzeFunctionComplexity. main_keeps. Qed.

Lemma checkFunctionNaming_keeps env n ca filePath fd pos :
  spec.mainInvariant n ca ->
  spec.mainInvariant n (main.checkFunctionNaming env ca filePath fd pos).
Proof. intros H. unfold main.checkFunctionNaming. main_keeps. Qed.

Lemma checkFunctionSize_keeps n ca filePath fd pos :
  spec.mainInvariant n ca ->
  spec.mainInvariant n (main.checkFunctionSize ca filePath fd pos).
Proof. intros H. unfold main.checkFunctionSize. main_keeps. Qed.

Lemma checkDeepNesting_keeps n ca filePath pos content :
  spec.mainInvariant n ca ->
  spec.mainInvariant n (main.checkDeepNesting ca filePath pos content).
Proof. intros H. unfold main.checkDeepNesting. main_keeps. Qed.

Lemma checkVariableNaming_keeps n ca filePath Specs pos :
  spec.mainInvariant n ca ->
  spec.mainInvariant n (main.checkVariableNaming ca filePath Specs pos).
Proof. intros H. unfold main.checkVariableNaming. main_keeps. Qed.

Lemma checkDeprecatedFunctions_keeps n ca filePath Fun pos :
  spec.mainInvariant n ca ->
  spec.mainInvariant n (main.checkDeprecatedFunctions ca filePath Fun pos).
Proof. intros H. unfold main.checkDeprecatedFunctions. main_keeps. Qed.

Lemma checkErrorHandling_keeps n ca filePath Fun pos :
  spec.mainInvariant n ca ->
  spec.mainInvariant n (main.checkErrorHandling ca filePath Fun pos).
Proof. intros H. unfold main.checkErrorHandling. main_keeps. Qed.

Lemma checkHardcodedSecrets_keeps env n ca filePath lineNum line :
  spec.mainInvariant n ca ->
  spec.mainInvariant n (main.checkHardcodedSecrets env ca filePath lineNum line).
Proof. intros H. unfold main.checkHardcodedSecrets. main_keeps. Qed.

Lemma checkTodoComments_keeps env n ca filePath lineNum line :
  spec.mainInvariant n ca ->
  spec.mainInvariant n (main.checkTodoComments env ca filePath lineNum line).
Proof. intros H. unfold main.checkTodoComments. main_keeps. Qed.

Lemma checkLineLength_keeps n ca filePath lineNum line :
  spec.mainInvariant n ca ->
  spec.mainInvariant n (main.checkLineLength ca filePath lineNum line).
Proof. intros H. unfold main.checkLineLength. main_keeps. Qed.

Lemma checkSQLInjection_keeps env n ca filePath lineNum line :
  spec.mainInvariant n ca ->
  spec.mainInvariant n (main.checkSQLInjection env ca filePath lineNum line).
Proof. intros H. unfold main.checkSQLInjection. main_keeps. Qed.

Lemma checkUnusedCode_keeps n ca filePath lineNum line :
  spec.mainInvariant n ca ->
  spec.mainInvariant n (main.checkUnusedCode ca filePath lineNum line).
Proof. intros H. unfold main.checkUnusedCode. main_keeps. Qed.

Lemma foldLines_keeps n lines ca body :
  (forall ca i line, spec.mainInvariant n ca -> spec.mainInvariant n (body ca i line)) ->
  spec.mainInvariant n ca -> spec.mainInvariant n (main.foldLines lines ca body).
Proof.
  intros Hb Hv. unfold main.foldLines.
  apply (foldl_invariant (spec.mainInvariant n)); [|exact Hv].
  intros s [i line] Hs. apply Hb, Hs.
Qed.

Lemma checkDocumentation_keeps n ca filePath content :
  spec.mainInvariant n ca ->
  spec.mainInvariant n (main.checkDocumentation ca filePath content).
Proof.
  intros H. unfold main.checkDocumentation. apply foldLines_keeps; [|exact H].
  intros ca' i line H'. main_keeps.
Qed.

Lemma analyzeAST_keeps env n ca filePath node content :
  spec.mainInvariant n ca ->
  spec.mainInvariant n (main.analyzeAST env ca filePath node content).
Proof.
  intros Hv. unfold main.analyzeAST.
  apply (Inspect_invariant (spec.mainInvariant n)); [|exact Hv].
  clear ca Hv. intros [x|] ca Hv; simpl; [|exact Hv].
  destruct (ast.kind x); try exact Hv.
  - apply checkFunctionSize_keeps, checkFunctionNaming_keeps,
      analyzeFunctionComplexity_keeps, Hv.
  - apply checkVariableNaming_keeps, Hv.
  - apply checkDeepNesting_keeps, Hv.
  - apply checkErrorHandling_keeps, checkDeprecatedFunctions_keeps, Hv.
Qed.

Lemma analyzeFileContent_keeps env n ca filePath content :
  spec.mainInvariant n ca ->
  spec.mainInvariant n (main.analyzeFileContent env ca filePath content).
Proof.
  intros Hv. unfold main.analyzeFileContent.
  apply checkDocumentation_keeps, foldLines_keeps; [|exact Hv].
  intros ca' i line Hv'. cbv zeta.
  apply checkUnusedCode_keeps, checkSQLInjection_keeps, checkLineLength_keeps,
    checkTodoComments_keeps, checkTodoComments_keeps, checkHardcodedSecrets_keeps, Hv'.
Qed.

Lemma main_analyzeFile_invariant env n ca filePath :
  spec.mainInvariant n ca ->
  spec.mainInvariant (n + 1) (main.analyzeFile env ca filePath).
Proof.
  intros [Hv Hn]. unfold main.analyzeFile.
  assert (H1 : spec.mainInvariant (n + 1) (main.setFilesCount ca (main.filesCount ca + 1))).
  { split; [exact Hv | simpl; lia]. }
  destruct (ReadFile env filePath) as [content|err].
  - destruct (ParseFile env filePath content) as [node|err].
    + unfold main.updateMetrics. apply main_setMetrics_keeps.
      apply analyzeFileContent_keeps, analyzeAST_keeps, H1.
    + apply main_addIssue_keeps; [exact H1 | reflexivity].
  - apply main_addIssue_keeps; [exact H1 | reflexivity].
Qed.

Lemma main_walkFunc_invariant env ca call :
  spec.validIssues (main.issues ca) /\ 0 <= main.filesCount ca ->
  spec.validIssues (main.issues (fst (main.walkFunc env ca call)))
  /\ 0 <= main.filesCount (fst (main.walkFunc env ca call)).
Proof.
  intros [Hv Hn]. unfold main.walkFunc.
  destruct (walkErr call); [split; assumption|].
  repeat match goal with
         | |- context [if ?b then _ else _] => destruct b
         end; simpl; try (split; assumption).
  destruct (main_analyzeFile_invariant env (main.filesCount ca) ca (walkPath call))
    as [Hv' Hn']; [split; [exact Hv | reflexivity]|].
  split; [exact Hv' | rewrite Hn'; lia].
Qed.

(** [calculateScore] of main.go gives the score of the specification on the
    analyzer of every run, while the report carries 100. *)
Lemma main_calculateScore_run env projectPath ca report :
  main.AnalyzeProject env main.NewCodeAnalyzer projectPath = (ca, inl report) ->
  (main.calculateScore ca
   == spec.score (main.Issues report) (CyclomaticComplexity (main.ReportMetrics report))
        (main.FilesAnalyzed report))%Q
  /\ main.Score report = 100%Q.
Proof.
  unfold main.AnalyzeProject. intros H.
  pose proof (walkDir_invariant
                (fun ca => spec.validIssues (main.issues ca) /\ 0 <= main.filesCount ca)
                (main.walkFunc env) (WalkDir env projectPath)
                (main_walkFunc_invariant env) main.NewCodeAnalyzer) as Hinv.
  destruct (walkDir _ _ _) as [ca1 [e|]]; [discriminate|].
  injection H as <- <-. simpl in *. split; [|reflexivity].
  destruct Hinv as [Hv Hn]; [split; [constructor | lia]|].
  apply main_calculateScore_spec; assumption.
Qed.

(** * Further properties of the code *)

(** ** A scan is the sum of its files *)

Lemma analyzeFile_alone env options ca path :
  analyzer.ruleEngine ca = rules.NewEngine env ->
  analyzer.issues (analyzer.analyzeFile env ca path)
  = analyzer.issues ca ++ analyzer.issues (scan.alone env options path)
  /\ analyzer.filesCount (analyzer.analyzeFile env ca path) = analyzer.filesCount ca + 1
  /\ LinesOfCode (analyzer.metrics (analyzer.analyzeFile env ca path))
     = LinesOfCode (analyzer.metrics ca)
       + LinesOfCode (analyzer.metrics (scan.alone env options path))
  /\ CyclomaticComplexity (analyzer.metrics (analyzer.analyzeFile env ca path))
     = CyclomaticComplexity (analyzer.metrics ca)
       + CyclomaticComplexity (analyzer.metrics (scan.alone env options path))
  /\ analyzer.options (analyzer.analyzeFile env ca path) = analyzer.options ca
  /\ analyzer.ruleEngine (analyzer.analyzeFile env ca path) = analyzer.ruleEngine ca
  /\ TestCoverage (analyzer.metrics (analyzer.analyzeFile env ca path))
     = if scan.hasTestMarker env path
       then (float64_of_int (analyzer.filesCount ca + 1)
             / float64_of_int (maxZ (analyzer.filesCount ca + 1) 1) * 100)%Q
       else TestCoverage (analyzer.metrics ca).
Proof.
  intros He. unfold scan.alone, scan.hasTestMarker, analyzer.analyzeFile.
  destruct (ReadFile env path) as [content|err].
  - destruct (ParseFile env path content) as [node|err].
    + simpl. rewrite He. repeat split; try reflexivity; lia.
    + simpl. repeat split; try reflexivity; lia.
  - simpl. repeat split; try reflexivity; lia.
Qed.

Lemma walkFunc_processes env ca call :
  walkErr call = None ->
  spec.processed env (analyzer.options ca) call = true ->
  analyzer.walkFunc env ca call = (analyzer.analyzeFile env ca (walkPath call), None).
Proof.
  intros He Hp. unfold analyzer.walkFunc. rewrite He.
  unfold spec.processed in Hp.
  destruct (IsDir call); [discriminate Hp|].
  destruct (strings.HasSuffix (walkPath call) ".go"); [|discriminate Hp].
  destruct (strings.Contains (walkPath call) "vendor/"); [discriminate Hp|].
  destruct (strings.Contains (walkPath call) ".git/"); [discriminate Hp|].
  destruct (IncludeTests (analyzer.options ca)),
           (strings.HasSuffix (walkPath call) "_test.go"); simpl in *;
    try discriminate Hp;
    destruct (existsb _ _); try reflexivity; discriminate Hp.
Qed.

Lemma walkFunc_error env ca call e :
  walkErr call = Some e -> analyzer.walkFunc env ca call = (ca, Some e).
Proof. intros H. unfold analyzer.walkFunc. rewrite H. reflexivity. Qed.

(** The analyzer after a walk that reported no error. *)
Lemma walkDir_scan env calls :
  forall ca ca',
    analyzer.ruleEngine ca = rules.NewEngine env ->
    walkDir (analyzer.walkFunc env) calls ca = (ca', None) ->
    let ps := filter (fun call => spec.processed env (analyzer.options ca) call = true)
                     calls in
    analyzer.issues ca'
    = analyzer.issues ca
      ++ flat_map (fun call => analyzer.issues
                                 (scan.alone env (analyzer.options ca) (walkPath call))) ps
    /\ analyzer.filesCount ca' = analyzer.filesCount ca + Z.of_nat (length ps)
    /\ LinesOfCode (analyzer.metrics ca')
       = LinesOfCode (analyzer.metrics ca)
         + spec.sumZ (map (fun call => LinesOfCode (analyzer.metrics
                        (scan.alone env (analyzer.options ca) (walkPath call)))) ps)
    /\ CyclomaticComplexity (analyzer.metrics ca')
       = CyclomaticComplexity (analyzer.metrics ca)
         + spec.sumZ (map (fun call => CyclomaticComplexity (analyzer.metrics
                        (scan.alone env (analyzer.options ca) (walkPath call)))) ps)
    /\ spec.walkSucceeds calls
    /\ analyzer.options ca' = analyzer.options ca.
Proof.
  induction calls as [|c calls IH]; intros ca ca' He Hw; simpl in Hw.
  - injection Hw as <-. cbv zeta. rewrite filter_nil. simpl.
    rewrite app_nil_r. repeat split; try lia. constructor.
  - destruct (walkErr c) as [e|] eqn:Ec.
    { rewrite (walkFunc_error env ca c e Ec) in Hw. discriminate Hw. }
    cbv zeta. rewrite filter_cons.
    destruct (spec.processed env (analyzer.options ca) c) eqn:Ep.
    + rewrite decide_True by reflexivity.
      rewrite (walkFunc_processes env ca c Ec Ep) in Hw.
      destruct (analyzeFile_alone env (analyzer.options ca) ca (walkPath c) He)
        as (Hi & Hn & Hl & Hc & Ho & He' & _).
      rewrite He in He'.
      destruct (IH _ _ He' Hw) as (Hi2 & Hn2 & Hl2 & Hc2 & Hs2 & Ho2).
      rewrite Ho in Hi2, Hn2, Hl2, Hc2, Ho2.
      rewrite Hi2, Hn2, Hl2, Hc2, Hi, Hn, Hl, Hc. simpl.
      rewrite <- app_assoc.
      repeat split; try reflexivity; try lia; try exact Ho2.
      constructor; assumption.
    + rewrite decide_False by discriminate.
      rewrite (walkFunc_skips env ca c Ec Ep) in Hw.
      destruct (IH _ _ He Hw) as (Hi2 & Hn2 & Hl2 & Hc2 & Hs2 & Ho2).
      repeat split; try assumption. constructor; assumption.
Qed.

(** X1: the issues of a report are the issues each processed file gives
    when analysed alone, concatenated in the order of the walk, and the
    number of files analyzed is the number of processed files. *)
Theorem report_issues_by_file env options ca report :
  analyzer.AnalyzeProject env (analyzer.New env options) = (ca, inl report) ->
  Issues report
  = flat_map (fun call => analyzer.issues (scan.alone env options (walkPath call)))
             (scan.processedCalls env options)
  /\ FilesAnalyzed report = Z.of_nat (length (scan.processedCalls env options)).
Proof.
  intros H. pose proof H as Hr.
  apply AnalyzeProject_report in Hr as (_ & -> & _ & -> & _).
  unfold analyzer.AnalyzeProject in H.
  destruct (walkDir _ _ _) as [ca1 [e|]] eqn:Ew; [discriminate H|].
  injection H as <- _.
  apply walkDir_scan in Ew as (Hi & Hn & _); [|reflexivity].
  rewrite Hi, Hn. split; reflexivity.
Qed.

Lemma report_issues_by_file_witness :
  exampleRun = (fst exampleRun, inl example.report)
  /\ Issues example.report
     = flat_map (fun call => analyzer.issues
                               (scan.alone example.env example.options (walkPath call)))
                (scan.processedCalls example.env example.options)
  /\ FilesAnalyzed example.report
     = Z.of_nat (length (scan.processedCalls example.env example.options)).
Proof.
  split; [exact example_run|].
  exact (report_issues_by_file example.env example.options _ _ example_run).
Defined.

(** X2: the lines of code and the cyclomatic complexity of a report are the
    sums, over the processed files, of what each file contributes when
    analysed alone. *)
Theorem report_metrics_by_file env options ca report :
  analyzer.AnalyzeProject env (analyzer.New env options) = (ca, inl report) ->
  LinesOfCode (ReportMetrics report)
  = spec.sumZ (map (fun call => LinesOfCode (analyzer.metrics
                      (scan.alone env options (walkPath call))))
                   (scan.processedCalls env options))
  /\ CyclomaticComplexity (ReportMetrics report)
     = spec.sumZ (map (fun call => CyclomaticComplexity (analyzer.metrics
                         (scan.alone env options (walkPath call))))
                      (scan.processedCalls env options)).
Proof.
  intros H. pose proof H as Hr.
  apply AnalyzeProject_report in Hr as (_ & _ & -> & _).
  unfold analyzer.AnalyzeProject in H.
  destruct (walkDir _ _ _) as [ca1 [e|]] eqn:Ew; [discriminate H|].
  injection H as <- _.
  apply walkDir_scan in Ew as (_ & _ & Hl & Hc & _); [|reflexivity].
  rewrite Hl, Hc. split; reflexivity.
Qed.

Lemma report_metrics_by_file_witness :
  exampleRun = (fst exampleRun, inl example.report)
  /\ LinesOfCode (ReportMetrics example.report)
     = spec.sumZ (map (fun call => LinesOfCode (analyzer.metrics
                         (scan.alone example.env example.options (walkPath call))))
                      (scan.processedCalls example.env example.options))
  /\ CyclomaticComplexity (ReportMetrics example.report)
     = spec.sumZ (map (fun call => CyclomaticComplexity (analyzer.metrics
                         (scan.alone example.env example.options (walkPath call))))
                      (scan.processedCalls example.env example.options)).
Proof.
  split; [exact example_run|].
  exact (report_metrics_by_file example.env example.options _ _ example_run).
Defined.

Lemma occurrences_nonneg (c : ascii) (s : string) : 0 <= scan.occurrences c s.
Proof.
  induction s as [|d s IH]; simpl; [lia|]. destruct (Ascii.eqb d c); lia.
Qed.

Lemma Split_length (s : string) (sep : ascii) :
  Z.of_nat (length (strings.Split s sep)) = 1 + scan.occurrences sep s.
Proof.
  induction s as [|c s IH]; [reflexivity|].
  simpl. destruct (Ascii.eqb c sep).
  - simpl length. lia.
  - pose proof (occurrences_nonneg sep s).
    destruct (strings.Split s sep) as [|l ls]; simpl in *; lia.
Qed.

(** X3: a file that is read and parsed contributes one line more than it
    has newline bytes (an empty file counts one line) and the complexity of
    its tree; a file that cannot be read or parsed contributes nothing to
    the metrics and exactly one issue. *)
Theorem file_contribution env options path :
  match ReadFile env path with
  | inl content =>
      match ParseFile env path content with
      | inl node =>
          LinesOfCode (analyzer.metrics (scan.alone env options path))
          = 1 + scan.occurrences newline content
          /\ CyclomaticComplexity (analyzer.metrics (scan.alone env options path))
             = analyzer.calculateFileComplexity node
          /\ analyzer.issues (scan.alone env options path)
             = rules.AnalyzeFile (rules.NewEngine env) path node content
      | inr _ =>
          analyzer.metrics (scan.alone env options path) = zeroMetrics
          /\ map types.Rule (analyzer.issues (scan.alone env options path))
             = ["parse_error"]
      end
  | inr _ =>
      analyzer.metrics (scan.alone env options path) = zeroMetrics
      /\ map types.Rule (analyzer.issues (scan.alone env options path)) = ["read_error"]
  end.
Proof.
  unfold scan.alone, analyzer.analyzeFile.
  destruct (ReadFile env path) as [content|err].
  - destruct (ParseFile env path content) as [node|err].
    + simpl. rewrite Split_length. repeat split; reflexivity.
    + split; reflexivity.
  - split; reflexivity.
Qed.

(** ** A walk that reports an error *)

Lemma walkDir_stops {S : Type} (fn : S -> WalkCall -> S * option error)
    (pre post : list WalkCall) (c : WalkCall) (s s1 s2 : S) (e : error) :
  walkDir fn pre s = (s1, None) -> fn s1 c = (s2, Some e) ->
  walkDir fn (pre ++ c :: post) s = (s2, Some e).
Proof.
  revert s. induction pre as [|p pre IH]; intros s Hpre Hc; simpl in *.
  - injection Hpre as ->. rewrite Hc. reflexivity.
  - destruct (fn s p) as [s' [e'|]]; [discriminate Hpre|]. apply IH; assumption.
Qed.

Lemma walkDir_no_error env pre ca :
  spec.walkSucceeds pre ->
  snd (walkDir (analyzer.walkFunc env) pre ca) = None.
Proof.
  intros H. apply walkDir_succeeds. intros s c Hin. apply analyzer_walkFunc_nil.
  unfold spec.walkSucceeds in H. rewrite List.Forall_forall in H. apply H, Hin.
Qed.

(** X4: when the walk reports an error at some entry, [AnalyzeProject]
    returns no report but the error of that entry behind the prefix
    [error walking directory: ], and the analyzer is the one reached before
    that entry: the entries after it are not analysed. *)
Theorem walk_error_aborts env options pre c post e :
  WalkDir env (OptProjectPath options) = pre ++ c :: post ->
  spec.walkSucceeds pre -> walkErr c = Some e ->
  analyzer.AnalyzeProject env (analyzer.New env options)
  = (fst (walkDir (analyzer.walkFunc env) pre (analyzer.New env options)),
     inr ("error walking directory: " +:+ e)).
Proof.
  intros Hw Hpre Hc. unfold analyzer.AnalyzeProject.
  change (analyzer.options (analyzer.New env options)) with options. rewrite Hw.
  pose proof (walkDir_no_error env pre (analyzer.New env options) Hpre) as Hn.
  destruct (walkDir (analyzer.walkFunc env) pre (analyzer.New env options))
    as [ca1 o] eqn:E1. simpl in Hn. subst o.
  rewrite (walkDir_stops (analyzer.walkFunc env) pre post c _ ca1 ca1 e E1
             (walkFunc_error env ca1 c e Hc)).
  reflexivity.
Qed.

Lemma walk_error_aborts_witness :
  WalkDir example.env "nowhere"
  = [] ++ mkWalkCall "nowhere" false (Some "lstat nowhere: no such file or directory")
       :: []
  /\ snd (analyzer.AnalyzeProject example.env
            (analyzer.New example.env
               (mkAnalysisOptions "nowhere" "" "" "" "" [] false false)))
     = inr "error walking directory: lstat nowhere: no such file or directory".
Proof.
  assert (Hw : WalkDir example.env "nowhere"
               = [] ++ mkWalkCall "nowhere" false
                         (Some "lstat nowhere: no such file or directory") :: [])
    by reflexivity.
  split; [exact Hw|].
  exact (f_equal snd
           (walk_error_aborts example.env
              (mkAnalysisOptions "nowhere" "" "" "" "" [] false false)
              [] _ [] _ Hw (Forall_nil_2 _) eq_refl)).
Defined.

(** ** The test-coverage estimate *)

Lemma coverage_full (n : Z) :
  0 <= n ->
  (float64_of_int (n + 1) / float64_of_int (maxZ (n + 1) 1) * 100 == 100)%Q.
Proof.
  intros Hn. unfold maxZ.
  assert (Hm : (if n + 1 >? 1 then n + 1 else 1) = n + 1).
  { destruct (n + 1 >? 1) eqn:E; [reflexivity|]. rewrite Z.gtb_ltb in E.
    apply Z.ltb_ge in E. lia. }
  rewrite Hm. unfold float64_of_int.
  assert (Hne : ~ (inject_Z (n + 1) == 0)%Q).
  { unfold Qeq. simpl. lia. }
  field. exact Hne.
Qed.

Lemma walkDir_coverage env calls :
  forall ca ca',
    analyzer.ruleEngine ca = rules.NewEngine env -> 0 <= analyzer.filesCount ca ->
    walkDir (analyzer.walkFunc env) calls ca = (ca', None) ->
    let ps := filter (fun call => spec.processed env (analyzer.options ca) call = true)
                     calls in
    if existsb (fun call => scan.hasTestMarker env (walkPath call)) ps
    then (TestCoverage (analyzer.metrics ca') == 100)%Q
    else TestCoverage (analyzer.metrics ca') = TestCoverage (analyzer.metrics ca).
Proof.
  induction calls as [|c calls IH]; intros ca ca' He Hn Hw; simpl in Hw.
  - injection Hw as <-. cbv zeta. rewrite filter_nil. reflexivity.
  - destruct (walkErr c) as [e|] eqn:Ec.
    { rewrite (walkFunc_error env ca c e Ec) in Hw. discriminate Hw. }
    cbv zeta. rewrite filter_cons.
    destruct (spec.processed env (analyzer.options ca) c) eqn:Ep.
    + rewrite decide_True by reflexivity.
      rewrite (walkFunc_processes env ca c Ec Ep) in Hw.
      destruct (analyzeFile_alone env (analyzer.options ca) ca (walkPath c) He)
        as (_ & Hn1 & _ & _ & Ho & He' & Hcov).
      rewrite He in He'.
      assert (Hn' : 0 <= analyzer.filesCount (analyzer.analyzeFile env ca (walkPath c)))
        by lia.
      specialize (IH _ _ He' Hn' Hw). cbv zeta in IH. rewrite Ho in IH.
      simpl existsb.
      destruct (scan.hasTestMarker env (walkPath c)) eqn:Em; simpl.
      * destruct (existsb _ _); [exact IH|].
        rewrite IH, Hcov. apply coverage_full, Hn.
      * destruct (existsb _ _); [exact IH|]. rewrite IH. exact Hcov.
    + rewrite decide_False by discriminate.
      rewrite (walkFunc_skips env ca c Ec Ep) in Hw.
      exact (IH _ _ He Hn Hw).
Qed.

(** X5: the test coverage of a report is 100 when some processed file that
    is read and parsed contains the text [func Test], and 0 otherwise: no
    other value is ever reported. *)
Theorem coverage_all_or_nothing env options ca report :
  analyzer.AnalyzeProject env (analyzer.New env options) = (ca, inl report) ->
  if existsb (fun call => scan.hasTestMarker env (walkPath call))
             (scan.processedCalls env options)
  then (TestCoverage (ReportMetrics report) == 100)%Q
  else TestCoverage (ReportMetrics report) = 0%Q.
Proof.
  intros H. pose proof H as Hr.
  apply AnalyzeProject_report in Hr as (_ & _ & -> & _).
  unfold analyzer.AnalyzeProject in H.
  destruct (walkDir _ _ _) as [ca1 [e|]] eqn:Ew; [discriminate H|].
  injection H as <- _.
  apply walkDir_coverage in Ew; [exact Ew | reflexivity | simpl; lia].
Qed.

Lemma coverage_all_or_nothing_witness :
  exampleRun = (fst exampleRun, inl example.report)
  /\ existsb (fun call => scan.hasTestMarker example.env (walkPath call))
             (scan.processedCalls example.env example.options) = false
  /\ TestCoverage (ReportMetrics example.report) = 0%Q.
Proof.
  split; [exact example_run|].
  assert (E : existsb (fun call => scan.hasTestMarker example.env (walkPath call))
                (scan.processedCalls example.env example.options) = false)
    by (vm_compute; reflexivity).
  split; [exact E|].
  pose proof (coverage_all_or_nothing example.env example.options _ _ example_run) as H.
  rewrite E in H. exact H.
Defined.

(** ** Bounds and monotonicity of the score *)

(** X6: whatever the issues, the metrics and the file counter of the
    analyzer are, [calculateScore] lies between 0 and 100. *)
Theorem score_bounds (ca : analyzer.CodeAnalyzer) :
  (0 <= analyzer.calculateScore ca)%Q /\ (analyzer.calculateScore ca <= 100)%Q.
Proof.
  unfold analyzer.calculateScore.
  destruct (analyzer.filesCount ca =? 0); [split; discriminate|].
  cbv zeta.
  match goal with
  | |- context [if Qltb ?x 0 then _ else _] => generalize x
  end.
  intros x. destruct (Qltb x 0) eqn:E0.
  - assert (E1 : Qgtb 0 100 = false) by reflexivity. rewrite E1. split; discriminate.
  - apply Qltb_false in E0. destruct (Qgtb x 100) eqn:E1.
    + split; discriminate.
    + apply Qgtb_false in E1. split; assumption.
Qed.

Lemma summary_grows (l : list Issue) (issue : Issue) (k : string) :
  mapGet (issuesSummary l) k <= mapGet (issuesSummary (l ++ [issue])) k.
Proof.
  rewrite !issuesSummary_get, !count_app.
  pose proof (count_nonneg (spec.hasSeverity k) [issue]).
  pose proof (count_nonneg (spec.hasKind k) [issue]). lia.
Qed.

Lemma clamp_code_monotone (x y : Q) :
  (x <= y)%Q ->
  ((let s := if Qltb x 0 then 0 else x in if Qgtb s 100 then 100 else s)
   <= (let s := if Qltb y 0 then 0 else y in if Qgtb s 100 then 100 else s))%Q.
Proof.
  intros Hxy. cbv zeta.
  assert (E : Qgtb 0 100 = false) by reflexivity.
  destruct (Qltb x 0) eqn:Ex, (Qltb y 0) eqn:Ey; rewrite ?E;
    rewrite ?Qltb_true, ?Qltb_false in *.
  - apply Qle_refl.
  - destruct (Qgtb y 100) eqn:Ey1; [discriminate | exact Ey].
  - exfalso. lra.
  - destruct (Qgtb x 100) eqn:Ex1, (Qgtb y 100) eqn:Ey1;
      rewrite ?Qgtb_true, ?Qgtb_false in *; lra.
Qed.

(** X7: adding an issue, of any severity and kind, never raises the
    score. *)
Theorem score_monotone (ca : analyzer.CodeAnalyzer) (issue : Issue) :
  (analyzer.calculateScore (analyzer.addIssue ca issue) <= analyzer.calculateScore ca)%Q.
Proof.
  unfold analyzer.calculateScore. simpl analyzer.filesCount. simpl analyzer.metrics.
  destruct (analyzer.filesCount ca =? 0); [apply Qle_refl|].
  unfold analyzer.getIssuesSummary. simpl analyzer.issues.
  pose proof (summary_grows (analyzer.issues ca) issue SeverityHigh) as Hh.
  pose proof (summary_grows (analyzer.issues ca) issue SeverityMedium) as Hm.
  pose proof (summary_grows (analyzer.issues ca) issue SeverityLow) as Hl.
  apply clamp_code_monotone.
  assert (Hh' : (float64_of_int (mapGet (issuesSummary (analyzer.issues ca)) SeverityHigh * 10)
                 <= float64_of_int
                      (mapGet (issuesSummary (analyzer.issues ca ++ [issue])) SeverityHigh * 10))%Q)
    by (unfold float64_of_int; rewrite <- Zle_Qle; lia).
  assert (Hm' : (float64_of_int (mapGet (issuesSummary (analyzer.issues ca)) SeverityMedium * 5)
                 <= float64_of_int
                      (mapGet (issuesSummary (analyzer.issues ca ++ [issue])) SeverityMedium * 5))%Q)
    by (unfold float64_of_int; rewrite <- Zle_Qle; lia).
  assert (Hl' : (float64_of_int (mapGet (issuesSummary (analyzer.issues ca)) SeverityLow * 1)
                 <= float64_of_int
                      (mapGet (issuesSummary (analyzer.issues ca ++ [issue])) SeverityLow * 1))%Q)
    by (unfold float64_of_int; rewrite <- Zle_Qle; lia).
  revert Hh' Hm' Hl'.
  generalize (float64_of_int (mapGet (issuesSummary (analyzer.issues ca)) SeverityHigh * 10)).
  generalize (float64_of_int
                (mapGet (issuesSummary (analyzer.issues ca ++ [issue])) SeverityHigh * 10)).
  generalize (float64_of_int (mapGet (issuesSummary (analyzer.issues ca)) SeverityMedium * 5)).
  generalize (float64_of_int
                (mapGet (issuesSummary (analyzer.issues ca ++ [issue])) SeverityMedium * 5)).
  generalize (float64_of_int (mapGet (issuesSummary (analyzer.issues ca)) SeverityLow * 1)).
  generalize (float64_of_int
                (mapGet (issuesSummary (analyzer.issues ca ++ [issue])) SeverityLow * 1)).
  clear Hh Hm Hl. intros l' l m' m h' h Hh Hm Hl.
  destruct (analyzer.filesCount ca >? 0); [|lra].
  generalize (float64_of_int (CyclomaticComplexity (analyzer.metrics ca))
              / float64_of_int (analyzer.filesCount ca))%Q.
  intros a. destruct (Qgtb a 10); lra.
Qed.

(** X8: a report whose issues weigh more than 40 points (10 per high, 5
    per medium, 1 per low severity) has grade F. *)
Theorem heavy_issues_grade_F env options ca report :
  analyzer.AnalyzeProject env (analyzer.New env options) = (ca, inl report) ->
  40 < 10 * spec.count (spec.hasSeverity "high") (Issues report)
       + 5 * spec.count (spec.hasSeverity "medium") (Issues report)
       + spec.count (spec.hasSeverity "low") (Issues report) ->
  Grade report = "F".
Proof.
  intros H Hw.
  apply AnalyzeProject_report in H as ((Hv & Hn & _) & Hi & _ & _ & _ & Hs & -> & _).
  rewrite Hi in Hw.
  pose proof (calculateScore_spec ca Hv Hn) as Hspec.
  assert (Hle : (analyzer.calculateScore ca <= 59)%Q).
  { rewrite Hspec. unfold spec.score.
    destruct (analyzer.filesCount ca =? 0); [discriminate|].
    unfold spec.clamp. apply Q.min_le_iff. left. apply Q.max_lub; [|discriminate].
    assert (Hp : (0 <= spec.complexityPenalty
                         (spec.avgComplexity (CyclomaticComplexity (analyzer.metrics ca))
                            (analyzer.filesCount ca)))%Q).
    { unfold spec.complexityPenalty.
      apply Qmult_le_0_compat; [apply Q.le_max_l | discriminate]. }
    assert (Hq : (inject_Z 41
                  <= 10 * inject_Z (spec.count (spec.hasSeverity "high") (analyzer.issues ca))
                     + 5 * inject_Z (spec.count (spec.hasSeverity "medium") (analyzer.issues ca))
                     + 1 * inject_Z (spec.count (spec.hasSeverity "low") (analyzer.issues ca)))%Q).
    { change 10%Q with (inject_Z 10). change 5%Q with (inject_Z 5).
      change 1%Q with (inject_Z 1).
      rewrite <- !inject_Z_mult, <- !inject_Z_plus, <- Zle_Qle. lia. }
    revert Hp Hq.
    generalize (spec.complexityPenalty
                  (spec.avgComplexity (CyclomaticComplexity (analyzer.metrics ca))
                     (analyzer.filesCount ca))).
    generalize (inject_Z (spec.count (spec.hasSeverity "high") (analyzer.issues ca))).
    generalize (inject_Z (spec.count (spec.hasSeverity "medium") (analyzer.issues ca))).
    generalize (inject_Z (spec.count (spec.hasSeverity "low") (analyzer.issues ca))).
    intros l m h p Hp Hq. change (inject_Z 41) with 41%Q in Hq. lra. }
  destruct (calculateGrade_cases (analyzer.calculateScore ca))
    as [(H1 & HG)|[(H1 & H2 & HG)|[(H1 & H2 & HG)|[(H1 & H2 & HG)|(H1 & HG)]]]];
    try exact HG; exfalso; lra.
Qed.

Lemma locked_run_report :
  snd (analyzer.AnalyzeProject locked.env (analyzer.New locked.env locked.options))
  = inl locked.report.
Proof. vm_compute. reflexivity. Qed.

(** The run on the project of unreadable files. *)
Lemma locked_run :
  analyzer.AnalyzeProject locked.env (analyzer.New locked.env locked.options)
  = (fst (analyzer.AnalyzeProject locked.env (analyzer.New locked.env locked.options)),
     inl locked.report).
Proof.
  exact (eq_trans (surjective_pairing _) (f_equal (pair _) locked_run_report)).
Qed.

Lemma heavy_issues_grade_F_witness :
  analyzer.AnalyzeProject locked.env (analyzer.New locked.env locked.options)
  = (fst (analyzer.AnalyzeProject locked.env (analyzer.New locked.env locked.options)),
     inl locked.report)
  /\ 40 < 10 * spec.count (spec.hasSeverity "high") (Issues locked.report)
          + 5 * spec.count (spec.hasSeverity "medium") (Issues locked.report)
          + spec.count (spec.hasSeverity "low") (Issues locked.report)
  /\ Grade locked.report = "F".
Proof.
  assert (Hw : 40 < 10 * spec.count (spec.hasSeverity "high") (Issues locked.report)
                    + 5 * spec.count (spec.hasSeverity "medium") (Issues locked.report)
                    + spec.count (spec.hasSeverity "low") (Issues locked.report))
    by (vm_compute; reflexivity).
  split; [exact locked_run|]. split; [exact Hw|].
  exact (heavy_issues_grade_F locked.env locked.options _ _ locked_run Hw).
Defined.

(** ** The summary and the recommendations of a report *)

Lemma severity_counts_total (l : list Issue) :
  spec.validIssues l ->
  spec.count (spec.hasSeverity "low") l + spec.count (spec.hasSeverity "medium") l
  + spec.count (spec.hasSeverity "high") l = Z.of_nat (length l).
Proof.
  induction 1 as [|i l Hi _ IH]; [reflexivity|].
  rewrite !count_cons. simpl length. rewrite Nat2Z.inj_succ, <- IH.
  unfold spec.validIssue in Hi. apply andb_true_iff in Hi as [Hs _].
  unfold spec.hasSeverity. simpl in Hs.
  repeat (apply orb_true_iff in Hs as [Hs|Hs];
          [apply String.eqb_eq in Hs; rewrite Hs; simpl; lia|]).
  discriminate Hs.
Qed.

Lemma kind_counts_total (l : list Issue) :
  spec.validIssues l ->
  spec.count (spec.hasKind "bug") l + spec.count (spec.hasKind "vulnerability") l
  + spec.count (spec.hasKind "code_smell") l + spec.count (spec.hasKind "error") l
  = Z.of_nat (length l).
Proof.
  induction 1 as [|i l Hi _ IH]; [reflexivity|].
  rewrite !count_cons. simpl length. rewrite Nat2Z.inj_succ, <- IH.
  unfold spec.validIssue in Hi. apply andb_true_iff in Hi as [_ Hk].
  unfold spec.hasKind. simpl in Hk.
  repeat (apply orb_true_iff in Hk as [Hk|Hk];
          [apply String.eqb_eq in Hk; rewrite Hk; simpl; lia|]).
  discriminate Hk.
Qed.

(** X9: in every report, the three severity entries of the summary add up
    to the number of issues, and so do the four kind entries; a label that
    is neither a severity nor a kind has no entry. *)
Theorem summary_totals env options ca report :
  analyzer.AnalyzeProject env (analyzer.New env options) = (ca, inl report) ->
  mapGet (IssuesSummary report) "low" + mapGet (IssuesSummary report) "medium"
  + mapGet (IssuesSummary report) "high" = Z.of_nat (length (Issues report))
  /\ mapGet (IssuesSummary report) "bug" + mapGet (IssuesSummary report) "vulnerability"
     + mapGet (IssuesSummary report) "code_smell" + mapGet (IssuesSummary report) "error"
     = Z.of_nat (length (Issues report))
  /\ (forall k, ~ In k spec.severities -> ~ In k spec.kinds ->
        mapGet (IssuesSummary report) k = 0).
Proof.
  intros H. apply AnalyzeProject_report in H as ((Hv & _ & _) & -> & _ & _ & -> & _).
  repeat split.
  - rewrite !summary_severity by (try exact Hv; simpl; auto).
    apply severity_counts_total, Hv.
  - rewrite !summary_kind by (try exact Hv; simpl; auto).
    apply kind_counts_total, Hv.
  - intros k Hs Hk. apply summary_other; assumption.
Qed.

Lemma summary_totals_witness :
  exampleRun = (fst exampleRun, inl example.report)
  /\ mapGet (IssuesSummary example.report) "low"
     + mapGet (IssuesSummary example.report) "medium"
     + mapGet (IssuesSummary example.report) "high"
     = Z.of_nat (length (Issues example.report)).
Proof.
  split; [exact example_run|].
  exact (proj1 (summary_totals example.env example.options _ _ example_run)).
Defined.

(** X10: the summary of any list of issues, valid or not: the entry of a
    label counts the issues that carry it as severity plus those that carry
    it as kind, so a label carried by no issue reads 0 and an issue whose
    severity and kind are the same label counts twice. *)
Theorem summary_entry (ca : analyzer.CodeAnalyzer) (k : string) :
  mapGet (analyzer.getIssuesSummary ca) k
  = spec.count (spec.hasSeverity k) (analyzer.issues ca)
    + spec.count (spec.hasKind k) (analyzer.issues ca)
  /\ (forall issue,
        Severity issue = k -> Type_ issue = k ->
        mapGet (analyzer.getIssuesSummary (analyzer.addIssue ca issue)) k
        = mapGet (analyzer.getIssuesSummary ca) k + 2)
  /\ (Forall (fun i => Severity i <> k /\ Type_ i <> k) (analyzer.issues ca) ->
      analyzer.getIssuesSummary ca !! k = None).
Proof.
  unfold analyzer.getIssuesSummary. repeat split.
  - apply issuesSummary_get.
  - intros issue Hs Ht. simpl analyzer.issues.
    rewrite !issuesSummary_get, !count_app, !count_cons, !count_nil.
    unfold spec.hasSeverity, spec.hasKind. rewrite Hs, Ht, String.eqb_refl. lia.
  - unfold issuesSummary.
    assert (G : forall (l : list Issue) (m : gmap string Z),
               m !! k = None ->
               Forall (fun i => Severity i <> k /\ Type_ i <> k) l ->
               foldl (fun summary issue =>
                        mapIncr (mapIncr summary (Severity issue)) (Type_ issue)) m l
               !! k = None).
    { induction l as [|i l IH]; intros m Hm Hl; simpl; [exact Hm|].
      apply Forall_cons in Hl as [[Hs Ht] Hl]. apply IH; [|exact Hl].
      unfold mapIncr. rewrite !lookup_insert_ne by congruence. exact Hm. }
    apply G. apply lookup_empty.
Qed.

Lemma recommendations_cases (ca : analyzer.CodeAnalyzer) :
  let v := mapGet (analyzer.getIssuesSummary ca) TypeVulnerability in
  let b := mapGet (analyzer.getIssuesSummary ca) TypeBug in
  let low := Qltb (TestCoverage (analyzer.metrics ca)) 70 in
  analyzer.generateRecommendations ca
  = (if v >? 0 then ["🔒 URGENT: Address " +:+ fmt_d v
                     +:+ " security vulnerabilities immediately"] else [])
    ++ (if b >? 0 then ["🐛 HIGH: Fix " +:+ fmt_d b +:+ " bugs to improve reliability"]
        else [])
    ++ (if low then ["🧪 Increase test coverage from "
                     +:+ fmt_1f (TestCoverage (analyzer.metrics ca))
                     +:+ "% to at least 70%"] else [])
    ++ (if (v >? 0) || (b >? 0) || low then []
        else ["✅ Great job! Your code quality is excellent."]).
Proof.
  cbv zeta. unfold analyzer.generateRecommendations. cbv zeta.
  destruct (mapGet (analyzer.getIssuesSummary ca) TypeVulnerability >? 0),
           (mapGet (analyzer.getIssuesSummary ca) TypeBug >? 0),
           (Qltb (TestCoverage (analyzer.metrics ca)) 70); reflexivity.
Qed.

(** X11: the recommendations of a report are never empty and at most
    three; the closing praise is given exactly when there is no
    vulnerability, no bug and a coverage of at least 70, and then it is the
    only recommendation; with a vulnerability the first recommendation is
    the security one. *)
Theorem recommendations_shape env options ca report :
  analyzer.AnalyzeProject env (analyzer.New env options) = (ca, inl report) ->
  let v := spec.count (spec.hasKind "vulnerability") (Issues report) in
  let b := spec.count (spec.hasKind "bug") (Issues report) in
  let praise := "✅ Great job! Your code quality is excellent." in
  (1 <= length (Recommendations report) <= 3)%nat
  /\ (In praise (Recommendations report)
      <-> v = 0 /\ b = 0 /\ (70 <= TestCoverage (ReportMetrics report))%Q)
  /\ (In praise (Recommendations report) -> Recommendations report = [praise])
  /\ (0 < v ->
      hd "" (Recommendations report)
      = "🔒 URGENT: Address " +:+ fmt_d v +:+ " security vulnerabilities immediately").
Proof.
  unfold analyzer.AnalyzeProject. intros H.
  pose proof (walkDir_invariant (spec.analyzerInvariant env) (analyzer.walkFunc env)
                (WalkDir env (OptProjectPath (analyzer.options (analyzer.New env options))))
                (walkFunc_invariant env) _ (New_invariant env options)) as Hinv.
  destruct (walkDir _ _ _) as [ca1 [e|]]; [discriminate|].
  injection H as <- <-. simpl in Hinv. destruct Hinv as (Hv & _ & _).
  cbv zeta. simpl Recommendations. simpl Issues. simpl ReportMetrics.
  rewrite recommendations_cases. cbv zeta. unfold analyzer.getIssuesSummary.
  rewrite !summary_kind by (try exact Hv; simpl; auto).
  unfold TypeVulnerability, TypeBug.
  pose proof (count_nonneg (spec.hasKind "vulnerability") (analyzer.issues ca1)) as Hv0.
  pose proof (count_nonneg (spec.hasKind "bug") (analyzer.issues ca1)) as Hb0.
  destruct (spec.count (spec.hasKind "vulnerability") (analyzer.issues ca1) >? 0) eqn:Ev;
    [apply Z.gtb_lt in Ev | rewrite Z.gtb_ltb in Ev; apply Z.ltb_ge in Ev];
    (destruct (spec.count (spec.hasKind "bug") (analyzer.issues ca1) >? 0) eqn:Eb;
     [apply Z.gtb_lt in Eb | rewrite Z.gtb_ltb in Eb; apply Z.ltb_ge in Eb]);
    (destruct (Qltb (TestCoverage (analyzer.metrics ca1)) 70) eqn:Ec;
     [apply Qltb_true in Ec | apply Qltb_false in Ec]);
    simpl; repeat split; intros;
    repeat match goal with
           | H : In _ _ |- _ => simpl in H
           | H : _ \/ _ |- _ => destruct H
           | H : False |- _ => destruct H
           | H : _ /\ _ |- _ => destruct H
           | H : _ +:+ _ = _ |- _ => simpl in H; discriminate H
           end;
    try lia; try reflexivity; try assumption; try (left; reflexivity);
    try (exfalso; lia); try (exfalso; lra).
Qed.

Lemma recommendations_shape_witness :
  exampleRun = (fst exampleRun, inl example.report)
  /\ (1 <= length (Recommendations example.report) <= 3)%nat
  /\ hd "" (Recommendations example.report)
     = "🔒 URGENT: Address 1 security vulnerabilities immediately".
Proof.
  split; [exact example_run|].
  pose proof (recommendations_shape example.env example.options _ _ example_run)
    as (H1 & _ & _ & H4).
  split; [exact H1|]. cbv zeta in H4. rewrite H4; [|vm_compute; reflexivity].
  vm_compute. reflexivity.
Defined.

(** ** The rule engine *)

(** X12: registering a rule puts it last: the engine then reports what it
    reported before, followed by the issues of the new rule; nothing is
    deduplicated, so a rule registered twice reports twice, and the engine
    of [NewEngine] reports the issues of the six rules in the order
    complexity, security, naming, structure, documentation,
    error handling. *)
Theorem register_appends (e : rules.Engine) (rule : rules.Rule) filePath node content :
  rules.AnalyzeFile (rules.RegisterRule e rule) filePath node content
  = rules.AnalyzeFile e filePath node content ++ rules.Check rule filePath node content
  /\ rules.AnalyzeFile (rules.RegisterRule (rules.RegisterRule e rule) rule)
       filePath node content
     = rules.AnalyzeFile e filePath node content
       ++ rules.Check rule filePath node content
       ++ rules.Check rule filePath node content
  /\ rules.GetRules (rules.RegisterRule e rule) = rules.GetRules e ++ [rule]
  /\ (forall env,
        rules.AnalyzeFile (rules.NewEngine env) filePath node content
        = rules.ComplexityRule.Check filePath node content
          ++ rules.SecurityRule.Check env filePath node content
          ++ rules.NamingRule.Check env filePath node content
          ++ rules.StructureRule.Check env filePath node content
          ++ rules.DocumentationRule.Check filePath node content
          ++ rules.ErrorHandlingRule.Check filePath node content).
Proof.
  unfold rules.AnalyzeFile, rules.RegisterRule, rules.GetRules. simpl rules.engineRules.
  repeat split.
  - rewrite flat_map_app. simpl. rewrite app_nil_r. reflexivity.
  - rewrite !flat_map_app. simpl. rewrite !app_nil_r, app_assoc. reflexivity.
  - intros env. simpl. rewrite app_nil_r. reflexivity.
Qed.

(** ** The thresholds of the ComplexityRule *)

(** X13: for a function declaration with a name and a body that has [b]
    branching nodes, high_complexity is reported exactly when [b] is at
    least 10, with high severity exactly from 15 on and medium below, and
    an effort of two minutes per unit of complexity; a declaration without
    a body or without a name is never reported. *)
Theorem complexity_thresholds file fn fd :
  let b := spec.branchCount fn in
  let issues := rules.ComplexityRule.checkFunctionComplexity file fn fd in
  match ast.Body fd, ast.FuncName fd with
  | Some _, Some _ =>
      (b <= 9 -> issues = [])
      /\ (10 <= b ->
          map (fun i => (types.Rule i, Type_ i, Severity i, EffortMinutes (Impact i))) issues
          = [("high_complexity", "code_smell",
              if 15 <=? b then "high" else "medium", 2 * (b + 1))])
  | _, _ => issues = []
  end.
Proof.
  cbv zeta. unfold rules.ComplexityRule.checkFunctionComplexity.
  destruct (ast.Body fd), (ast.FuncName fd); try reflexivity.
  rewrite calculateComplexity_count. cbv zeta.
  generalize (spec.branchCount fn). intros k. split; intros Hk.
  - assert (E : (1 + k >? 10) = false) by (rewrite Z.gtb_ltb; apply Z.ltb_ge; lia).
    rewrite E. reflexivity.
  - assert (E : (1 + k >? 10) = true) by (apply Z.gtb_lt; lia).
    rewrite E. simpl map.
    replace ((1 + k) * 2) with (2 * (k + 1)) by lia.
    destruct (15 <=? k) eqn:E15.
    + apply Z.leb_le in E15.
      assert (E' : (1 + k >? 15) = true) by (apply Z.gtb_lt; lia). rewrite E'. reflexivity.
    + apply Z.leb_gt in E15.
      assert (E' : (1 + k >? 15) = false) by (rewrite Z.gtb_ltb; apply Z.ltb_ge; lia).
      rewrite E'. reflexivity.
Qed.

(** ** The ErrorHandlingRule on identifiers *)

Lemma error_handling_call file (Fun : option string) pos :
  match Fun with
  | Some name => strings.Contains name "." = false
  | None => True
  end ->
  rules.ErrorHandlingRule.checkDeprecatedFunctions file Fun pos = []
  /\ rules.ErrorHandlingRule.checkErrorHandling file Fun pos = []
  /\ (forall ca,
        main.checkErrorHandling (main.checkDeprecatedFunctions ca file Fun pos) file Fun pos
        = ca).
Proof.
  destruct Fun as [name|]; [|intros _; repeat split].
  intros Hdot.
  assert (Hne : forall q, strings.Contains q "." = true -> String.eqb name q = false).
  { intros q Hq. destruct (String.eqb_spec name q) as [->|]; [|reflexivity]. congruence. }
  unfold rules.ErrorHandlingRule.checkDeprecatedFunctions,
    rules.ErrorHandlingRule.checkErrorHandling, main.checkErrorHandling,
    main.checkDeprecatedFunctions.
  simpl. rewrite !Hne by reflexivity. repeat split.
Qed.

(** X14: the ErrorHandlingRule compares the identifier of a call with
    qualified names (ioutil.ReadFile, os.Open and the like).  On a file in
    which no call through an identifier has a dot in the identifier, as in
    every file the Go parser returns, the rule reports nothing. *)
Theorem error_handling_needs_dot file node content :
  (forall x name, In x (spec.preorder node) ->
     ast.kind x = ast.CallExpr (Some name) -> strings.Contains name "." = false) ->
  rules.ErrorHandlingRule.Check file node content = [].
Proof.
  intros Hdot. unfold rules.ErrorHandlingRule.Check.
  rewrite (Inspect_preorder _
             (fun issues x =>
                match ast.kind x with
                | ast.CallExpr Fun =>
                    (issues ++ rules.ErrorHandlingRule.checkDeprecatedFunctions file Fun
                                 (ast.Pos x))
                    ++ rules.ErrorHandlingRule.checkErrorHandling file Fun (ast.Pos x)
                | _ => issues
                end)); [|reflexivity|reflexivity].
  generalize dependent (spec.preorder node). intros l. generalize (@nil Issue).
  induction l as [|x l IH]; intros issues Hl; [reflexivity|].
  simpl. rewrite IH by (intros y name Hy; apply Hl; right; exact Hy).
  destruct (ast.kind x) as [| | | | | | | | | | |Fun|] eqn:Ek; try reflexivity.
  destruct (error_handling_call file Fun (ast.Pos x)) as (H1 & H2 & _).
  - destruct Fun as [name|]; [|exact I]. apply (Hl x name); [left; reflexivity|exact Ek].
  - rewrite H1, H2, !app_nil_r. reflexivity.
Qed.

Lemma error_handling_needs_dot_witness :
  rules.ErrorHandlingRule.Check "a.go" (openCall "Open") "" = []
  /\ map types.Rule (rules.ErrorHandlingRule.Check "a.go" (openCall "os.Open") "")
     = ["missing_error_handling"].
Proof.
  split; [|reflexivity].
  apply (error_handling_needs_dot "a.go" (openCall "Open") "").
  intros x name Hx Hk. simpl in Hx.
  repeat (destruct Hx as [<-|Hx]; [simpl in Hk; try discriminate Hk|]);
    [|destruct Hx].
  injection Hk as <-. reflexivity.
Defined.

(** ** The build verdict and the quality gates *)

Lemma count_pos (p : Issue -> bool) i l :
  In i l -> p i = true -> 0 < spec.count p l.
Proof.
  intros Hin Hp. induction l as [|j l IH]; [destruct Hin|].
  rewrite count_cons. pose proof (count_nonneg p l).
  destruct Hin as [->|Hin].
  - rewrite Hp. lia.
  - specialize (IH Hin). destruct (p j); lia.
Qed.

Lemma report_scan env options ca report :
  analyzer.AnalyzeProject env (analyzer.New env options) = (ca, inl report) ->
  Issues report
  = flat_map (fun call => analyzer.issues (scan.alone env options (walkPath call)))
             (scan.processedCalls env options)
  /\ FilesAnalyzed report = Z.of_nat (length (scan.processedCalls env options)).
Proof.
  intros H. pose proof H as Hr.
  apply AnalyzeProject_report in Hr as (_ & -> & _ & -> & _).
  unfold analyzer.AnalyzeProject in H.
  destruct (walkDir _ _ _) as [ca1 [e|]] eqn:Ew; [discriminate H|].
  injection H as <- _.
  apply walkDir_scan in Ew as (Hi & Hn & _); [|reflexivity].
  rewrite Hi, Hn. split; reflexivity.
Qed.

Lemma shouldFailBuild_cases env options ca report :
  analyzer.AnalyzeProject env (analyzer.New env options) = (ca, inl report) ->
  cli.shouldFailBuild report
  = (spec.count (spec.hasSeverity "high") (Issues report) >? 0)
    || (spec.count (spec.hasKind "vulnerability") (Issues report) >? 0)
    || Qltb (Score report) 60.
Proof.
  intros H. destruct (analyzer_summary_counts _ _ _ _ H) as [Hs Hk].
  destruct (AnalyzeProject_report _ _ _ _ H) as (_ & _ & _ & _ & _ & Hsc & Hg & _).
  unfold cli.shouldFailBuild, SeverityHigh, TypeVulnerability.
  rewrite (Hs "high"), (Hk "vulnerability") by (simpl; auto).
  rewrite Hg, <- Hsc.
  destruct (_ >? 0); [reflexivity|]. destruct (_ >? 0); [reflexivity|]. simpl.
  destruct (calculateGrade_cases (Score report))
    as [[H1 ->]|[(H1 & H2 & ->)|[(H1 & H2 & ->)|[(H1 & H2 & ->)|[H1 ->]]]]]; simpl;
    symmetry; first [apply Qltb_false; lra | apply Qltb_true; lra].
Qed.

(** X15: the verdict of [shouldFailBuild], on which the analyze command
    exits with status 1, for a report of the analyzer: the build fails
    exactly when the report has an issue of high severity, or a
    vulnerability, or a score below 60; no number of medium or low issues
    fails a build whose score stays at 60 or above. *)
Theorem build_fails_iff env options ca report :
  analyzer.AnalyzeProject env (analyzer.New env options) = (ca, inl report) ->
  cli.shouldFailBuild report = true
  <-> (0 < spec.count (spec.hasSeverity "high") (Issues report)
       \/ 0 < spec.count (spec.hasKind "vulnerability") (Issues report)
       \/ (Score report < 60)%Q).
Proof.
  intros H. rewrite (shouldFailBuild_cases _ _ _ _ H).
  rewrite !orb_true_iff, Qltb_true, !Z.gtb_lt. tauto.
Qed.

Lemma build_fails_iff_witness :
  exampleRun = (fst exampleRun, inl example.report)
  /\ (cli.shouldFailBuild example.report = true
      <-> (0 < spec.count (spec.hasSeverity "high") (Issues example.report)
           \/ 0 < spec.count (spec.hasKind "vulnerability") (Issues example.report)
           \/ (Score example.report < 60)%Q)).
Proof.
  split; [exact example_run|].
  exact (build_fails_iff example.env example.options _ _ example_run).
Defined.

(** X16: a project fails the build when the analyzer processes no file at
    all (its score is 0 and its grade F), and when one of the files it
    processes cannot be read or cannot be parsed, whatever the other files
    hold. *)
Theorem unusable_project_fails_build env options ca report :
  analyzer.AnalyzeProject env (analyzer.New env options) = (ca, inl report) ->
  scan.processedCalls env options = []
  \/ (exists call, In call (scan.processedCalls env options)
                   /\ spec.ingestionError env (walkPath call) <> None) ->
  cli.shouldFailBuild report = true.
Proof.
  intros H Hc. rewrite (shouldFailBuild_cases _ _ _ _ H).
  destruct (report_scan _ _ _ _ H) as [Hi Hn].
  destruct Hc as [He|(call & Hin & Herr)].
  - rewrite He in Hn. simpl in Hn.
    destruct (AnalyzeProject_report _ _ _ _ H) as (_ & _ & _ & Hf & _ & Hsc & _).
    rewrite Hf in Hn. rewrite Hsc. unfold analyzer.calculateScore. rewrite Hn. simpl.
    rewrite !orb_true_r. reflexivity.
  - assert (Hh : exists i, In i (analyzer.issues (scan.alone env options (walkPath call)))
                           /\ spec.hasSeverity "high" i = true).
    { unfold scan.alone, analyzer.analyzeFile. unfold spec.ingestionError in Herr.
      destruct (ReadFile env (walkPath call)) as [content|e].
      - destruct (ParseFile env (walkPath call) content) as [node|e];
          [contradiction Herr; reflexivity|].
        eexists. split; [simpl; left; reflexivity|reflexivity].
      - eexists. split; [simpl; left; reflexivity|reflexivity]. }
    destruct Hh as (i & Hi1 & Hi2).
    assert (Hpos : 0 < spec.count (spec.hasSeverity "high") (Issues report)).
    { apply (count_pos _ i); [|exact Hi2]. rewrite Hi. apply in_flat_map.
      exists call. split; assumption. }
    apply Z.gtb_lt in Hpos. rewrite Hpos. reflexivity.
Qed.

Lemma unusable_project_fails_build_witness :
  exampleRun = (fst exampleRun, inl example.report)
  /\ (exists call, In call (scan.processedCalls example.env example.options)
                   /\ spec.ingestionError example.env (walkPath call) <> None)
  /\ cli.shouldFailBuild example.report = true.
Proof.
  assert (Hc : exists call, In call (scan.processedCalls example.env example.options)
                            /\ spec.ingestionError example.env (walkPath call) <> None).
  { exists (mkWalkCall "proj/locked.go" false None). split.
    - vm_compute. tauto.
    - vm_compute. discriminate. }
  split; [exact example_run|]. split; [exact Hc|].
  exact (unusable_project_fails_build example.env example.options _ _ example_run
           (or_intror Hc)).
Defined.

(** X17: the four quality gates of the console report, on a report of the
    analyzer: Grade A-C passes exactly when the score is at least 70,
    High Issues < 5 when fewer than five issues have high severity,
    No Vulnerabilities when no issue is a vulnerability, and Score > 70
    when the score exceeds 70; so a score of exactly 70 passes the first
    gate and fails the last, and a build that does not fail passes the two
    gates that count issues. *)
Theorem quality_gates_conditions env options ca report :
  analyzer.AnalyzeProject env (analyzer.New env options) = (ca, inl report) ->
  map (fun g => (reporter.name g, reporter.condition g report)) reporter.gates
  = [ ("Grade A-C", Qgeb (Score report) 70);
      ("High Issues < 5", spec.count (spec.hasSeverity "high") (Issues report) <? 5);
      ("No Vulnerabilities",
       spec.count (spec.hasKind "vulnerability") (Issues report) =? 0);
      ("Score > 70", Qgtb (Score report) 70) ]
  /\ (cli.shouldFailBuild report = false ->
      (spec.count (spec.hasSeverity "high") (Issues report) <? 5) = true
      /\ (spec.count (spec.hasKind "vulnerability") (Issues report) =? 0) = true).
Proof.
  intros H. split.
  - destruct (analyzer_summary_counts _ _ _ _ H) as [Hs Hk].
    destruct (AnalyzeProject_report _ _ _ _ H) as (_ & _ & _ & _ & _ & Hsc & Hg & _).
    simpl. unfold SeverityHigh, TypeVulnerability.
    rewrite (Hs "high"), (Hk "vulnerability") by (simpl; auto).
    rewrite Hg, <- Hsc. repeat f_equal.
    destruct (calculateGrade_cases (Score report))
      as [[H1 ->]|[(H1 & H2 & ->)|[(H1 & H2 & ->)|[(H1 & H2 & ->)|[H1 ->]]]]];
      symmetry; first [apply Qgeb_true; lra | apply Qgeb_false; lra].
  - rewrite (shouldFailBuild_cases _ _ _ _ H). rewrite !orb_false_iff.
    intros [[H1 H2] _]. rewrite Z.gtb_ltb in H1, H2. apply Z.ltb_ge in H1, H2.
    pose proof (count_nonneg (spec.hasKind "vulnerability") (Issues report)).
    split; [apply Z.ltb_lt|apply Z.eqb_eq]; lia.
Qed.

Lemma quality_gates_conditions_witness :
  exampleRun = (fst exampleRun, inl example.report)
  /\ map (fun g => (reporter.name g, reporter.condition g example.report)) reporter.gates
     = [ ("Grade A-C", Qgeb (Score example.report) 70);
         ("High Issues < 5",
          spec.count (spec.hasSeverity "high") (Issues example.report) <? 5);
         ("No Vulnerabilities",
          spec.count (spec.hasKind "vulnerability") (Issues example.report) =? 0);
         ("Score > 70", Qgtb (Score example.report) 70) ].
Proof.
  split; [exact example_run|].
  exact (proj1 (quality_gates_conditions example.env example.options _ _ example_run)).
Defined.

(** X18: the console report shows the quality trends exactly when the
    analyzer processed at least one file: with no file nothing is printed,
    and otherwise the heading and the complexity line always are. *)
Theorem trends_shown_iff_files env options ca report :
  analyzer.AnalyzeProject env (analyzer.New env options) = (ca, inl report) ->
  (FilesAnalyzed report = 0 -> reporter.printTrends report = [])
  /\ (FilesAnalyzed report <> 0 ->
      exists rest,
        reporter.printTrends report
        = "" :: "📈 Quality Trends:"
             :: ("   🔄 Complexity: " +:+ CyclomaticComplexityTrend (Trends report))
             :: rest
        /\ CyclomaticComplexityTrend (Trends report) <> "").
Proof.
  intros H.
  destruct (AnalyzeProject_report _ _ _ _ H) as (Hinv & _ & _ & Hf & _ & _ & _ & Ht).
  assert (Hn : 0 <= analyzer.filesCount ca) by apply Hinv.
  unfold reporter.printTrends. rewrite Ht, Hf. cbv zeta.
  unfold analyzer.calculateQualityTrends. cbv zeta. split; intros Hz.
  - rewrite Hz. reflexivity.
  - assert (E : (analyzer.filesCount ca >? 0) = true) by (apply Z.gtb_lt; lia).
    rewrite E.
    match goal with
    | |- context [mkQualityTrends ?t _ _ _ _] =>
        assert (Hne : String.eqb t "" = false)
          by (repeat match goal with |- context [if ?c then _ else _] => destruct c end;
              reflexivity);
        assert (Hne' : t <> "") by (intros Heq; rewrite Heq in Hne; discriminate Hne)
    end.
    unfold reporter.isZeroTrends. simpl CyclomaticComplexityTrend.
    rewrite Hne. simpl. eexists. split; [reflexivity|exact Hne'].
Qed.

Lemma trends_shown_iff_files_witness :
  exampleRun = (fst exampleRun, inl example.report)
  /\ (FilesAnalyzed example.report <> 0 ->
      exists rest,
        reporter.printTrends example.report
        = "" :: "📈 Quality Trends:"
             :: ("   🔄 Complexity: "
                 +:+ CyclomaticComplexityTrend (Trends example.report))
             :: rest
        /\ CyclomaticComplexityTrend (Trends example.report) <> "").
Proof.
  split; [exact example_run|].
  exact (proj2 (trends_shown_iff_files example.env example.options _ _ example_run)).
Defined.

(** X19: the standalone analyzer of main.go prints PASSED for each of its
    three quality gates on every report it produces, whatever issues the
    report lists: the gates read the grade and the summary of the report,
    which are always A and empty. *)
Theorem main_gates_always_pass env ca0 projectPath ca report :
  main.AnalyzeProject env ca0 projectPath = (ca, inl report) ->
  main.printReportQualityGates report
  = [ "   Grade A-C: ✅ PASSED";
      "   High Issues < 5: ✅ PASSED";
      "   No Vulnerabilities: ✅ PASSED" ].
Proof.
  intros H.
  destruct (main_AnalyzeProject_report _ _ _ _ _ H) as (_ & _ & Hs & _ & Hg).
  unfold main.printReportQualityGates. rewrite Hs, Hg.
  unfold mapGet. rewrite !lookup_empty. reflexivity.
Qed.

Lemma main_gates_always_pass_witness :
  main.AnalyzeProject example.env main.NewCodeAnalyzer "proj"
  = (fst example.mainRun, inl example.mainReport)
  /\ spec.count (spec.hasSeverity "high") (main.Issues example.mainReport) = 4
  /\ main.printReportQualityGates example.mainReport
     = [ "   Grade A-C: ✅ PASSED";
         "   High Issues < 5: ✅ PASSED";
         "   No Vulnerabilities: ✅ PASSED" ].
Proof.
  split; [exact example_mainRun|]. split; [vm_compute; reflexivity|].
  exact (main_gates_always_pass example.env _ _ _ _ example_mainRun).
Defined.

(** ** Deep nesting, by the bytes of the indentation *)

(** X20: the deep-nesting check reads the line of the statement.  When the
    line is indented with spaces only, nothing is reported, however long
    the indentation; when it is indented with [n] tabs only, deep_nesting
    is reported exactly when [n] exceeds 4. *)
Theorem deep_nesting_by_indentation file stmt content (n : nat) rest :
  spec.startsCode rest = true ->
  let line := index (strings.Split content newline) (token.Line (ast.Pos stmt) - 1) in
  (line = spec.replicate n " "%char +:+ rest ->
   rules.ComplexityRule.checkDeepNesting file stmt content = [])
  /\ (line = spec.replicate n "009"%char +:+ rest ->
      map (fun i => (types.Rule i, Line i))
          (rules.ComplexityRule.checkDeepNesting file stmt content)
      = if 4 <? Z.of_nat n then [("deep_nesting", token.Line (ast.Pos stmt))] else []).
Proof.
  intros Hr line. subst line. unfold rules.ComplexityRule.checkDeepNesting. cbv zeta.
  destruct (_ <? _) eqn:E.
  - split; intros ->.
    + pose proof (spaces_never_deep n rest Hr) as Hs.
      assert (E4 : (rules.ComplexityRule.calculateIndentLevel
                      (spec.replicate n " "%char +:+ rest) >? 4) = false)
        by (rewrite Z.gtb_ltb; apply Z.ltb_ge; lia).
      rewrite E4. reflexivity.
    + rewrite (tabs_level n rest Hr), Z.gtb_ltb.
      destruct (4 <? Z.of_nat n); reflexivity.
  - split; intros Hl; [reflexivity|].
    unfold index in Hl. rewrite nth_overflow in Hl by (apply Z.ltb_ge in E; lia).
    destruct n; [reflexivity|discriminate Hl].
Qed.

Lemma deep_nesting_by_indentation_witness :
  spec.startsCode "x" = true
  /\ rules.ComplexityRule.checkDeepNesting "a.go" (example.other 1 21 [])
       (spec.replicate 20 " "%char +:+ "x") = []
  /\ map (fun i => (types.Rule i, Line i))
         (rules.ComplexityRule.checkDeepNesting "a.go" (example.other 1 6 [])
            (spec.replicate 5 "009"%char +:+ "x"))
     = [("deep_nesting", 1)].
Proof.
  assert (Hr : spec.startsCode "x" = true) by reflexivity.
  split; [exact Hr|]. split.
  - exact (proj1 (deep_nesting_by_indentation "a.go" (example.other 1 21 [])
                    (spec.replicate 20 " "%char +:+ "x") 20 "x" Hr) eq_refl).
  - exact (proj2 (deep_nesting_by_indentation "a.go" (example.other 1 6 [])
                    (spec.replicate 5 "009"%char +:+ "x") 5 "x" Hr) eq_refl).
Defined.

(** ** The rules that read the text line by line *)

Lemma count_concat_imap (p : Issue -> bool) (f : nat -> string -> list Issue) lines :
  spec.count p (concat (imap f lines))
  = spec.sumZ (imap (fun i line => spec.count p (f i line)) lines).
Proof.
  revert f. induction lines as [|l lines IH]; intros f; [reflexivity|].
  simpl. rewrite count_app, IH. reflexivity.
Qed.

Lemma sumZ_indicator (g : string -> bool) (lines : list string) :
  forall f : nat -> string -> Z,
    (forall i line, f i line = if g line then 1 else 0) ->
    spec.sumZ (imap f lines)
    = Z.of_nat (length (filter (fun line => g line = true) lines)).
Proof.
  induction lines as [|l lines IH]; intros f Hf; [reflexivity|].
  rewrite filter_cons. simpl.
  rewrite (IH (f ∘ S)) by (intros i line; apply Hf). rewrite Hf.
  destruct (g l).
  - rewrite decide_True by reflexivity. simpl length. lia.
  - rewrite decide_False by discriminate. lia.
Qed.

Lemma In_forLines {A : Type} (lines : list string) (body : Z -> string -> list A) (x : A) :
  In x (forLines lines body) ->
  exists (i : nat) line, lines !! i = Some line /\ In x (body (Z.of_nat i) line).
Proof.
  unfold forLines. intros Hx. apply in_concat in Hx as (l & Hl & Hx).
  apply list_elem_of_In, elem_of_lookup_imap in Hl as (i & line & -> & Hi).
  exists i, line. split; assumption.
Qed.

(** X21: the StructureRule reads the text only, not the syntax tree.  It
    reports long_line once for each line of more than 120 bytes, wherever
    the line stands; and every issue it reports has low severity, column
    1 and the number of a line of the file. *)
Theorem structure_rule_lines env file node content :
  spec.count (spec.hasRule "long_line") (rules.StructureRule.Check env file node content)
  = scan.longLines content
  /\ (forall issue,
        In issue (rules.StructureRule.Check env file node content) ->
        1 <= Line issue <= 1 + scan.occurrences newline content
        /\ Column issue = 1 /\ Severity issue = "low" /\ Type_ issue = "code_smell")
  /\ (forall node',
        rules.StructureRule.Check env file node' content
        = rules.StructureRule.Check env file node content).
Proof.
  unfold rules.StructureRule.Check. cbv zeta. split; [|split; [|reflexivity]].
  - unfold forLines, scan.longLines. rewrite count_concat_imap.
    apply (sumZ_indicator (fun line => strings.len line >? 120)).
    intros i line.
    rewrite !count_app.
    unfold rules.StructureRule.checkTodoComments, rules.StructureRule.checkLineLength,
      rules.StructureRule.checkUnusedCode.
    simpl flat_map.
    repeat match goal with
           | |- context [if ?c then _ else _] => destruct c
           end; reflexivity.
  - intros issue Hin. apply In_forLines in Hin as (i & line & Hl & Hin).
    apply lookup_lt_Some in Hl.
    pose proof (Split_length content newline) as Hlen.
    rewrite !in_app_iff in Hin.
    unfold rules.StructureRule.checkTodoComments, rules.StructureRule.checkLineLength,
      rules.StructureRule.checkUnusedCode in Hin.
    simpl flat_map in Hin. rewrite !in_app_iff in Hin.
    repeat match type of Hin with
           | context [if ?c then _ else _] => destruct c
           end;
      simpl in Hin;
      repeat match goal with
             | H : _ \/ _ |- _ => destruct H
             | H : False |- _ => destruct H
             end; subst issue; simpl; repeat split; try reflexivity; lia.
Qed.

(** X22: every issue of the DocumentationRule comes from a line that
    starts, after trimming, with the keyword func, and that is the first
    line of the file or follows a line that does not start with a comment
    marker; the line is no method declaration (the word after the keyword
    does not open a parenthesis), so methods are never reported. *)
Theorem documentation_issue_origin file node content issue :
  In issue (rules.DocumentationRule.Check file node content) ->
  exists (i : nat) line,
    strings.Split content newline !! i = Some line
    /\ Line issue = Z.of_nat i + 1
    /\ types.Rule issue = "missing_documentation"
    /\ strings.HasPrefix (strings.TrimSpace line) "func " = true
    /\ (i = 0%nat
        \/ strings.HasPrefix
             (strings.TrimSpace (index (strings.Split content newline) (Z.of_nat i - 1)))
             "//" = false)
    /\ (forall recv rest,
          strings.Fields line <> "func" :: String "(" recv :: rest).
Proof.
  unfold rules.DocumentationRule.Check. cbv zeta. intros Hin.
  apply In_forLines in Hin as (i & line & Hl & Hin).
  exists i, line. split; [exact Hl|].
  destruct (strings.HasPrefix (strings.TrimSpace line) "func ") eqn:Ef;
    [|destruct Hin].
  simpl andb in Hin.
  destruct (_ && _ && _); [|destruct Hin].
  destruct (Z.of_nat i =? 0) eqn:E0.
  - simpl orb in Hin. cbv zeta in Hin.
    destruct (_ && _) eqn:En; [|destruct Hin].
    destruct Hin as [<-|[]]. simpl.
    repeat split; try reflexivity.
    + left. apply Z.eqb_eq in E0. lia.
    + intros recv rest Hf.
      unfold rules.DocumentationRule.extractFunctionName in En. rewrite Hf in En.
      apply andb_true_iff in En as [_ En].
      destruct recv; simpl in En; discriminate En.
  - simpl orb in Hin.
    destruct (strings.HasPrefix _ "//") eqn:Ec; [destruct Hin|].
    simpl negb in Hin. cbv iota zeta in Hin.
    destruct (_ && _) eqn:En; [|destruct Hin].
    destruct Hin as [<-|[]]. simpl.
    repeat split; try reflexivity.
    + right. reflexivity.
    + intros recv rest Hf.
      unfold rules.DocumentationRule.extractFunctionName in En. rewrite Hf in En.
      apply andb_true_iff in En as [_ En].
      destruct recv; simpl in En; discriminate En.
Qed.

Lemma documentation_issue_origin_witness :
  exists issue,
    In issue (rules.DocumentationRule.Check "proj/api.go" example.apiFile example.apiSource)
    /\ exists (i : nat) line,
         strings.Split example.apiSource newline !! i = Some line
         /\ Line issue = Z.of_nat i + 1
         /\ types.Rule issue = "missing_documentation"
         /\ strings.HasPrefix (strings.TrimSpace line) "func " = true
         /\ (i = 0%nat
             \/ strings.HasPrefix
                  (strings.TrimSpace
                     (index (strings.Split example.apiSource newline) (Z.of_nat i - 1)))
                  "//" = false)
         /\ (forall recv rest,
               strings.Fields line <> "func" :: String "(" recv :: rest).
Proof.
  assert (Hin : exists issue,
             In issue (rules.DocumentationRule.Check "proj/api.go" example.apiFile
                         example.apiSource)).
  { vm_compute. eexists. left. reflexivity. }
  destruct Hin as [issue Hin]. exists issue. split; [exact Hin|].
  exact (documentation_issue_origin _ _ _ _ Hin).
Defined.

(** ** Names *)



(** ** The ComplexityRule on a whole file *)

Lemma count_foldl (p : Issue -> bool) (q : ast.Node -> bool)
    (g : list Issue -> ast.Node -> list Issue) :
  (forall s x, spec.count p (g s x) = spec.count p s + if q x then 1 else 0) ->
  forall l s, spec.count p (foldl g s l) = spec.count p s + spec.countNodes q l.
Proof.
  intros Hg. induction l as [|x l IH]; intros s; simpl.
  - unfold spec.countNodes. simpl. lia.
  - rewrite IH, Hg, countNodes_cons. destruct (q x); lia.
Qed.

(** X24: on a whole file the ComplexityRule reports high_complexity once
    for each function declaration, at any depth of the tree, that has a
    name, a body and at least ten branching nodes, and for nothing else. *)
Theorem complexity_rule_counts file node content :
  spec.count (spec.hasRule "high_complexity")
             (rules.ComplexityRule.Check file node content)
  = spec.countNodes scan.tooComplex (spec.preorder node).
Proof.
  unfold rules.ComplexityRule.Check.
  rewrite (Inspect_preorder _
             (fun issues x =>
                match ast.kind x with
                | ast.FuncDecl fd =>
                    (issues ++ rules.ComplexityRule.checkFunctionComplexity file x fd)
                    ++ rules.ComplexityRule.checkFunctionSize file x fd
                | ast.IfStmt =>
                    issues ++ rules.ComplexityRule.checkDeepNesting file x content
                | _ => issues
                end)); [|reflexivity|reflexivity].
  rewrite (count_foldl _ scan.tooComplex); [reflexivity|].
  intros s x. unfold scan.tooComplex.
  destruct (ast.kind x) as [|fd| | | | | | | | | | |]; try lia.
  - rewrite !count_app.
    assert (Hsize : spec.count (spec.hasRule "high_complexity")
                      (rules.ComplexityRule.checkFunctionSize file x fd) = 0).
    { unfold rules.ComplexityRule.checkFunctionSize.
      destruct (ast.Body fd), (ast.FuncName fd); try reflexivity.
      cbv zeta. destruct (_ >? 50); reflexivity. }
    rewrite Hsize. unfold rules.ComplexityRule.checkFunctionComplexity.
    destruct (ast.Body fd), (ast.FuncName fd); try (rewrite count_nil; lia).
    rewrite calculateComplexity_count. cbv zeta.
    destruct (10 <=? spec.branchCount x) eqn:E.
    + apply Z.leb_le in E.
      assert (E' : (1 + spec.branchCount x >? 10) = true) by (apply Z.gtb_lt; lia).
      rewrite E'. rewrite count_cons, count_nil. simpl. lia.
    + apply Z.leb_gt in E.
      assert (E' : (1 + spec.branchCount x >? 10) = false)
        by (rewrite Z.gtb_ltb; apply Z.ltb_ge; lia).
      rewrite E', count_nil. lia.
  - rewrite count_app.
    assert (Hdeep : spec.count (spec.hasRule "high_complexity")
                      (rules.ComplexityRule.checkDeepNesting file x content) = 0).
    { unfold rules.ComplexityRule.checkDeepNesting. cbv zeta.
      destruct (_ <? _); [|reflexivity]. destruct (_ >? 4); reflexivity. }
    rewrite Hdeep. lia.
Qed.
